(** * Data Collection OFT generator: recipient and template core of app6.py

    A shallow embedding of the pure core of [src/app6.py] (recipient
    normalisation, display-name derivation, recipient validation, template
    registry, Jinja rendering, per-row processing) together with the
    properties stated about it.

    Modelling conventions.
    - A Python [str] is a [string]; its characters are 8-bit.  Case
      mapping ([str.lower], [str.capitalize]) and white-space
      classification ([str.strip], [str.split()], the regex class \s)
      are Python's on code points below 128; characters from 128 on are
      carried through unchanged (template prose outside ASCII is held as
      the bytes found in the source file).
    - A Python [dict] with string keys (a spreadsheet row, a render
      context) is an association list read with [get].
    - A Python [set] of strings is a [ListSet.set string].
    - Code that may raise returns an [outcome]; the Outlook session is an
      explicit state threaded through the calls that use it.
    - Libraries are embedded as far as the program uses them.  Jinja is
      embedded on templates of literal text and print blocks (a name,
      alone or with the filter [safe]); what it does with any other
      template is a variable [other_syntax] of the sections that
      render.  The text search of pandas is a variable [str_contains]
      of the case filter. *)

From Stdlib Require Import String Ascii List Bool Arith Lia ListSet.
From Stdlib Require Import Numbers.DecimalString.
Import ListNotations.
Open Scope list_scope.
Open Scope string_scope.

(** ** Python string primitives *)
Module PyStr.

Definition ord (c : ascii) : nat := nat_of_ascii c.

(** [str.isspace] on one character, code points below 128:
    TAB LF VT FF CR, FS GS RS US, SPACE. *)
Definition is_space (c : ascii) : bool :=
  let n := ord c in
  ((9 <=? n) && (n <=? 13) || (28 <=? n) && (n <=? 32))%nat.

Definition is_upper (c : ascii) : bool :=
  let n := ord c in ((65 <=? n) && (n <=? 90))%nat.

Definition is_lower (c : ascii) : bool :=
  let n := ord c in ((97 <=? n) && (n <=? 122))%nat.

Definition is_digit (c : ascii) : bool :=
  let n := ord c in ((48 <=? n) && (n <=? 57))%nat.

Definition lower_char (c : ascii) : ascii :=
  if is_upper c then ascii_of_nat (ord c + 32) else c.

Definition upper_char (c : ascii) : ascii :=
  if is_lower c then ascii_of_nat (ord c - 32) else c.

Fixpoint map_chars (f : ascii -> ascii) (s : string) : string :=
  match s with
  | EmptyString => EmptyString
  | String c r => String (f c) (map_chars f r)
  end.

(** [s.lower()] *)
Definition lower (s : string) : string := map_chars lower_char s.

(** [s.capitalize()] *)
Definition capitalize (s : string) : string :=
  match s with
  | EmptyString => EmptyString
  | String c r => String (upper_char c) (lower r)
  end.

(** [s.replace(a, b)] for one-character [a] and [b]. *)
Definition replace_char (a b : ascii) (s : string) : string :=
  map_chars (fun c => if Ascii.eqb c a then b else c) s.

(** [c in s] for a one-character [c]. *)
Fixpoint contains (c : ascii) (s : string) : bool :=
  match s with
  | EmptyString => false
  | String d r => Ascii.eqb d c || contains c r
  end.

Definition is_empty (s : string) : bool :=
  match s with EmptyString => true | _ => false end.

(** Python truthiness of a [str]. *)
Definition truthy (s : string) : bool := negb (is_empty s).

(** [a or b] on strings. *)
Definition or_else (a b : string) : string := if truthy a then a else b.

Fixpoint lstrip (s : string) : string :=
  match s with
  | EmptyString => EmptyString
  | String c r => if is_space c then lstrip r else s
  end.

Fixpoint rstrip (s : string) : string :=
  match s with
  | EmptyString => EmptyString
  | String c r =>
      let r' := rstrip r in
      if is_space c && is_empty r' then EmptyString else String c r'
  end.

(** [s.strip()] *)
Definition strip (s : string) : string := rstrip (lstrip s).

(** [s.split(sep)] for a one-character separator: one more piece than
    there are separators, empty pieces kept. *)
Fixpoint split (sep : ascii) (s : string) : list string :=
  match s with
  | EmptyString => [EmptyString]
  | String c r =>
      if Ascii.eqb c sep then EmptyString :: split sep r
      else match split sep r with
           | h :: t => String c h :: t
           | [] => [String c EmptyString]
           end
  end.

(** [s.split(sep, 1)]: the text before the first separator and, when
    there is one, the text after it. *)
Fixpoint split1 (sep : ascii) (s : string) : string * option string :=
  match s with
  | EmptyString => (EmptyString, None)
  | String c r =>
      if Ascii.eqb c sep then (EmptyString, Some r)
      else let '(h, t) := split1 sep r in (String c h, t)
  end.

(** [s.split()]: maximal runs of characters that are not white space.
    [cur] is the run being read. *)
Fixpoint split_ws_from (cur : string) (s : string) : list string :=
  match s with
  | EmptyString => if is_empty cur then [] else [cur]
  | String c r =>
      if is_space c
      then (if is_empty cur then split_ws_from EmptyString r
            else cur :: split_ws_from EmptyString r)
      else split_ws_from (cur ++ String c EmptyString) r
  end.

Definition split_ws (s : string) : list string := split_ws_from EmptyString s.

(** [sep.join(l)] *)
Definition join (sep : string) (l : list string) : string := String.concat sep l.

(** [str(n)] for a natural number. *)
Definition str_of_nat (n : nat) : string := NilEmpty.string_of_uint (Nat.to_uint n).

(** The double-quote character, as a string. *)
Definition dq : string := String (ascii_of_nat 34) EmptyString.
(** Line feed, carriage return, tab. *)
Definition LF : ascii := ascii_of_nat 10.
Definition CR : ascii := ascii_of_nat 13.
Definition TAB : ascii := ascii_of_nat 9.

End PyStr.

(** ** Recipient normaliser: [_split_recipients], [build_cc],
    [dedup_against_to], [strip_angle_display] *)
Module Recipients.
Import PyStr.

(** [_split_recipients]: commas become semicolons, the text is cut at
    every semicolon, pieces are stripped and empty ones dropped. *)
Definition _split_recipients (s : string) : list string :=
  let s := replace_char "," ";" (or_else s "") in
  map strip (filter (fun p => truthy (strip p)) (split ";" s)).

(** The loop of [build_cc] over [parts], with the set [seen] of keys and
    the list [out] built so far. *)
Fixpoint build_cc_loop (parts : list string) (seen : set string) (out : list string)
  : list string :=
  match parts with
  | [] => out
  | p :: rest =>
      let key := lower p in
      if set_mem string_dec key seen then build_cc_loop rest seen out
      else build_cc_loop rest (set_add string_dec key seen) (out ++ [p])%list
  end.

(** [parts] of [build_cc]: the tokens of every chunk, in argument order. *)
Definition build_cc_parts (chunks : list string) : list string :=
  flat_map _split_recipients chunks.

(** [out] of [build_cc] when its loop ends. *)
Definition build_cc_out (chunks : list string) : list string :=
  build_cc_loop (build_cc_parts chunks) (empty_set string) [].

Definition build_cc (chunks : list string) : string :=
  join "; " (build_cc_out chunks).

(** [to_set] of [dedup_against_to]. *)
Definition to_set (to_ : string) : set string :=
  fold_left (fun acc x => set_add string_dec (lower x) acc)
            (_split_recipients to_) (empty_set string).

Definition dedup_against_to (to_ cc_ : string) : string :=
  let cc_list :=
    filter (fun x => negb (set_mem string_dec (lower x) (to_set to_)))
           (_split_recipients cc_) in
  join "; " cc_list.

Definition strip_angle_display (s : string) : string :=
  let s := strip (or_else s "") in
  if contains "<" s && contains ">" s then
    let after := match snd (split1 "<" s) with Some t => t | None => "" end in
    let inside := strip (fst (split1 ">" after)) in
    or_else inside s
  else s.

End Recipients.

(** ** Regular expressions, as far as [EMAIL_RE] needs them *)
Module Regex.
Import PyStr.

Inductive re : Type :=
| Void
| Eps
| Class (p : ascii -> bool)
| Seq (a b : re)
| Alt (a b : re)
| Star (a : re).

(** [a+] *)
Definition Plus (a : re) : re := Seq a (Star a).

Fixpoint nullable (r : re) : bool :=
  match r with
  | Void => false
  | Eps => true
  | Class _ => false
  | Seq a b => nullable a && nullable b
  | Alt a b => nullable a || nullable b
  | Star _ => true
  end.

(** Brzozowski derivative of [r] by the character [c]. *)
Fixpoint deriv (c : ascii) (r : re) : re :=
  match r with
  | Void => Void
  | Eps => Void
  | Class p => if p c then Eps else Void
  | Seq a b =>
      if nullable a then Alt (Seq (deriv c a) b) (deriv c b)
      else Seq (deriv c a) b
  | Alt a b => Alt (deriv c a) (deriv c b)
  | Star a => Seq (deriv c a) (Star a)
  end.

(** [r] matches the whole of [s]. *)
Fixpoint fullmatch (r : re) (s : string) : bool :=
  match s with
  | EmptyString => nullable r
  | String c t => fullmatch (deriv c r) t
  end.

(** [s] without its last character when that is a line feed. *)
Fixpoint chop_newline (s : string) : option string :=
  match s with
  | EmptyString => None
  | String c r =>
      match r with
      | EmptyString => if Ascii.eqb c LF then Some EmptyString else None
      | _ => match chop_newline r with
             | Some r' => Some (String c r')
             | None => None
             end
      end
  end.

(** [match] of a compiled pattern [^r$]: the pattern is anchored at the
    start; [$] holds at the end of [s] and also just before a line feed
    that ends [s]. *)
Definition match_anchored (r : re) (s : string) : bool :=
  fullmatch r s ||
  match chop_newline s with
  | Some s' => fullmatch r s'
  | None => false
  end.

End Regex.

(** ** Display names, validation, file names *)
Module Validator.
Import PyStr Recipients Regex.

Definition derive_display_name_from_email (email : string) : string :=
  let email := strip_angle_display email in
  let local := fst (split1 "@" (or_else email "")) in
  let pretty :=
    strip (replace_char "-" " " (replace_char "_" " " (replace_char "." " " local))) in
  or_else (join " " (map capitalize (split_ws pretty))) "POC".

(** The class [[^@\s]]. *)
Definition not_at_or_space (c : ascii) : bool :=
  negb (Ascii.eqb c "@") && negb (is_space c).

(** [EMAIL_RE = ^[^@\s]+@[^@\s]+\.[^@\s]+$] *)
Definition EMAIL_RE : re :=
  Seq (Plus (Class not_at_or_space))
      (Seq (Class (Ascii.eqb "@"))
           (Seq (Plus (Class not_at_or_space))
                (Seq (Class (Ascii.eqb "."))
                     (Plus (Class not_at_or_space))))).

Definition looks_like_email (s : string) : bool :=
  let s := strip_angle_display s in
  match_anchored EMAIL_RE s.

(** The list [bad] of [assert_recipients_or_warn] when its loop ends. *)
Fixpoint bad_recipients (recips : list string) : list string :=
  match recips with
  | [] => []
  | r :: rest =>
      if String.eqb r "//" then bad_recipients rest
      else
        let core := strip_angle_display r in
        if contains "<" r && contains ">" r then
          (if negb (looks_like_email core) then r :: bad_recipients rest
           else bad_recipients rest)
        else
          (if negb (looks_like_email core) then r :: bad_recipients rest
           else bad_recipients rest)
  end.

(** [assert_recipients_or_warn]: the verdict and, when it is [false], the
    text passed to [st.warning]. *)
Definition assert_recipients_or_warn (row_idx : nat) (label recips : string)
  : bool * option string :=
  let bad := bad_recipients (_split_recipients recips) in
  match bad with
  | [] => (true, None)
  | _ => (false,
          Some ("Row " ++ str_of_nat (row_idx + 1) ++ ": Invalid " ++ label
                ++ " -> " ++ join ", " bad))
  end.

(** The characters of [bad] in [sanitize_filename]: less-than,
    greater-than, colon, double quote, slash, backslash, bar, question
    mark, star, line feed, carriage return, tab. *)
Definition bad_filename_chars : list ascii :=
  ["<"; ">"; ":"; ascii_of_nat 34; "/"; "\"; "|"; "?"; "*"; LF; CR; TAB]%char.

Definition sanitize_filename (name : string) : string :=
  let name := fold_left (fun nm ch => replace_char ch "-" nm) bad_filename_chars name in
  strip (join " " (split_ws name)).

End Validator.

(** ** Template rendering: [render_text] over Jinja's name interpolation *)
Module Jinja.
Import PyStr.

(** Result of code that may raise: the value returned, or the message of
    the exception. *)
Inductive outcome (A : Type) : Type :=
| Ret (a : A)
| Raise (msg : string).
Arguments Ret {A} a.
Arguments Raise {A} msg.

(** A [dict] with string keys and values. *)
Definition Dict := list (string * string).

Fixpoint get (d : Dict) (k : string) : option string :=
  match d with
  | [] => None
  | (k', v) :: rest => if String.eqb k' k then Some v else get rest k
  end.

(** [markupsafe.escape] on one character. *)
Definition escape_char (c : ascii) : string :=
  if Ascii.eqb c "&" then "&amp;"
  else if Ascii.eqb c ">" then "&gt;"
  else if Ascii.eqb c "<" then "&lt;"
  else if Ascii.eqb c "'" then "&#39;"
  else if Ascii.eqb c (ascii_of_nat 34) then "&#34;"
  else String c EmptyString.

Fixpoint escape (s : string) : string :=
  match s with
  | EmptyString => EmptyString
  | String c r => escape_char c ++ escape r
  end.

(** A compiled template: literal text and name lookups, in order; a
    name may be passed through the filter [safe]. *)
Inductive node : Type :=
| TemplateData (s : string)
| Name (n : string)
| MarkSafe (n : string).

Definition is_ident_start (c : ascii) : bool :=
  is_upper c || is_lower c || Ascii.eqb c "_".

Definition is_ident_char (c : ascii) : bool :=
  is_ident_start c || is_digit c.

(** Names that Jinja does not look up in the render context alone:
    constants, operators, [self] and the default globals.  A template
    that prints one of them is not covered by the scanner below. *)
Definition reserved : list string :=
  ["true"; "false"; "True"; "False"; "none"; "None";
   "not"; "and"; "or"; "in"; "is"; "if"; "else";
   "self"; "range"; "dict"; "lipsum"; "cycler"; "joiner"; "namespace"].

Definition is_reserved (n : string) : bool :=
  existsb (String.eqb n) reserved.

(** Newlines [\r\n] and [\r] of the source become [\n]. *)
Fixpoint normalize_newlines (s : string) : string :=
  match s with
  | EmptyString => EmptyString
  | String c r =>
      if Ascii.eqb c CR then
        match r with
        | String d r' =>
            if Ascii.eqb d LF then String LF (normalize_newlines r')
            else String LF (normalize_newlines r)
        | EmptyString => String LF EmptyString
        end
      else String c (normalize_newlines r)
  end.

(** [keep_trailing_newline=False]: one newline at the very end is dropped. *)
Fixpoint drop_trailing_newline (s : string) : string :=
  match s with
  | EmptyString => EmptyString
  | String c r =>
      if Ascii.eqb c LF && is_empty r then EmptyString
      else String c (drop_trailing_newline r)
  end.

(** States of the scanner: in literal text; after one [{]; after [{{]
    before the name; inside the name; after the name; after the first
    closing [}]; and, for a name with a filter, after the bar, inside
    the filter's name, after it, and after the first closing [}]. *)
Inductive mode : Type :=
| Data
| Brace
| Open
| InName (acc : string)
| After (name : string)
| Close (name : string)
| Pipe (name : string)
| InFilter (name acc : string)
| AfterFilter (name : string)
| CloseFilter (name : string).

Definition push_data (c : ascii) (r : option (list node)) : option (list node) :=
  match r with
  | Some (TemplateData d :: t) => Some (TemplateData (String c d) :: t)
  | Some t => Some (TemplateData (String c EmptyString) :: t)
  | None => None
  end.

Definition push_name (n : string) (r : option (list node)) : option (list node) :=
  match r with
  | Some t => Some (Name n :: t)
  | None => None
  end.

Definition push_safe (n : string) (r : option (list node)) : option (list node) :=
  match r with
  | Some t => Some (MarkSafe n :: t)
  | None => None
  end.

(** The scanner, for templates made of literal text and print blocks
    [{{ name }}] and [{{ name|safe }}]: text runs up to [{{]; a print
    block is an identifier, alone or followed by a bar and the filter
    name [safe], with optional white space around each of them.  [None]
    is every other template: one that uses more of Jinja's syntax (a
    statement or comment block, another filter, an expression other
    than a name, a name that Jinja resolves on its own, white-space
    control) or that is malformed.  Such a template is not compiled
    here. *)
Fixpoint lex (m : mode) (s : string) : option (list node) :=
  match s with
  | EmptyString =>
      match m with
      | Data => Some []
      | Brace => Some [TemplateData "{"]
      | _ => None
      end
  | String c r =>
      match m with
      | Data =>
          if Ascii.eqb c "{" then lex Brace r else push_data c (lex Data r)
      | Brace =>
          if Ascii.eqb c "{" then lex Open r
          else if Ascii.eqb c "%" || Ascii.eqb c "#" then None
          else push_data "{" (push_data c (lex Data r))
      | Open =>
          if is_space c then lex Open r
          else if is_ident_start c then lex (InName (String c EmptyString)) r
          else None
      | InName acc =>
          if is_ident_char c then lex (InName (acc ++ String c EmptyString)) r
          else if is_space c then lex (After acc) r
          else if Ascii.eqb c "}" then lex (Close acc) r
          else if Ascii.eqb c "|" then lex (Pipe acc) r
          else None
      | After name =>
          if is_space c then lex (After name) r
          else if Ascii.eqb c "}" then lex (Close name) r
          else if Ascii.eqb c "|" then lex (Pipe name) r
          else None
      | Close name =>
          if Ascii.eqb c "}" then
            (if is_reserved name then None else push_name name (lex Data r))
          else None
      | Pipe name =>
          if is_space c then lex (Pipe name) r
          else if is_ident_start c then lex (InFilter name (String c EmptyString)) r
          else None
      | InFilter name acc =>
          if is_ident_char c then lex (InFilter name (acc ++ String c EmptyString)) r
          else if negb (String.eqb acc "safe") then None
          else if is_space c then lex (AfterFilter name) r
          else if Ascii.eqb c "}" then lex (CloseFilter name) r
          else None
      | AfterFilter name =>
          if is_space c then lex (AfterFilter name) r
          else if Ascii.eqb c "}" then lex (CloseFilter name) r
          else None
      | CloseFilter name =>
          if Ascii.eqb c "}" then
            (if is_reserved name then None else push_safe name (lex Data r))
          else None
      end
  end.

(** The source as the scanner reads it: newlines normalised, one final
    newline dropped. *)
Definition prepare (source : string) : string :=
  drop_trailing_newline (normalize_newlines source).

(** [_JINJA_ENV.from_string(template_str)], on the templates that the
    scanner covers. *)
Definition from_string (template_str : string) : option (list node) :=
  lex Data (prepare template_str).

(** What one node prints: literal text as it is; a name as the escaped
    context value (auto-escape is on for string templates), or nothing
    when the context has no such name (Jinja's default [Undefined]); a
    name marked safe as the context value itself, which auto-escape
    leaves alone. *)
Definition render_node (context : Dict) (n : node) : string :=
  match n with
  | TemplateData d => d
  | Name x =>
      match get context x with
      | Some v => escape v
      | None => EmptyString
      end
  | MarkSafe x =>
      match get context x with
      | Some v => v
      | None => EmptyString
      end
  end.

(** The text that a compiled template renders to. *)
Definition render (tmpl : list node) (context : Dict) : string :=
  String.concat EmptyString (map (render_node context) tmpl).

(** The message of the [TypeError] that Python raises when the context
    has the key [self]: passed as a keyword argument it collides with
    the first parameter of the method [render] (the wording is that of
    Python 3.10 and later). *)
Definition self_collision : string :=
  "Template.render() got multiple values for argument 'self'".

(** [tmpl.render] called with the entries of [context] as keyword
    arguments. *)
Definition call_render (tmpl : list node) (context : Dict) : outcome string :=
  match get context "self" with
  | Some _ => Raise self_collision
  | None => Ret (render tmpl context)
  end.

Section Library.

(** What Jinja does with a template that the scanner above does not
    cover: it may raise (a syntax error, an undefined value used in an
    expression) or render, and either may depend on the context.  That
    part of the library is left open. *)
Variable other_syntax : string -> Dict -> outcome string.

Definition render_text (template_str : string) (context : Dict) : outcome string :=
  match from_string template_str with
  | Some tmpl => call_render tmpl context
  | None => other_syntax template_str context
  end.

End Library.

(** The names a template prints, in order. *)
Definition names_of (tmpl : list node) : list string :=
  flat_map (fun n => match n with
                     | Name x | MarkSafe x => [x]
                     | TemplateData _ => []
                     end) tmpl.

Definition placeholders (template_str : string) : option (list string) :=
  match from_string template_str with
  | Some tmpl => Some (names_of tmpl)
  | None => None
  end.

End Jinja.

(** ** Subjects and bodies: the template registry *)
Module Templates.
Import PyStr Jinja.

(** States of a formatted string literal: in literal text; after one [{];
    inside a replacement field; after one [}]. *)
Inductive fmode : Type :=
| Lit
| LBrace
| Field (acc : string)
| RBrace.

(** Evaluation of a formatted string literal (an f-string) whose
    replacement fields are plain variable names, read from [env]: a
    doubled brace stands for one brace, [{name}] for the value of [name].
    Forms that Python rejects when it compiles the file (a lone closing
    brace, an empty or unterminated field) do not occur in the literals
    below; on them the brace is dropped. *)
Fixpoint fstring (env : Dict) (m : fmode) (s : string) : string :=
  match s with
  | EmptyString => EmptyString
  | String c r =>
      match m with
      | Lit =>
          if Ascii.eqb c "{" then fstring env LBrace r
          else if Ascii.eqb c "}" then fstring env RBrace r
          else String c (fstring env Lit r)
      | LBrace =>
          if Ascii.eqb c "{" then String "{" (fstring env Lit r)
          else if Ascii.eqb c "}" then fstring env Lit r
          else fstring env (Field (String c EmptyString)) r
      | Field acc =>
          if Ascii.eqb c "}" then
            match get env acc with
            | Some v => v ++ fstring env Lit r
            | None => fstring env Lit r
            end
          else fstring env (Field (acc ++ String c EmptyString)) r
      | RBrace =>
          if Ascii.eqb c "}" then String "}" (fstring env Lit r)
          else String c (fstring env Lit r)
      end
  end.

Definition SUBJECT_ERD : string :=
  "ER&D Data Collection - {{ case_code }} ({{ client_name }})".

Definition BODY_SEBASTIAN_ERD : string :=
  "
<p>Hi {{ case_manager_name }},</p>

<p>Hope you are doing well!</p>

<p>
I am the practice manager for Engineering and R&amp;D and I wanted to reach out regarding your work with <strong>{{ client_name }}</strong> (<strong>{{ case_code }}</strong>). From what we heard your case also included an ER&amp;D component and we would like to get your support with PI practice‚Äôs efforts in building proprietary ER&amp;D benchmarking databases.
</p>

<p>
The benchmarking team (in cc) will be reaching out with specifics. The team can help address any queries and will work with you to gather data for our Benchmarking database. If you feel that you do not have visibility for the asked information or access to client data on ER&amp;D, please let us know.
For your reference, in case there are any concerns regarding sharing sensitive client data or confidentiality, we have worked extensively with Legal, and the standard Bain MSA includes language that allows us to collect and store data for benchmarking purposes. Moreover, our Benchmarking CoE team follows a very rigorous ‚Äúdouble blind‚Äù process that disguises and protects any client data collected. BCoE also has a ‚Äúdo not contact‚Äù list that tells us explicitly which clients we should not collect data from, per their contracts.
</p>

<p>
Additionally, we would also like to highlight potential benchmarking resources, please refer to the Guide to ER&amp;D Benchmarking Sources, for more details on the R&amp;D benchmarks available with our Benchmarking CoE team. We also have a wide array of benchmarks across functions like Support functions, Supply Chain and ZBB from proprietary databases (curated by Bain experts) and other third party vendors (APQC, Gartner, IFMA, ALM, Stella, MPI etc.) available with us.
</p>

<p>Thanks in advance!</p>

<p>Best,<br/>Sebastian</p>
".

Definition BODY_POC_ERD : string :=
  "
<p>Hi {{ case_manager_name }},</p>

<p>Hope you're doing well!</p>

<p>
I work with the Benchmarking team and following up on e-mail below, we would need your support in completing the <a href=" ++ dq ++ "https://benchmarkingsurvey.bain.com/" ++ dq ++ ">linked survey</a> based on the ER&amp;D work you are doing with <strong>{{ client_name }}</strong>(<strong>{{ case_code }}</strong>). To kick-start this data collection, we have two asks from you at this point:
</p>

<ul>
<li>Identify a case team member for this task who can work with us in filling the linked survey, and we‚Äôll provide the access link from our end</li>
<li>Set up a brief call to align on what kind of data would be available and how we can best work together on this. I can directly run through your calendar or work with your EA and find a convenient slot. Let me know what works best for you</li>
</ul>

<p>Thank you,<br/>{{ poc_display_name }}</p>

<p><em>More details on the survey</em></p>

<p><strong>Content:</strong> A high level view of the survey: You'll find instructions on the first tab and definitions throughout the survey as you click to enter data. We are collecting data across the following sections:</p>
<ul>
<li>‚ÄòDemographics' tab: Descriptors of the company or business unit in scope for Bain case ‚Äì this spans basic demographics, financials, ownership, organization, and strategic/competitive position</li>
<li>‚ÄòOverall ER&amp;D Survey‚Äô tab: Data on overall R&amp;D cost, organization layers, time spent, and performance</li>
<li>‚ÄòER&amp;D SW Survey‚Äô tab: More focused on software-specific metrics such as developer time, code, pull requests, development efficiency, and more. Please feel free to skip this tab if it's not relevant.</li>
</ul>

<p>Important points to note are that we are aiming to get following separate sets of data:</p>
<ul>
<li>‚ÄòAs-Is' data: Client data at the start of the Bain work (would also include any estimates that the Bain case team has made which reflect the As-Is state of the client, and can be used for Benchmarking purposes)</li>
<li>‚ÄòTo-Be‚Äô data: Committed targets/recommendations, ideally the values which have been agreed to by the client based on Bain work</li>
</ul>
".

Definition BODY_ASEEM_ERD : string :=
  "
<p>Hi {{ case_manager_name }},</p>

<p>Hope you're doing well.</p>

<p>
I lead the ER&amp;D benchmarking team at BCN and following up on the below, it would be great if you could connect us to a team member who can help us in filling the attached ER&amp;D data survey for <strong>{{ client_name }}</strong>.
</p>

<p>
If in case you‚Äôre tied up with case work, please feel free to let us know if we should get back at a later date.
</p>

<p>Looking forward to hearing from you.</p>

<p>Best,<br/>Aseem</p>
".

Definition _lipsum_initial (func_label : string) : string :=
  strip (fstring [("func_label", func_label)] Lit
  ("
<p>Hi {{ {{ case_manager_name }} }},</p>

<p>Hope you are doing well!</p>

<p>
I am writing regarding your work with <strong>{{{{ client_name }}}}</strong> (<strong>{{{{ case_code }}}}</strong>) and our ongoing Data Collection initiative for <strong>{func_label}</strong>. Lorem ipsum dolor sit amet, consectetur adipiscing elit, sed do eiusmod tempor incididunt ut labore et dolore magna aliqua.
</p>

<p>
The benchmarking team (in cc) will follow up with specifics and support throughout the process. In case of any concerns about data handling or confidentiality, please note we follow a rigorous process to protect client information. Lorem ipsum dolor sit amet, consectetur adipiscing elit.
</p>

<p>Thanks in advance!</p>

<p>Best,<br/>Sebastian</p>
")).

Definition _lipsum_poc (func_label : string) : string :=
  strip (fstring [("func_label", func_label)] Lit
  ("
<p>Hi {{ {{ case_manager_name }} }},</p>

<p>Hope you're doing well!</p>

<p>
Following up on the note below, we would appreciate your support in completing the <a href=" ++ dq ++ "#" ++ dq ++ ">linked survey</a> for <strong>{func_label}</strong> based on the work with <strong>{{{{ client_name }}}}</strong> (<strong>{{{{ case_code }}}}</strong>). To kick-start, we have two quick asks:
</p>

<ul>
<li>Identify a team member who can work with us to fill the survey; we will share access from our end.</li>
<li>Set up a brief call to align on available data and the best way to collaborate. Lorem ipsum dolor sit amet.</li>
</ul>

<p>Thank you,<br/>{{{{ poc_display_name }}}}</p>

<p><em>More details on the survey</em></p>

<p><strong>Content:</strong> Lorem ipsum dolor sit amet, consectetur adipiscing elit. Sections include basic demographics, process measures, and performance indicators relevant to {func_label}.</p>
<ul>
<li>‚ÄòDemographics‚Äô tab</li>
<li>‚ÄòOverall {func_label} Survey‚Äô tab</li>
<li>‚Äò{func_label} Advanced‚Äô tab (optional)</li>
</ul>

<p>We aim to collect both ‚ÄòAs-Is‚Äô and ‚ÄòTo-Be‚Äô data. Lorem ipsum dolor sit amet.</p>
")).

Definition _lipsum_escalation (func_label : string) : string :=
  strip (fstring [("func_label", func_label)] Lit
  ("
<p>Hi {{ {{ case_manager_name }} }},</p>

<p>Hope you're doing well.</p>

<p>
Following up on the below, it would be great if you could connect us to a team member who can help fill the attached data survey for <strong>{{{{ client_name }}}}</strong> ({func_label}). Lorem ipsum dolor sit amet, consectetur adipiscing elit.
</p>

<p>
If you're tied up with case work, happy to reconnect at a later date. Looking forward to hearing from you.
</p>

<p>Best,<br/>Aseem</p>
")).

Definition FUNCTIONS : list string :=
  ["ER&D"; "Supply Chain"; "Procurement"; "Manufacturing"].

(** The dictionary returned by [get_templates_for_function]. *)
Record TemplateSet : Type := {
  subject : string;
  sebastian : string;
  poc : string;
  aseem : string;
  subject_label : string
}.

Definition get_templates_for_function (func_name : string) : TemplateSet :=
  if String.eqb func_name "ER&D" then
    {| subject := SUBJECT_ERD;
       sebastian := BODY_SEBASTIAN_ERD;
       poc := BODY_POC_ERD;
       aseem := BODY_ASEEM_ERD;
       subject_label := "ER&D" |}
  else
    let subject :=
      fstring [("func_name", func_name)] Lit
        "{func_name} Data Collection - {{ {{ case_code }} }} ({{ {{ client_name }} }})" in
    {| subject := subject;
       sebastian := _lipsum_initial func_name;
       poc := _lipsum_poc func_name;
       aseem := _lipsum_escalation func_name;
       subject_label := func_name |}.

End Templates.

(** ** Row processor: the generate loop of [run_oft_generator_for_function] *)
Module Processor.
Import PyStr Recipients Validator Jinja Templates.

Definition bytes := list Byte.byte.

(** The fields that [create_oft_bytes_reuse] sets on the mail item. *)
Record MailItem : Type := {
  To : string;
  CC : string;
  BCC : string;
  Subject : string;
  BodyFormat : nat;
  HTMLBody : string
}.

(** [str(r.get(k) or "")] *)
Definition field (r : Dict) (k : string) : string :=
  match get r k with
  | Some v => or_else v ""
  | None => ""
  end.

(** The four status lines. *)
Definition status_skipped_missing (i : nat) : string :=
  "Row " ++ str_of_nat (i + 1) ++ ": SKIPPED ‚Äì missing client/code/to".
Definition status_skipped_invalid (i : nat) : string :=
  "Row " ++ str_of_nat (i + 1) ++ ": SKIPPED ‚Äì invalid recipients".
Definition status_ok (i : nat) (base : string) : string :=
  "Row " ++ str_of_nat (i + 1) ++ ": OK ‚Äì " ++ base.
Definition status_failed (i : nat) (e : string) : string :=
  "Row " ++ str_of_nat (i + 1) ++ ": FAILED ‚Äì " ++ e.

Section Batch.

(** The Outlook COM session: its state, and what creating a mail item,
    saving it as a template and reading the file back does.  The call
    may raise; the session moves on either way. *)
Variable Outlook : Type.
Variable SaveAs : Outlook -> MailItem -> Outlook * outcome bytes.
(** [datetime.now().strftime("%d %b %Y")] while row [i] is processed. *)
Variable today : nat -> string.
(** Jinja on the templates that [Jinja.lex] does not cover. *)
Variable other_syntax : string -> Dict -> outcome string.

Local Abbreviation render_text := (render_text other_syntax).

(** What the loop reads and writes: the session, the entries written to
    the archive [zf], the [status] list, the warnings shown. *)
Record World : Type := {
  session : Outlook;
  zf : list (string * bytes);
  status : list string;
  warnings : list string
}.

(** Computations that change the world and may raise; what was done
    before an exception stays done. *)
Definition M (A : Type) : Type := World -> outcome A * World.

Definition ret {A : Type} (a : A) : M A := fun w => (Ret a, w).

Definition bind {A B : Type} (m : M A) (k : A -> M B) : M B :=
  fun w =>
    match m w with
    | (Ret a, w') => k a w'
    | (Raise e, w') => (Raise e, w')
    end.

Notation "x <- m ;; k" := (bind m (fun x => k))
  (at level 61, m at next level, right associativity).
Notation "m ;;; k" := (bind m (fun _ => k))
  (at level 61, right associativity).

(** A pure call that may raise. *)
Definition lift {A : Type} (r : outcome A) : M A := fun w => (r, w).

Definition append_status (line : string) : M unit :=
  fun w => (Ret tt, {| session := session w; zf := zf w;
                       status := (status w ++ [line])%list;
                       warnings := warnings w |}).

(** [zf.writestr(path, data)] *)
Definition writestr (path : string) (data : bytes) : M unit :=
  fun w => (Ret tt, {| session := session w; zf := (zf w ++ [(path, data)])%list;
                       status := status w; warnings := warnings w |}).

(** [assert_recipients_or_warn] with its [st.warning] call. *)
Definition check_recipients (row_idx : nat) (label recips : string) : M bool :=
  fun w =>
    match assert_recipients_or_warn row_idx label recips with
    | (ok, Some msg) =>
        (Ret ok, {| session := session w; zf := zf w; status := status w;
                    warnings := (warnings w ++ [msg])%list |})
    | (ok, None) => (Ret ok, w)
    end.

Definition create_oft_bytes_reuse (subject to_ cc_ bcc_ html_body : string) : M bytes :=
  fun w =>
    let mail := {| To := to_; CC := cc_; BCC := bcc_;
                   Subject := or_else subject " ";
                   BodyFormat := 2;
                   HTMLBody := html_body |} in
    let '(o, res) := SaveAs (session w) mail in
    (res, {| session := o; zf := zf w; status := status w; warnings := warnings w |}).

(** The body of the [try] block for row [r] at index [i]. *)
Definition row_body (tpls : TemplateSet) (i : nat) (r : Dict) : M unit :=
  let SUBJECT_COMMON := subject tpls in
  let BODY_SEBASTIAN := sebastian tpls in
  let BODY_POC := poc tpls in
  let BODY_ASEEM := aseem tpls in
  let client := strip (field r "client_name") in
  let code := strip (field r "case_code") in
  let cm := strip (field r "case_manager_name") in
  let to_ := strip (field r "to") in
  let tl := strip (field r "team_lead_email") in
  let poc := strip (field r "POC_name") in
  let poc_disp := or_else (strip (field r "POC_display_name"))
                          (derive_display_name_from_email poc) in
  let extra := strip (field r "extra_cc") in
  if negb (truthy client && truthy code && truthy to_) then
    append_status (status_skipped_missing i)
  else
    let ctx := [("client_name", client);
                ("case_code", code);
                ("case_manager_name", cm);
                ("poc_display_name", poc_disp);
                ("today", today i)] in
    subject <- lift (render_text SUBJECT_COMMON ctx) ;;
    let base := sanitize_filename (client ++ " - " ++ code) in
    let bcc_val := "//" in
    let cc1_build := build_cc [tl; poc; extra; "ERDDBTeam.Global@Bain.com"] in
    let cc2_build := build_cc ["ERDDBTeam.Global@Bain.com"; tl; "Sebastian.Sambale@Bain.com"] in
    let cc3_build := build_cc ["Sebastian.Sambale@Bain.com"; tl; "ERDDBTeam.Global@Bain.com"; poc] in
    let cc1 := dedup_against_to to_ cc1_build in
    let cc2 := dedup_against_to to_ cc2_build in
    let cc3 := dedup_against_to to_ cc3_build in
    ok0 <- check_recipients i "To" to_ ;;
    ok1 <- check_recipients i "CC (Sebastian)" cc1 ;;
    ok2 <- check_recipients i "CC (POC)" cc2 ;;
    ok3 <- check_recipients i "CC (Aseem)" cc3 ;;
    let ok := true && ok0 && ok1 && ok2 && ok3 in
    if negb ok then
      append_status (status_skipped_invalid i)
    else
      body <- lift (render_text BODY_SEBASTIAN ctx) ;;
      oft_bytes <- create_oft_bytes_reuse subject to_ cc1 bcc_val body ;;
      writestr ("1_Sebastian_Initial/" ++ base ++ ".oft") oft_bytes ;;;
      body <- lift (render_text BODY_POC ctx) ;;
      oft_bytes <- create_oft_bytes_reuse subject to_ cc2 bcc_val body ;;
      writestr ("2_POC_Follow_Up/" ++ base ++ ".oft") oft_bytes ;;;
      body <- lift (render_text BODY_ASEEM ctx) ;;
      oft_bytes <- create_oft_bytes_reuse subject to_ cc3 bcc_val body ;;
      writestr ("3_Aseem_Escalation/" ++ base ++ ".oft") oft_bytes ;;;
      append_status (status_ok i base).

(** One turn of the loop: the [try] block and its [except Exception]. *)
Definition process_row (tpls : TemplateSet) (i : nat) (r : Dict) (w : World) : World :=
  match row_body tpls i r w with
  | (Ret _, w') => w'
  | (Raise e, w') =>
      {| session := session w'; zf := zf w';
         status := (status w' ++ [status_failed i e])%list;
         warnings := warnings w' |}
  end.

(** [for i, r in enumerate(rows)], from index [i] on. *)
Fixpoint run_rows (tpls : TemplateSet) (i : nat) (rows : list Dict) (w : World) : World :=
  match rows with
  | [] => w
  | r :: rest => run_rows tpls (S i) rest (process_row tpls i r w)
  end.

(** The generate branch of [run_oft_generator_for_function]: a fresh
    archive and status list, the session as opened. *)
Definition run_oft_generator_for_function (func_name : string) (rows : list Dict)
    (outlook : Outlook) : World :=
  let tpls := get_templates_for_function func_name in
  run_rows tpls 0 rows
    {| session := outlook; zf := []; status := []; warnings := [] |}.

End Batch.

Arguments session {Outlook} _.
Arguments zf {Outlook} _.
Arguments status {Outlook} _.
Arguments warnings {Outlook} _.

End Processor.

(** ** Names for the values that [row_body] computes from a row *)
Module Stages.
Import PyStr Recipients Validator Jinja Templates Processor.

(** Reading of the claim about [dedup_against_to]: the e-mail part of an
    entry is the text between the first [<] and the first [>] after it,
    and the whole entry when it has no such pair. *)
Definition spec_email (entry : string) : string :=
  match split1 "<" entry with
  | (_, Some after) =>
      match split1 ">" after with
      | (inside, Some _) => inside
      | (_, None) => entry
      end
  | (_, None) => entry
  end.

(** [dedupAgainstTo] as the claim words it: a CC entry goes when its
    lower-cased e-mail part equals that of some To entry. *)
Definition spec_dedupAgainstTo (to_ cc_ : string) : string :=
  join "; "
    (filter (fun x =>
               negb (existsb (fun y => String.eqb (lower (spec_email y))
                                                  (lower (spec_email x)))
                             (_split_recipients to_)))
            (_split_recipients cc_)).

(** Order of first occurrence, said without a set: an element stays when
    none of the elements [earlier] in the list has its lower-cased text. *)
Fixpoint first_occurrences_from (earlier parts : list string) : list string :=
  match parts with
  | [] => []
  | p :: rest =>
      let tail := first_occurrences_from (earlier ++ [p])%list rest in
      if existsb (fun q => String.eqb (lower q) (lower p)) earlier
      then tail else p :: tail
  end.

Definition first_occurrences (parts : list string) : list string :=
  first_occurrences_from [] parts.

(** A recipient token: not empty, nothing to strip, no separator inside. *)
Definition clean (t : string) : Prop :=
  t <> "" /\ strip t = t /\ contains ";" t = false /\ contains "," t = false.

(** An identifier: a letter or underscore, then letters, digits,
    underscores. *)
Fixpoint all_chars (p : ascii -> bool) (s : string) : bool :=
  match s with
  | EmptyString => true
  | String c r => p c && all_chars p r
  end.



(** The text of a template as the claims about rendering read it: a
    sequence of literal text and print blocks, a print block being a
    name alone or a name passed through the filter [safe]. *)
Inductive piece : Type :=
| Text (d : string)
| Print (pad1 name pad2 : string)
| PrintSafe (pad1 name pad2 pad3 pad4 : string).

Definition piece_source (p : piece) : string :=
  match p with
  | Text d => d
  | Print pad1 name pad2 => "{{" ++ pad1 ++ name ++ pad2 ++ "}}"
  | PrintSafe pad1 name pad2 pad3 pad4 =>
      "{{" ++ pad1 ++ name ++ pad2 ++ "|" ++ pad3 ++ "safe" ++ pad4 ++ "}}"
  end.

Fixpoint source (ps : list piece) : string :=
  match ps with
  | [] => ""
  | p :: rest => piece_source p ++ source rest
  end.

(** Literal text: no opening brace in it is followed by a second brace,
    a percent sign or a hash, which would open a block; and none ends
    it when [more] pieces follow. *)
Fixpoint literal (more : bool) (d : string) : bool :=
  match d with
  | EmptyString => true
  | String c r =>
      if Ascii.eqb c "{" then
        match r with
        | EmptyString => negb more
        | String c' _ =>
            negb (Ascii.eqb c' "{" || Ascii.eqb c' "%" || Ascii.eqb c' "#")
            && literal more r
        end
      else literal more r
  end.










(** The locals of [row_body]. *)
Definition row_client (r : Dict) : string := strip (field r "client_name").
Definition row_code (r : Dict) : string := strip (field r "case_code").
Definition row_to (r : Dict) : string := strip (field r "to").
Definition row_tl (r : Dict) : string := strip (field r "team_lead_email").
Definition row_poc (r : Dict) : string := strip (field r "POC_name").
Definition row_extra (r : Dict) : string := strip (field r "extra_cc").

Definition row_present (r : Dict) : bool :=
  truthy (row_client r) && truthy (row_code r) && truthy (row_to r).

Definition row_ctx (today_i : string) (r : Dict) : Dict :=
  [("client_name", row_client r);
   ("case_code", row_code r);
   ("case_manager_name", strip (field r "case_manager_name"));
   ("poc_display_name",
    or_else (strip (field r "POC_display_name"))
            (derive_display_name_from_email (row_poc r)));
   ("today", today_i)].

Definition row_base (r : Dict) : string :=
  sanitize_filename (row_client r ++ " - " ++ row_code r).

Definition row_cc1 (r : Dict) : string :=
  dedup_against_to (row_to r)
    (build_cc [row_tl r; row_poc r; row_extra r; "ERDDBTeam.Global@Bain.com"]).
Definition row_cc2 (r : Dict) : string :=
  dedup_against_to (row_to r)
    (build_cc ["ERDDBTeam.Global@Bain.com"; row_tl r; "Sebastian.Sambale@Bain.com"]).
Definition row_cc3 (r : Dict) : string :=
  dedup_against_to (row_to r)
    (build_cc ["Sebastian.Sambale@Bain.com"; row_tl r; "ERDDBTeam.Global@Bain.com"; row_poc r]).

(** The verdict of [assert_recipients_or_warn], which does not depend on
    the row index or the label. *)
Definition valid_recipients (recips : string) : bool :=
  match bad_recipients (_split_recipients recips) with
  | [] => true
  | _ => false
  end.

Definition row_recipients_ok (r : Dict) : bool :=
  valid_recipients (row_to r) && valid_recipients (row_cc1 r)
  && valid_recipients (row_cc2 r) && valid_recipients (row_cc3 r).

Definition path1 (r : Dict) : string := "1_Sebastian_Initial/" ++ row_base r ++ ".oft".
Definition path2 (r : Dict) : string := "2_POC_Follow_Up/" ++ row_base r ++ ".oft".
Definition path3 (r : Dict) : string := "3_Aseem_Escalation/" ++ row_base r ++ ".oft".

(** The mail item that [create_oft_bytes_reuse] hands to Outlook. *)
Definition mail_item (subject to_ cc_ html_body : string) : MailItem :=
  {| To := to_; CC := cc_; BCC := "//";
     Subject := or_else subject " ";
     BodyFormat := 2;
     HTMLBody := html_body |}.

(** A world with the given session and nothing written yet. *)
Definition fresh {Outlook : Type} (o : Outlook) : World Outlook :=
  {| session := o; zf := []; status := []; warnings := [] |}.

(** [w] followed by what [d] wrote. *)
Definition extend {Outlook : Type} (w d : World Outlook) : World Outlook :=
  {| session := session d;
     zf := (zf w ++ zf d)%list;
     status := (status w ++ status d)%list;
     warnings := (warnings w ++ warnings d)%list |}.

(** The row of the end-to-end example. *)
Definition acme_row : Dict :=
  [("client_name", "Acme"); ("case_code", "C100"); ("case_manager_name", "");
   ("to", "cm@acme.com"); ("team_lead_email", "tl@acme.com");
   ("POC_name", "poc@acme.com"); ("POC_display_name", ""); ("extra_cc", "")].

End Stages.

(** * Properties *)

(** ** Strings *)
Module StrFacts.
Import PyStr.

Lemma or_else_empty (s : string) : or_else s "" = s.
Proof. destruct s; reflexivity. Qed.

Lemma truthy_true (s : string) : truthy s = true <-> s <> "".
Proof.
  destruct s; unfold truthy; simpl; split; intros H; congruence.
Qed.

Lemma contains_app (c : ascii) (a b : string) :
  contains c (a ++ b) = contains c a || contains c b.
Proof.
  induction a as [|d a IH]; simpl; [reflexivity|].
  rewrite IH. apply orb_assoc.
Qed.

Lemma replace_char_absent (a b : ascii) (s : string) :
  contains a s = false -> replace_char a b s = s.
Proof.
  unfold replace_char. induction s as [|c s IH]; simpl; intros H; [reflexivity|].
  apply orb_false_iff in H as [Hc Hs].
  rewrite Hc, (IH Hs). reflexivity.
Qed.

Lemma replace_char_removes (a b : ascii) (s : string) :
  Ascii.eqb b a = false -> contains a (replace_char a b s) = false.
Proof.
  intros Hab. unfold replace_char.
  induction s as [|c s IH]; simpl; [reflexivity|].
  rewrite IH, orb_false_r.
  destruct (Ascii.eqb c a) eqn:E; assumption.
Qed.

(** *** [split] *)

Lemma split_not_nil (sep : ascii) (s : string) : split sep s <> [].
Proof.
  destruct s as [|c s]; simpl; [discriminate|].
  destruct (Ascii.eqb c sep); [discriminate|].
  destruct (split sep s); discriminate.
Qed.

Lemma split_other (sep c : ascii) (s : string) :
  Ascii.eqb c sep = false ->
  exists h t, split sep s = h :: t /\ split sep (String c s) = String c h :: t.
Proof.
  intros Hc. simpl. rewrite Hc.
  destruct (split sep s) as [|h t] eqn:E.
  - exfalso. exact (split_not_nil sep s E).
  - exists h, t. split; reflexivity.
Qed.

Lemma split_app_sep (sep : ascii) (a b : string) :
  contains sep a = false ->
  split sep (a ++ String sep b) = a :: split sep b.
Proof.
  induction a as [|c a IH]; simpl; intros H.
  - rewrite Ascii.eqb_refl. reflexivity.
  - apply orb_false_iff in H as [Hc Ha].
    rewrite Hc, (IH Ha). reflexivity.
Qed.

Lemma split_no_sep (sep : ascii) (s : string) :
  contains sep s = false -> split sep s = [s].
Proof.
  induction s as [|c s IH]; simpl; intros H; [reflexivity|].
  apply orb_false_iff in H as [Hc Hs].
  rewrite Hc, (IH Hs). reflexivity.
Qed.

(** A piece holds no separator, and no character that the text lacks. *)
Lemma split_pieces (sep : ascii) (s p : string) :
  In p (split sep s) ->
  contains sep p = false /\ forall c, contains c p = true -> contains c s = true.
Proof.
  revert p. induction s as [|c s IH]; simpl; intros p Hin.
  - destruct Hin as [<-|[]]. split; [reflexivity|]. intros d Hd; exact Hd.
  - destruct (Ascii.eqb c sep) eqn:Hc.
    + destruct Hin as [<-|Hin].
      * split; [reflexivity|]. simpl. intros d Hd; discriminate.
      * destruct (IH p Hin) as [H1 H2]. split; [exact H1|].
        intros d Hd. rewrite (H2 d Hd). apply orb_true_r.
    + destruct (split sep s) as [|h t] eqn:E.
      * exfalso. exact (split_not_nil sep s E).
      * destruct Hin as [<-|Hin].
        -- destruct (IH h (or_introl eq_refl)) as [H1 H2].
           split; [simpl; rewrite Hc, H1; reflexivity|].
           simpl. intros d Hd. apply orb_true_iff in Hd as [Hd|Hd].
           ++ rewrite Hd. reflexivity.
           ++ rewrite (H2 d Hd). apply orb_true_r.
        -- destruct (IH p (or_intror Hin)) as [H1 H2].
           split; [exact H1|].
           intros d Hd. rewrite (H2 d Hd). apply orb_true_r.
Qed.

(** *** [strip] *)

(** Nothing to strip on the left. *)
Definition head_ok (s : string) : Prop :=
  match s with
  | EmptyString => True
  | String c _ => is_space c = false
  end.

Lemma lstrip_head_ok (s : string) : head_ok (lstrip s).
Proof.
  induction s as [|c s IH]; simpl; [exact I|].
  destruct (is_space c) eqn:E; [exact IH|]. simpl. exact E.
Qed.

Lemma head_ok_lstrip (s : string) : head_ok s -> lstrip s = s.
Proof. destruct s as [|c s]; simpl; intros H; [reflexivity|]. rewrite H. reflexivity. Qed.

Lemma rstrip_head_ok (s : string) : head_ok s -> head_ok (rstrip s).
Proof.
  destruct s as [|c s]; simpl; intros H; [exact I|].
  rewrite H. simpl. exact H.
Qed.

Lemma rstrip_idem (s : string) : rstrip (rstrip s) = rstrip s.
Proof.
  induction s as [|c s IH]; simpl; [reflexivity|].
  destruct (is_space c && is_empty (rstrip s)) eqn:E; [reflexivity|].
  simpl. rewrite IH, E. reflexivity.
Qed.

Lemma strip_idem (s : string) : strip (strip s) = strip s.
Proof.
  unfold strip.
  rewrite (head_ok_lstrip (rstrip (lstrip s))).
  - apply rstrip_idem.
  - apply rstrip_head_ok, lstrip_head_ok.
Qed.

Lemma contains_lstrip (c : ascii) (s : string) :
  contains c (lstrip s) = true -> contains c s = true.
Proof.
  induction s as [|d s IH]; simpl; [trivial|].
  destruct (is_space d); simpl; [|trivial].
  intros H. rewrite (IH H). apply orb_true_r.
Qed.

Lemma contains_rstrip (c : ascii) (s : string) :
  contains c (rstrip s) = true -> contains c s = true.
Proof.
  induction s as [|d s IH]; simpl; [trivial|].
  destruct (is_space d && is_empty (rstrip s)); simpl; [discriminate|].
  intros H. apply orb_true_iff in H as [H|H].
  - rewrite H. reflexivity.
  - rewrite (IH H). apply orb_true_r.
Qed.

Lemma contains_strip (c : ascii) (s : string) :
  contains c (strip s) = true -> contains c s = true.
Proof. intros H. apply contains_lstrip, contains_rstrip, H. Qed.

Lemma strip_space_cons (s : string) : strip (String " " s) = strip s.
Proof. reflexivity. Qed.

(** *** [join] *)

Lemma join_cons2 (sep a b : string) (l : list string) :
  join sep (a :: b :: l) = a ++ sep ++ join sep (b :: l).
Proof. reflexivity. Qed.

Lemma contains_join (c : ascii) (sep : string) (l : list string) :
  contains c sep = false ->
  Forall (fun t => contains c t = false) l ->
  contains c (join sep l) = false.
Proof.
  intros Hsep. induction l as [|a l IH]; intros HF; [reflexivity|].
  inversion HF as [|? ? Ha Hl]; subst.
  destruct l as [|b l]; [exact Ha|].
  rewrite join_cons2, !contains_app, Ha, Hsep, (IH Hl). reflexivity.
Qed.

End StrFacts.

(** ** Recipient normaliser *)
Module RecipientFacts.
Import PyStr Recipients Stages StrFacts.

(** *** Tokens *)

Lemma split_join (ts : list string) :
  Forall (fun t => contains ";" t = false) ts ->
  split ";" (join "; " ts) =
  match ts with
  | [] => [""]
  | t :: r => t :: map (String " ") r
  end.
Proof.
  induction ts as [|t ts IH]; intros HF; [reflexivity|].
  inversion HF as [|? ? Ht Hts]; subst.
  destruct ts as [|t2 r].
  - simpl. apply split_no_sep, Ht.
  - rewrite join_cons2.
    change (t ++ "; " ++ join "; " (t2 :: r))
      with (t ++ String ";" (String " " (join "; " (t2 :: r)))).
    rewrite (split_app_sep ";" t _ Ht). f_equal.
    destruct (split_other ";" " " (join "; " (t2 :: r)) eq_refl) as (h & tl & E1 & E2).
    rewrite E2. rewrite (IH Hts) in E1. injection E1 as <- <-. reflexivity.
Qed.

Lemma clean_kept (ts : list string) :
  Forall clean ts ->
  map strip (filter (fun p => truthy (strip p)) (map (String " ") ts)) = ts.
Proof.
  induction 1 as [|t ts (Hne & Hs & _) _ IH]; [reflexivity|].
  cbn [map filter]. rewrite strip_space_cons, Hs, (proj2 (truthy_true t) Hne).
  cbn [map]. rewrite strip_space_cons, Hs, IH. reflexivity.
Qed.

(** Splitting the joined text of clean tokens gives the tokens back. *)
Lemma split_recipients_join (ts : list string) :
  Forall clean ts -> _split_recipients (join "; " ts) = ts.
Proof.
  intros HF. unfold _split_recipients.
  rewrite or_else_empty, replace_char_absent.
  2:{ apply contains_join; [reflexivity|].
      eapply Forall_impl; [|exact HF]. intros t (_ & _ & _ & H). exact H. }
  rewrite split_join.
  2:{ eapply Forall_impl; [|exact HF]. intros t (_ & _ & H & _). exact H. }
  destruct HF as [|t ts (Hne & Hs & Hx) HF]; [reflexivity|].
  cbn [map filter]. rewrite Hs, (proj2 (truthy_true t) Hne).
  cbn [map]. rewrite Hs. f_equal. apply clean_kept, HF.
Qed.

(** Every token that [_split_recipients] returns is clean. *)
Lemma split_recipients_clean (s : string) : Forall clean (_split_recipients s).
Proof.
  unfold _split_recipients. rewrite or_else_empty.
  apply Forall_forall. intros t Hin.
  apply in_map_iff in Hin as (p & <- & Hp).
  apply filter_In in Hp as [Hp Htr].
  destruct (split_pieces ";" _ p Hp) as [Hsemi Hsub].
  repeat split.
  - apply truthy_true, Htr.
  - apply strip_idem.
  - destruct (contains ";" (strip p)) eqn:E; [|reflexivity].
    apply contains_strip in E. congruence.
  - destruct (contains "," (strip p)) eqn:E; [|reflexivity].
    apply contains_strip, Hsub in E.
    rewrite replace_char_removes in E by reflexivity. discriminate.
Qed.

Lemma parts_clean (chunks : list string) : Forall clean (build_cc_parts chunks).
Proof.
  unfold build_cc_parts. induction chunks as [|c chunks IH]; simpl.
  - constructor.
  - apply Forall_app. split; [apply split_recipients_clean|exact IH].
Qed.

(** *** The loop of [build_cc] *)

Lemma set_mem_add (k key : string) (seen : set string) :
  set_mem string_dec k (set_add string_dec key seen) =
  String.eqb key k || set_mem string_dec k seen.
Proof.
  destruct (String.eqb_spec key k) as [->|Hne]; simpl.
  - apply set_mem_correct2, set_add_intro2. reflexivity.
  - destruct (set_mem string_dec k seen) eqn:E.
    + apply set_mem_correct2, set_add_intro1, (set_mem_correct1 string_dec), E.
    + apply set_mem_complete2. intros Hin.
      apply set_add_elim in Hin as [Hin|Hin]; [congruence|].
      apply (set_mem_complete1 string_dec) in E. contradiction.
Qed.

(** The set [seen] holds the lower-cased texts of the elements [earlier]. *)
Definition tracks (seen : set string) (earlier : list string) : Prop :=
  forall k, set_mem string_dec k seen = existsb (fun q => String.eqb (lower q) k) earlier.

Lemma tracks_nil : tracks (empty_set string) [].
Proof. intros k. reflexivity. Qed.

Lemma tracks_seen (seen : set string) (earlier : list string) (p : string) :
  tracks seen earlier ->
  set_mem string_dec (lower p) seen = true ->
  tracks seen (earlier ++ [p])%list.
Proof.
  intros Ht Hp k. rewrite existsb_app. simpl. rewrite orb_false_r, <- (Ht k).
  destruct (String.eqb_spec (lower p) k) as [<-|_].
  - rewrite Hp. reflexivity.
  - rewrite orb_false_r. reflexivity.
Qed.

Lemma tracks_add (seen : set string) (earlier : list string) (p : string) :
  tracks seen earlier ->
  tracks (set_add string_dec (lower p) seen) (earlier ++ [p])%list.
Proof.
  intros Ht k. rewrite set_mem_add, existsb_app. simpl.
  rewrite orb_false_r, (Ht k). apply orb_comm.
Qed.

(** The loop keeps the first occurrences, after what it had. *)
Lemma build_cc_loop_spec (parts : list string) :
  forall seen out earlier,
    tracks seen earlier ->
    build_cc_loop parts seen out = (out ++ first_occurrences_from earlier parts)%list.
Proof.
  induction parts as [|p rest IH]; intros seen out earlier Ht; simpl.
  - symmetry. apply app_nil_r.
  - rewrite <- (Ht (lower p)).
    destruct (set_mem string_dec (lower p) seen) eqn:E.
    + apply IH, tracks_seen; assumption.
    + rewrite (IH _ _ (earlier ++ [p])%list (tracks_add _ _ p Ht)).
      rewrite <- app_assoc. reflexivity.
Qed.

Lemma first_occurrences_fresh (parts : list string) :
  forall earlier x,
    In x (first_occurrences_from earlier parts) ->
    existsb (fun q => String.eqb (lower q) (lower x)) earlier = false.
Proof.
  induction parts as [|p rest IH]; intros earlier x Hin; simpl in Hin; [contradiction|].
  assert (Htail : In x (first_occurrences_from (earlier ++ [p])%list rest) ->
                  existsb (fun q => String.eqb (lower q) (lower x)) earlier = false).
  { intros H. apply IH in H. rewrite existsb_app in H.
    apply orb_false_iff in H. tauto. }
  destruct (existsb (fun q => String.eqb (lower q) (lower p)) earlier) eqn:E.
  - auto.
  - destruct Hin as [<-|Hin]; auto.
Qed.

Lemma first_occurrences_nodup (parts : list string) :
  forall earlier, NoDup (map lower (first_occurrences_from earlier parts)).
Proof.
  induction parts as [|p rest IH]; intros earlier; simpl; [constructor|].
  destruct (existsb (fun q => String.eqb (lower q) (lower p)) earlier); [apply IH|].
  simpl. constructor; [|apply IH].
  intros Hin. apply in_map_iff in Hin as (x & Hx & Hin).
  apply first_occurrences_fresh in Hin.
  rewrite existsb_app in Hin. apply orb_false_iff in Hin as [_ Hin].
  simpl in Hin. rewrite Hx, String.eqb_refl in Hin. discriminate.
Qed.

(** A list whose lower-cased texts are pairwise different, and different
    from those seen earlier, is its own list of first occurrences. *)
Lemma first_occurrences_fixed (l : list string) :
  forall earlier,
    NoDup (map lower l) ->
    (forall x, In x l -> existsb (fun q => String.eqb (lower q) (lower x)) earlier = false) ->
    first_occurrences_from earlier l = l.
Proof.
  induction l as [|p rest IH]; intros earlier Hnd Hfresh; simpl; [reflexivity|].
  rewrite (Hfresh p (or_introl eq_refl)). f_equal.
  inversion Hnd as [|? ? Hnotin Hnd']; subst.
  apply IH; [exact Hnd'|].
  intros x Hx. rewrite existsb_app, (Hfresh x (or_intror Hx)). simpl.
  rewrite orb_false_r.
  destruct (String.eqb_spec (lower p) (lower x)) as [E|_]; [|reflexivity].
  exfalso. apply Hnotin. rewrite E. apply in_map, Hx.
Qed.

Lemma build_cc_out_spec (chunks : list string) :
  build_cc_out chunks = first_occurrences (build_cc_parts chunks).
Proof.
  unfold build_cc_out, first_occurrences.
  rewrite (build_cc_loop_spec _ _ _ [] tracks_nil). reflexivity.
Qed.

Lemma first_occurrences_sub (parts : list string) :
  forall earlier x, In x (first_occurrences_from earlier parts) -> In x parts.
Proof.
  induction parts as [|p rest IH]; intros earlier x Hin; simpl in *; [contradiction|].
  destruct (existsb _ earlier).
  - right. eapply IH, Hin.
  - destruct Hin as [->|Hin]; [left; reflexivity|right; eapply IH, Hin].
Qed.

Lemma build_cc_out_clean (chunks : list string) : Forall clean (build_cc_out chunks).
Proof.
  rewrite build_cc_out_spec. apply Forall_forall. intros x Hx.
  apply first_occurrences_sub in Hx.
  exact (proj1 (Forall_forall _ _) (parts_clean chunks) x Hx).
Qed.

(** *** [to_set] *)

Lemma to_set_fold (l : list string) :
  forall acc k,
    set_mem string_dec k (fold_left (fun a x => set_add string_dec (lower x) a) l acc) =
    set_mem string_dec k acc || existsb (fun y => String.eqb (lower y) k) l.
Proof.
  induction l as [|x l IH]; intros acc k; simpl.
  - symmetry. apply orb_false_r.
  - rewrite IH, set_mem_add.
    destruct (String.eqb (lower x) k), (set_mem string_dec k acc); reflexivity.
Qed.

Lemma to_set_mem (to_ k : string) :
  set_mem string_dec k (to_set to_) =
  existsb (fun y => String.eqb (lower y) k) (_split_recipients to_).
Proof. unfold to_set. rewrite to_set_fold. reflexivity. Qed.

(** C5: the entries that [build_cc] puts out are the tokens of its
    arguments (each argument cut at semicolons and commas into stripped,
    non-empty pieces, arguments taken in order) with every token dropped
    whose lower-cased text an earlier token already had; no two entries
    have the same lower-cased text; the string returned is the entries
    joined with semicolon and space, and reading it back gives the
    entries. *)
Theorem build_cc_first_occurrences (chunks : list string) :
  let parts := flat_map _split_recipients chunks in
  let out := build_cc_out chunks in
  Forall clean parts
  /\ out = first_occurrences parts
  /\ NoDup (map lower out)
  /\ build_cc chunks = join "; " out
  /\ _split_recipients (build_cc chunks) = out.
Proof.
  cbv zeta. split; [apply parts_clean|].
  split; [apply build_cc_out_spec|].
  split; [rewrite build_cc_out_spec; apply first_occurrences_nodup|].
  split; [reflexivity|].
  apply split_recipients_join, build_cc_out_clean.
Qed.

(** C10: [build_cc] applied to the one string it returned gives that
    string again. *)
Theorem build_cc_idempotent (chunks : list string) :
  build_cc [build_cc chunks] = build_cc chunks.
Proof.
  assert (Hout : build_cc_out [build_cc chunks] = build_cc_out chunks).
  { rewrite (build_cc_out_spec [build_cc chunks]).
    unfold build_cc_parts. cbn [flat_map]. rewrite app_nil_r.
    unfold build_cc.
    rewrite (split_recipients_join _ (build_cc_out_clean chunks)).
    apply first_occurrences_fixed.
    - rewrite build_cc_out_spec. apply first_occurrences_nodup.
    - reflexivity. }
  unfold build_cc at 1. rewrite Hout. reflexivity.
Qed.

(** C1, as the code has it: [dedup_against_to] drops from the CC tokens
    exactly those whose whole lower-cased text equals the whole
    lower-cased text of some To token, and joins the others, in their
    order, with semicolon and space. *)
Theorem dedup_against_to_full_text (to_ cc_ : string) :
  exists keep : string -> bool,
    (forall x, keep x = false <->
               exists y, In y (_split_recipients to_) /\ lower y = lower x)
    /\ dedup_against_to to_ cc_ = join "; " (filter keep (_split_recipients cc_)).
Proof.
  exists (fun x => negb (set_mem string_dec (lower x) (to_set to_))).
  split; [|reflexivity].
  intros x. rewrite negb_false_iff, to_set_mem, existsb_exists.
  split; intros (y & Hy & E); exists y; (split; [exact Hy|]).
  - apply String.eqb_eq, E.
  - apply String.eqb_eq, E.
Qed.

(** C1 as stated fails: with To [a@x.com] the CC entry [Bob <a@x.com>]
    has the same e-mail part, yet the code keeps it. *)
Lemma dedup_against_to_keeps_display_form :
  dedup_against_to "a@x.com" "Bob <a@x.com>; b@y.com" = "Bob <a@x.com>; b@y.com"
  /\ spec_dedupAgainstTo "a@x.com" "Bob <a@x.com>; b@y.com" = "b@y.com"
  /\ ~ (forall to_ cc_, dedup_against_to to_ cc_ = spec_dedupAgainstTo to_ cc_).
Proof.
  split; [reflexivity|]. split; [reflexivity|].
  intros H. specialize (H "a@x.com" "Bob <a@x.com>; b@y.com").
  vm_compute in H. discriminate H.
Qed.

End RecipientFacts.

(** ** Template rendering *)
Module JinjaFacts.
Import PyStr Jinja Templates Stages StrFacts.

(** The text a scanned template renders to, when the scanner covers it. *)
Definition render_out (context : Dict) (r : option (list node)) : option string :=
  match r with
  | Some tmpl => Some (render tmpl context)
  | None => None
  end.

Definition map_out (f : string -> string) (r : option string) : option string :=
  match r with
  | Some s => Some (f s)
  | None => None
  end.

Lemma append_nil_r (s : string) : s ++ "" = s.
Proof. induction s as [|c s IH]; simpl; [reflexivity|]. rewrite IH. reflexivity. Qed.

Lemma append_assoc (a b c : string) : (a ++ b) ++ c = a ++ (b ++ c).
Proof. induction a as [|x a IH]; simpl; [reflexivity|]. rewrite IH. reflexivity. Qed.

Lemma render_cons (context : Dict) (n : node) (t : list node) :
  render (n :: t) context = render_node context n ++ render t context.
Proof.
  unfold render. destruct t as [|m t]; simpl.
  - symmetry. apply append_nil_r.
  - reflexivity.
Qed.

Lemma render_push_data (context : Dict) (c : ascii) (r : option (list node)) :
  render_out context (push_data c r) = map_out (String c) (render_out context r).
Proof.
  destruct r as [[|[d|x|x] t]|]; cbn [push_data render_out map_out];
    try reflexivity; rewrite !render_cons; reflexivity.
Qed.







(** *** Character classes *)




(** *** Source preparation *)

Lemma normalize_plain (s : string) :
  contains CR s = false -> normalize_newlines s = s.
Proof.
  induction s as [|c s IH]; intros H; [reflexivity|].
  cbn [contains] in H. apply orb_false_iff in H as [Hc Hs].
  cbn [normalize_newlines]. rewrite Hc, (IH Hs). reflexivity.
Qed.

Lemma normalize_keeps_absent (x : ascii) (s : string) :
  Ascii.eqb LF x = false -> contains x s = false ->
  contains x (normalize_newlines s) = false.
Proof.
  intros Hx.
  assert (H : forall n s, String.length s <= n -> contains x s = false ->
              contains x (normalize_newlines s) = false).
  { induction n as [|n IH]; intros [|c r] Hlen Hs; simpl in Hlen; try reflexivity; try lia.
    cbn [contains] in Hs. apply orb_false_iff in Hs as [Hc Hr].
    cbn [normalize_newlines]. destruct (Ascii.eqb c CR).
    - destruct r as [|d r'].
      + cbn [contains]. rewrite Hx. reflexivity.
      + cbn [contains] in Hr. apply orb_false_iff in Hr as [Hd Hr'].
        destruct (Ascii.eqb d LF); cbn [contains]; rewrite Hx; cbn [orb].
        * apply IH; [simpl in Hlen; lia|exact Hr'].
        * apply (IH (String d r')); [lia|]. cbn [contains]. rewrite Hd, Hr'. reflexivity.
    - cbn [contains]. rewrite Hc. cbn [orb]. apply IH; [lia|exact Hr]. }
  intros Hs. apply (H (String.length s)); [apply le_n|exact Hs].
Qed.

(** *** The scanner on literal text *)

(** Literal text in front of a compiled template. *)
Fixpoint prepend_data (a : string) (r : option (list node)) : option (list node) :=
  match a with
  | EmptyString => r
  | String c a' => push_data c (prepend_data a' r)
  end.

Lemma render_prepend_data (context : Dict) (a : string) (r : option (list node)) :
  render_out context (prepend_data a r) = map_out (append a) (render_out context r).
Proof.
  induction a as [|c a IH]; cbn [prepend_data].
  - destruct (render_out context r); reflexivity.
  - rewrite render_push_data, IH. destruct (render_out context r); reflexivity.
Qed.

(** Literal text is scanned as text, lone braces included; the scanner
    then goes on with what follows. *)
Lemma lex_literal (more : bool) (s : string) :
  (more = false -> s = "") ->
  forall n d, String.length d <= n -> literal more d = true ->
  lex Data (d ++ s) = prepend_data d (lex Data s).
Proof.
  intros Hs. induction n as [|n IH]; intros d Hlen Hlit.
  - destruct d; [reflexivity|simpl in Hlen; lia].
  - destruct d as [|c r]; [reflexivity|].
    cbn [literal] in Hlit. cbn [append lex prepend_data].
    revert Hlit. destruct (Ascii.eqb c "{") eqn:Ec; intros Hlit.
    + apply Ascii.eqb_eq in Ec. subst c.
      destruct r as [|c' r'].
      * destruct more; [discriminate Hlit|]. rewrite (Hs eq_refl). reflexivity.
      * apply andb_true_iff in Hlit as [Hc' Hr].
        apply negb_true_iff in Hc'.
        destruct (Ascii.eqb c' "{") eqn:H1; [discriminate Hc'|].
        cbn [orb] in Hc'.
        cbn [append lex]. rewrite H1, Hc'.
        cbn [literal] in Hr. rewrite H1 in Hr.
        cbn [prepend_data]. rewrite (IH r'); [reflexivity|simpl in Hlen; lia|exact Hr].
    + rewrite (IH r); [reflexivity|simpl in Hlen; lia|exact Hlit].
Qed.

Lemma brace_free_literal (more : bool) (d : string) :
  contains "{" d = false -> literal more d = true.
Proof.
  induction d as [|c d IH]; [reflexivity|].
  cbn [contains]. intros H. apply orb_false_iff in H as [Hc Hd].
  cbn [literal]. rewrite Hc. exact (IH Hd).
Qed.

(** A template that is literal text renders to itself. *)
Lemma render_literal (context : Dict) (d : string) :
  literal false d = true -> render_out context (lex Data d) = Some d.
Proof.
  intros H. rewrite <- (append_nil_r d) at 1.
  rewrite (lex_literal false "" (fun _ => eq_refl) (String.length d) d (le_n _) H).
  rewrite render_prepend_data. cbn. rewrite append_nil_r. reflexivity.
Qed.

(** *** The scanner on print blocks *)











(** *** Templates as sequences of text and print blocks *)















(** *** Escaping *)





(** *** Missing names *)


End JinjaFacts.

(** ** Rendering: escaping and missing names *)
Module RenderFacts.
Import PyStr Jinja Templates Stages StrFacts JinjaFacts.




(** Every template of every function compiles. *)
Lemma registry_compiles :
  Forall (fun f =>
            let t := get_templates_for_function f in
            Forall (fun s => exists tmpl, from_string s = Some tmpl)
                   [subject t; sebastian t; poc t; aseem t])
         FUNCTIONS.
Proof.
  repeat constructor; vm_compute; eexists; reflexivity.
Qed.





Section Library.

Variable other_syntax : string -> Dict -> outcome string.

Local Abbreviation render_text := (render_text other_syntax).

Lemma render_text_compiled (template_str : string) (tmpl : list node) (context : Dict) :
  from_string template_str = Some tmpl ->
  render_text template_str context = call_render tmpl context.
Proof. unfold Jinja.render_text. intros ->. reflexivity. Qed.



(** C2 at the three other functions: the doubled braces of the formatted
    literals come out as single braces separated by a space, which Jinja
    reads as literal text.  The subject then prints no name at all and is
    rendered unchanged in every context that can be passed (a context
    with the key [self] raises the [TypeError] of the call); no body
    prints [case_manager_name].  The ER&D set prints all of them. *)
Theorem non_erd_templates_lose_placeholders :
  Forall (fun f =>
            let t := get_templates_for_function f in
            subject t = f ++ " Data Collection - { { case_code } } ({ { client_name } })"
            /\ placeholders (subject t) = Some []
            /\ (forall ctx,
                  render_text (subject t) ctx =
                  match get ctx "self" with
                  | Some _ => Raise self_collision
                  | None => Ret (subject t)
                  end)
            /\ placeholders (sebastian t) = Some ["client_name"; "case_code"]
            /\ placeholders (poc t) = Some ["client_name"; "case_code"; "poc_display_name"]
            /\ placeholders (aseem t) = Some ["client_name"])
         ["Supply Chain"; "Procurement"; "Manufacturing"]
  /\ (let t := get_templates_for_function "ER&D" in
      placeholders (subject t) = Some ["case_code"; "client_name"]
      /\ placeholders (sebastian t)
         = Some ["case_manager_name"; "client_name"; "case_code"]
      /\ placeholders (poc t)
         = Some ["case_manager_name"; "client_name"; "case_code"; "poc_display_name"]
      /\ placeholders (aseem t) = Some ["case_manager_name"; "client_name"]).
Proof.
  split.
  - repeat constructor; try (vm_compute; reflexivity);
      intros ctx; unfold Jinja.render_text;
      match goal with
      | |- context [from_string ?s] =>
          let r := eval vm_compute in (from_string s) in
          replace (from_string s) with r by (vm_compute; reflexivity)
      end; unfold call_render; destruct (get ctx "self"); vm_compute; reflexivity.
  - cbv zeta. repeat split; vm_compute; reflexivity.
Qed.

End Library.

(** Jinja taken to refuse every template that the scanner does not
    cover. *)
Definition refuses (template_str : string) (context : Dict) : outcome string :=
  Raise "TemplateSyntaxError".





End RenderFacts.

(** ** Row processor *)
Module ProcessorFacts.
Import PyStr Recipients Validator Jinja Templates Processor Stages StrFacts RenderFacts.

Section Batch.

Variable Outlook : Type.
Variable SaveAs : Outlook -> MailItem -> Outlook * outcome bytes.
Variable today : nat -> string.
Variable other_syntax : string -> Dict -> outcome string.

Local Abbreviation render_text := (render_text other_syntax).
Local Abbreviation World := (World Outlook).
Local Abbreviation M := (M Outlook).
Local Abbreviation row_body := (row_body Outlook SaveAs today other_syntax).
Local Abbreviation process_row := (process_row Outlook SaveAs today other_syntax).
Local Abbreviation run_rows := (run_rows Outlook SaveAs today other_syntax).

(** *** Worlds *)

Definition add_status (w : World) (line : string) : World :=
  {| session := session w; zf := zf w;
     status := (status w ++ [line])%list; warnings := warnings w |}.

Definition add_warnings (w : World) (ws : list string) : World :=
  {| session := session w; zf := zf w; status := status w;
     warnings := (warnings w ++ ws)%list |}.

Lemma extend_fresh (d : World) : extend (fresh (session d)) d = d.
Proof. destruct d; reflexivity. Qed.

Lemma extend_assoc (a b c : World) : extend a (extend b c) = extend (extend a b) c.
Proof. unfold extend; simpl. rewrite !app_assoc. reflexivity. Qed.

Lemma add_warnings_nil (w : World) : add_warnings w [] = w.
Proof. destruct w; unfold add_warnings; simpl. rewrite app_nil_r. reflexivity. Qed.

(** *** Computations that only add to the world *)

(** [m] reads nothing but the session: run in [w], it does what it does
    in a fresh world with the same session, after what [w] holds. *)
Definition framed {A : Type} (m : M A) : Prop :=
  forall w, m w = (fst (m (fresh (session w))), extend w (snd (m (fresh (session w))))).

Lemma framed_lift {A : Type} (r : outcome A) : framed (lift Outlook r).
Proof.
  intros w. unfold lift, extend; simpl. rewrite !app_nil_r.
  destruct w; reflexivity.
Qed.

Lemma framed_append_status (line : string) : framed (append_status Outlook line).
Proof.
  intros w. unfold append_status, extend; simpl. rewrite !app_nil_r. reflexivity.
Qed.

Lemma framed_writestr (path : string) (data : bytes) : framed (writestr Outlook path data).
Proof.
  intros w. unfold writestr, extend; simpl. rewrite !app_nil_r. reflexivity.
Qed.

Lemma framed_check (i : nat) (label recips : string) :
  framed (check_recipients Outlook i label recips).
Proof.
  intros w. unfold check_recipients.
  destruct (assert_recipients_or_warn i label recips) as [ok [msg|]];
    unfold extend; simpl; rewrite !app_nil_r; destruct w; reflexivity.
Qed.

Lemma framed_create (subject to_ cc_ bcc_ html_body : string) :
  framed (create_oft_bytes_reuse Outlook SaveAs subject to_ cc_ bcc_ html_body).
Proof.
  intros w. unfold create_oft_bytes_reuse. simpl.
  destruct (SaveAs (session w) _) as [o res].
  unfold extend; simpl. rewrite !app_nil_r. reflexivity.
Qed.

Lemma framed_bind {A B : Type} (m : M A) (k : A -> M B) :
  framed m -> (forall a, framed (k a)) -> framed (bind Outlook m k).
Proof.
  intros Hm Hk w. unfold bind.
  rewrite (Hm w).
  destruct (m (fresh (session w))) as [[a|e] d] eqn:E; simpl.
  - rewrite (Hk a (extend w d)). simpl.
    rewrite (Hk a d). simpl. rewrite extend_assoc. reflexivity.
  - reflexivity.
Qed.

Ltac framed_steps :=
  repeat first
    [ apply framed_bind; [|intros]
    | apply framed_lift
    | apply framed_append_status
    | apply framed_writestr
    | apply framed_check
    | apply framed_create
    | match goal with |- framed (if ?b then _ else _) => destruct b end ].

Lemma framed_row_body (tpls : TemplateSet) (i : nat) (r : Dict) :
  framed (row_body tpls i r).
Proof. unfold Processor.row_body. framed_steps. Qed.

(** One turn of the loop adds to the world what it adds to a fresh one. *)
Lemma process_row_frame (tpls : TemplateSet) (i : nat) (r : Dict) (w : World) :
  process_row tpls i r w = extend w (process_row tpls i r (fresh (session w))).
Proof.
  unfold Processor.process_row. rewrite (framed_row_body tpls i r w).
  destruct (row_body tpls i r (fresh (session w))) as [[u|e] d]; simpl.
  - reflexivity.
  - unfold extend; simpl. rewrite <- app_assoc. reflexivity.
Qed.

Lemma run_rows_frame (tpls : TemplateSet) (rows : list Dict) :
  forall i w, run_rows tpls i rows w = extend w (run_rows tpls i rows (fresh (session w))).
Proof.
  induction rows as [|r rest IH]; intros i w; simpl.
  - unfold extend, fresh; simpl. rewrite !app_nil_r. destruct w; reflexivity.
  - rewrite (IH (S i) (process_row tpls i r w)).
    rewrite (IH (S i) (process_row tpls i r (fresh (session w)))).
    rewrite (process_row_frame tpls i r w) at 1.
    rewrite <- extend_assoc. f_equal. f_equal. f_equal.
    rewrite process_row_frame. reflexivity.
Qed.

Lemma run_rows_app (tpls : TemplateSet) (a b : list Dict) :
  forall i w, run_rows tpls i (a ++ b) w = run_rows tpls (i + length a) b (run_rows tpls i a w).
Proof.
  induction a as [|r a IH]; intros i w; simpl.
  - rewrite Nat.add_0_r. reflexivity.
  - rewrite IH. f_equal. lia.
Qed.

(** *** Status lines *)

(** [m] leaves the status list as it is. *)
Definition quiet {A : Type} (m : M A) : Prop :=
  forall w, status (snd (m w)) = status w.

(** [m] adds one line when it returns and none when it raises. *)
Definition one_line (m : M unit) : Prop :=
  forall w, match m w with
            | (Ret _, w') => exists line, status w' = (status w ++ [line])%list
            | (Raise _, w') => status w' = status w
            end.

Lemma quiet_lift {A : Type} (r : outcome A) : quiet (lift Outlook r).
Proof. intros w. reflexivity. Qed.

Lemma quiet_writestr (path : string) (data : bytes) : quiet (writestr Outlook path data).
Proof. intros w. reflexivity. Qed.

Lemma quiet_check (i : nat) (label recips : string) :
  quiet (check_recipients Outlook i label recips).
Proof.
  intros w. unfold check_recipients.
  destruct (assert_recipients_or_warn i label recips) as [ok [msg|]]; reflexivity.
Qed.

Lemma quiet_create (subject to_ cc_ bcc_ html_body : string) :
  quiet (create_oft_bytes_reuse Outlook SaveAs subject to_ cc_ bcc_ html_body).
Proof.
  intros w. unfold create_oft_bytes_reuse. simpl.
  destruct (SaveAs (session w) _) as [o res]. reflexivity.
Qed.

Lemma one_line_append (line : string) : one_line (append_status Outlook line).
Proof. intros w. simpl. exists line. reflexivity. Qed.

Lemma one_line_bind {A : Type} (m : M A) (k : A -> M unit) :
  quiet m -> (forall a, one_line (k a)) -> one_line (bind Outlook m k).
Proof.
  intros Hm Hk w. unfold bind. specialize (Hm w).
  destruct (m w) as [[a|e] w1]; simpl in Hm.
  - specialize (Hk a w1). destruct (k a w1) as [[u|e] w2]; rewrite <- Hm; exact Hk.
  - exact Hm.
Qed.

Ltac one_line_steps :=
  repeat first
    [ apply one_line_append
    | apply one_line_bind;
        [ first [ apply quiet_lift | apply quiet_writestr
                | apply quiet_check | apply quiet_create ]
        | intros ]
    | match goal with |- one_line (if ?b then _ else _) => destruct b end ].

Lemma one_line_row_body (tpls : TemplateSet) (i : nat) (r : Dict) :
  one_line (row_body tpls i r).
Proof. unfold Processor.row_body. one_line_steps. Qed.

(** Every turn of the loop adds exactly one status line; it is the
    FAILED line when the [try] block raised. *)
Lemma process_row_one_line (tpls : TemplateSet) (i : nat) (r : Dict) (w : World) :
  exists line,
    status (process_row tpls i r w) = (status w ++ [line])%list
    /\ forall e w', row_body tpls i r w = (Raise e, w') -> line = status_failed i e.
Proof.
  unfold Processor.process_row. pose proof (one_line_row_body tpls i r w) as H.
  destruct (row_body tpls i r w) as [[u|e] w1].
  - destruct H as [line H]. exists line. split; [exact H|]. intros e w' E. discriminate E.
  - exists (status_failed i e). simpl. rewrite H. split; [reflexivity|].
    intros e' w' E. injection E as <- _. reflexivity.
Qed.

Lemma run_rows_status_length (tpls : TemplateSet) (rows : list Dict) :
  forall i w, length (status (run_rows tpls i rows w)) = length (status w) + length rows.
Proof.
  induction rows as [|r rest IH]; intros i w; simpl; [lia|].
  rewrite IH. destruct (process_row_one_line tpls i r w) as (line & -> & _).
  rewrite length_app. simpl. lia.
Qed.

(** *** Running a row step by step *)

(** The warning that a check shows, if any. *)
Definition warning_of (i : nat) (label recips : string) : list string :=
  match snd (assert_recipients_or_warn i label recips) with
  | Some msg => [msg]
  | None => []
  end.

Lemma check_recipients_eq (i : nat) (label recips : string) (w : World) :
  check_recipients Outlook i label recips w =
  (Ret (valid_recipients recips), add_warnings w (warning_of i label recips)).
Proof.
  unfold check_recipients, warning_of, valid_recipients, assert_recipients_or_warn.
  destruct (bad_recipients (_split_recipients recips)); simpl.
  - rewrite add_warnings_nil. reflexivity.
  - reflexivity.
Qed.

Lemma check_recipients_ok (i : nat) (label recips : string) (w : World) :
  valid_recipients recips = true ->
  check_recipients Outlook i label recips w = (Ret true, w).
Proof.
  unfold check_recipients, valid_recipients, assert_recipients_or_warn.
  destruct (bad_recipients (_split_recipients recips)); [reflexivity|discriminate].
Qed.

Lemma row_body_missing (tpls : TemplateSet) (i : nat) (r : Dict) (w : World) :
  row_present r = false ->
  row_body tpls i r w = (Ret tt, add_status w (status_skipped_missing i)).
Proof.
  unfold row_present, row_client, row_code, row_to. intros H.
  unfold Processor.row_body. cbv zeta. rewrite H. reflexivity.
Qed.

Lemma row_body_subject_raises (tpls : TemplateSet) (i : nat) (r : Dict) (w : World) (e : string) :
  row_present r = true ->
  render_text (subject tpls) (row_ctx (today i) r) = Raise e ->
  row_body tpls i r w = (Raise e, w).
Proof.
  unfold row_present, row_ctx, row_client, row_code, row_to, row_poc. intros H Hs.
  unfold Processor.row_body. cbv zeta. rewrite H.
  unfold bind at 1. unfold lift at 1. rewrite Hs. reflexivity.
Qed.

Lemma row_body_invalid (tpls : TemplateSet) (i : nat) (r : Dict) (w : World) (subj : string) :
  row_present r = true ->
  render_text (subject tpls) (row_ctx (today i) r) = Ret subj ->
  row_recipients_ok r = false ->
  exists ws,
    row_body tpls i r w =
    (Ret tt, add_status (add_warnings w ws) (status_skipped_invalid i)).
Proof.
  unfold row_present, row_recipients_ok, row_ctx, row_cc1, row_cc2, row_cc3,
    row_client, row_code, row_to, row_tl, row_poc, row_extra.
  intros H Hs Hok.
  unfold Processor.row_body. cbv zeta. rewrite H.
  cbn [negb]. unfold bind, lift. cbv beta iota. rewrite Hs. cbv beta iota.
  repeat (rewrite check_recipients_eq; cbv beta iota).
  cbn [andb]. rewrite Hok. cbn [negb].
  exists (warning_of i "To" (row_to r)
          ++ warning_of i "CC (Sebastian)" (row_cc1 r)
          ++ warning_of i "CC (POC)" (row_cc2 r)
          ++ warning_of i "CC (Aseem)" (row_cc3 r))%list.
  unfold append_status, add_status, add_warnings.
  cbn [Processor.session Processor.zf Processor.status Processor.warnings].
  rewrite !app_assoc. reflexivity.
Qed.

(** C7: a row whose [client_name], [case_code] or [to] is empty gets the
    SKIPPED line and nothing else: no entry is written, the session is
    not touched, and the loop goes on with the next row. *)
Theorem missing_field_row_skipped
    (tpls : TemplateSet) (i : nat) (r : Dict) (rest : list Dict) (w : World) :
  field r "client_name" = "" \/ field r "case_code" = "" \/ field r "to" = "" ->
  let w' := process_row tpls i r w in
  status w' = (status w ++ [status_skipped_missing i])%list
  /\ zf w' = zf w
  /\ session w' = session w
  /\ run_rows tpls i (r :: rest) w = run_rows tpls (S i) rest w'
  /\ length (status (run_rows tpls i (r :: rest) w))
     = length (status w) + 1 + length rest.
Proof.
  intros Hmiss. cbv zeta.
  assert (Hp : row_present r = false).
  { unfold row_present, row_client, row_code, row_to.
    destruct Hmiss as [E|[E|E]]; rewrite E; cbn.
    - reflexivity.
    - apply andb_false_iff. left. apply andb_false_r.
    - apply andb_false_r. }
  assert (Hrow : process_row tpls i r w = add_status w (status_skipped_missing i)).
  { unfold Processor.process_row. rewrite (row_body_missing tpls i r w Hp). reflexivity. }
  rewrite Hrow. split; [reflexivity|]. split; [reflexivity|]. split; [reflexivity|].
  cbn [Processor.run_rows]. rewrite Hrow. split; [reflexivity|].
  rewrite run_rows_status_length. unfold add_status.
  cbn [Processor.status]. rewrite length_app. cbn [length]. lia.
Qed.

(** *** A session whose answers do not depend on its state *)

Definition stateless : Prop :=
  forall o o' mail, snd (SaveAs o mail) = snd (SaveAs o' mail).

(** Two worlds that differ in the session at most. *)
Definition same_written (w w' : World) : Prop :=
  zf w = zf w' /\ status w = status w' /\ warnings w = warnings w'.

(** [m] returns and writes the same whatever the session is. *)
Definition session_blind {A : Type} (m : M A) : Prop :=
  forall w w', same_written w w' ->
    fst (m w) = fst (m w') /\ same_written (snd (m w)) (snd (m w')).

Lemma blind_lift {A : Type} (r : outcome A) : session_blind (lift Outlook r).
Proof. intros w w' H. split; [reflexivity|exact H]. Qed.

Lemma blind_append_status (line : string) : session_blind (append_status Outlook line).
Proof.
  intros w w' (Hz & Hs & Hw). split; [reflexivity|].
  unfold same_written. cbn. rewrite Hz, Hs, Hw. repeat split.
Qed.

Lemma blind_writestr (path : string) (data : bytes) :
  session_blind (writestr Outlook path data).
Proof.
  intros w w' (Hz & Hs & Hw). split; [reflexivity|].
  unfold same_written. cbn. rewrite Hz, Hs, Hw. repeat split.
Qed.

Lemma blind_check (i : nat) (label recips : string) :
  session_blind (check_recipients Outlook i label recips).
Proof.
  intros w w' (Hz & Hs & Hw). rewrite !check_recipients_eq.
  split; [reflexivity|]. unfold same_written. cbn. rewrite Hz, Hs, Hw. repeat split.
Qed.

Lemma blind_create (subject to_ cc_ bcc_ html_body : string) :
  stateless ->
  session_blind (create_oft_bytes_reuse Outlook SaveAs subject to_ cc_ bcc_ html_body).
Proof.
  intros Hst w w' (Hz & Hs & Hw). unfold create_oft_bytes_reuse.
  match goal with
  | |- context [SaveAs (session w) ?mail] =>
      pose proof (Hst (session w) (session w') mail) as E;
      destruct (SaveAs (session w) mail) as [o res];
      destruct (SaveAs (session w') mail) as [o' res']
  end.
  cbn in E. subst res'. cbn. split; [reflexivity|].
  unfold same_written. cbn. repeat split; assumption.
Qed.

Lemma blind_bind {A B : Type} (m : M A) (k : A -> M B) :
  session_blind m -> (forall a, session_blind (k a)) -> session_blind (bind Outlook m k).
Proof.
  intros Hm Hk w w' Hww. unfold bind.
  destruct (Hm w w' Hww) as [Hres Hsame].
  destruct (m w) as [[a|e] w1]; destruct (m w') as [[a'|e'] w1'];
    cbn in Hres, Hsame; try discriminate Hres.
  - injection Hres as <-. exact (Hk a w1 w1' Hsame).
  - injection Hres as <-. cbn. split; [reflexivity|exact Hsame].
Qed.

Ltac blind_steps Hst :=
  repeat first
    [ apply blind_bind; [|intros]
    | apply blind_lift
    | apply blind_append_status
    | apply blind_writestr
    | apply blind_check
    | apply (blind_create _ _ _ _ _ Hst)
    | match goal with |- session_blind (if ?b then _ else _) => destruct b end ].

Lemma blind_row_body (tpls : TemplateSet) (i : nat) (r : Dict) :
  stateless -> session_blind (row_body tpls i r).
Proof. intros Hst. unfold Processor.row_body. blind_steps Hst. Qed.

(** With a stateless session a row does the same from any session. *)
Lemma process_row_any_session (tpls : TemplateSet) (i : nat) (r : Dict) (o o' : Outlook) :
  stateless ->
  status (process_row tpls i r (fresh o)) = status (process_row tpls i r (fresh o'))
  /\ zf (process_row tpls i r (fresh o)) = zf (process_row tpls i r (fresh o')).
Proof.
  intros Hst. unfold Processor.process_row.
  assert (H0 : same_written (fresh o) (fresh o')) by (repeat split).
  destruct (blind_row_body tpls i r Hst (fresh o) (fresh o') H0) as [Hres (Hz & Hs & Hw)].
  destruct (row_body tpls i r (fresh o)) as [[u|e] w1];
    destruct (row_body tpls i r (fresh o')) as [[u'|e'] w1'];
    cbn in Hres, Hz, Hs, Hw; try discriminate Hres; cbn.
  - split; assumption.
  - injection Hres as <-. rewrite Hs. split; [reflexivity|assumption].
Qed.

(** C8: in a batch [pre ++ r :: post] the row [r] gets exactly one
    status line, the one it gets when processed on its own in the session
    as the rows before it left it: the FAILED line with the message when
    its [try] block raised (a rendering error, an error from Outlook), the
    SKIPPED line when a recipient check failed, with nothing written.
    The lines and archive entries of the rows before are untouched, the
    rows after are processed as they are on their own from the session
    that [r] left, and the batch ends with one line per row.  When the
    answers of Outlook do not depend on the state of its session, the
    line and the entries of [r] are those it gets on its own from any
    session whatever. *)
Theorem rows_do_not_interfere
    (tpls : TemplateSet) (i : nat) (pre : list Dict) (r : Dict) (post : list Dict)
    (w : World) :
  let wk := run_rows tpls i pre w in
  let k := i + length pre in
  let alone := process_row tpls k r (fresh (session wk)) in
  let after := run_rows tpls (S k) post (fresh (session alone)) in
  let final := run_rows tpls i (pre ++ r :: post) w in
  (exists line,
      status alone = [line]
      /\ (forall e w', row_body tpls k r wk = (Raise e, w') -> line = status_failed k e)
      /\ (row_present r = true ->
          (exists subj, render_text (subject tpls) (row_ctx (today k) r) = Ret subj) ->
          row_recipients_ok r = false ->
          line = status_skipped_invalid k /\ zf alone = [] /\ session alone = session wk))
  /\ status final = (status wk ++ status alone ++ status after)%list
  /\ zf final = (zf wk ++ zf alone ++ zf after)%list
  /\ length (status final) = length (status w) + length (pre ++ r :: post)
  /\ (stateless ->
      forall o, status (process_row tpls k r (fresh o)) = status alone
                /\ zf (process_row tpls k r (fresh o)) = zf alone).
Proof.
  cbv zeta.
  set (wk := run_rows tpls i pre w). set (k := i + length pre).
  assert (Hfinal : run_rows tpls i (pre ++ r :: post) w
                   = extend (extend wk (process_row tpls k r (fresh (session wk))))
                       (run_rows tpls (S k) post
                          (fresh (session (process_row tpls k r (fresh (session wk))))))).
  { rewrite run_rows_app. fold wk. fold k. cbn [Processor.run_rows].
    rewrite run_rows_frame. rewrite (process_row_frame tpls k r wk). reflexivity. }
  split; [|split; [|split; [|split]]].
  5:{ intros Hst o. apply process_row_any_session, Hst. }
  - destruct (process_row_one_line tpls k r (fresh (session wk))) as (line & Hline & Hfail).
    exists line. split; [exact Hline|]. split.
    + intros e w' E. rewrite (framed_row_body tpls k r wk) in E.
      destruct (row_body tpls k r (fresh (session wk))) as [[u|e'] d] eqn:Ed;
        cbn in E; [discriminate E|].
      injection E as <- _. apply (Hfail e' d). reflexivity.
    + intros Hp [subj Hs] Hok.
      destruct (row_body_invalid tpls k r (fresh (session wk)) subj Hp Hs Hok) as [ws Hrun].
      unfold Processor.process_row in *. rewrite Hrun in *. cbn in *.
      injection Hline as <-. repeat split.
  - rewrite Hfinal. cbn. rewrite <- app_assoc. reflexivity.
  - rewrite Hfinal. cbn. rewrite <- app_assoc. reflexivity.
  - apply run_rows_status_length.
Qed.

(** *** Archive entries *)

(** [m] writes at most [c] entries, and none when it raises. *)
Definition writes {A : Type} (c : nat) (m : M A) : Prop :=
  forall w, exists written,
    zf (snd (m w)) = (zf w ++ written)%list
    /\ length written <= c
    /\ match fst (m w) with Raise _ => written = [] | Ret _ => True end.

(** [m] only adds entries, at most [n] of them when it raises. *)
Definition raises_within {A : Type} (n : nat) (m : M A) : Prop :=
  forall w, exists written,
    zf (snd (m w)) = (zf w ++ written)%list
    /\ match fst (m w) with Raise _ => length written <= n | Ret _ => True end.

Lemma writes_lift {A : Type} (r : outcome A) : writes 0 (lift Outlook r).
Proof.
  intros w. exists []. cbn. rewrite app_nil_r. repeat split; [lia|].
  destruct r; reflexivity.
Qed.

Lemma writes_check (i : nat) (label recips : string) :
  writes 0 (check_recipients Outlook i label recips).
Proof.
  intros w. exists []. rewrite check_recipients_eq. cbn.
  rewrite app_nil_r. repeat split. lia.
Qed.

Lemma writes_create (subject to_ cc_ bcc_ html_body : string) :
  writes 0 (create_oft_bytes_reuse Outlook SaveAs subject to_ cc_ bcc_ html_body).
Proof.
  intros w. exists []. unfold create_oft_bytes_reuse.
  destruct (SaveAs (session w) _) as [o res]. cbn.
  rewrite app_nil_r. repeat split; [lia|]. destruct res; reflexivity.
Qed.

Lemma raises_append (n : nat) (line : string) :
  raises_within n (append_status Outlook line).
Proof. intros w. exists []. cbn. rewrite app_nil_r. split; [reflexivity|exact I]. Qed.

Lemma raises_tail (path : string) (data : bytes) (line : string) :
  raises_within 0 (bind Outlook (writestr Outlook path data)
                     (fun _ => append_status Outlook line)).
Proof. intros w. exists [(path, data)]. cbn. split; [reflexivity|exact I]. Qed.

Lemma raises_bind_quiet {A B : Type} (n : nat) (m : M A) (k : A -> M B) :
  writes 0 m -> (forall a, raises_within n (k a)) -> raises_within n (bind Outlook m k).
Proof.
  intros Hm Hk w. unfold bind.
  destruct (Hm w) as (wr & Hzf & Hlen & Hres).
  destruct wr as [|x wr]; [|cbn in Hlen; lia].
  rewrite app_nil_r in Hzf.
  destruct (m w) as [[a|e] w1]; cbn in Hzf.
  - destruct (Hk a w1) as (wr2 & Hzf2 & Hres2). exists wr2.
    rewrite <- Hzf. split; assumption.
  - exists []. cbn. rewrite app_nil_r. split; [exact Hzf|lia].
Qed.

Lemma raises_bind_write {B : Type} (n : nat) (path : string) (data : bytes)
    (k : unit -> M B) :
  (forall u, raises_within n (k u)) ->
  raises_within (S n) (bind Outlook (writestr Outlook path data) k).
Proof.
  intros Hk w. unfold bind, writestr.
  match goal with
  | |- context [k tt ?w1] =>
      destruct (Hk tt w1) as (wr2 & Hzf2 & Hres2);
      exists ((path, data) :: wr2); cbn in Hzf2;
      destruct (k tt w1) as [[b|e] w2]; cbn in *;
      (split; [rewrite Hzf2, <- app_assoc; reflexivity|])
  end.
  - exact I.
  - lia.
Qed.

Ltac raises_steps :=
  repeat first
    [ apply raises_tail
    | apply raises_append
    | apply raises_bind_quiet;
        [ first [ apply writes_lift | apply writes_check | apply writes_create ]
        | intros ]
    | apply raises_bind_write; intros
    | match goal with |- raises_within _ (if ?b then _ else _) => destruct b end ].

Lemma raises_row_body (tpls : TemplateSet) (i : nat) (r : Dict) :
  raises_within 2 (row_body tpls i r).
Proof. unfold Processor.row_body. raises_steps. Qed.

(** *** A row that passes the checks *)

Definition set_session (w : World) (o : Outlook) : World :=
  {| session := o; zf := zf w; status := status w; warnings := warnings w |}.

Definition add_entry (w : World) (path : string) (data : bytes) : World :=
  {| session := session w; zf := (zf w ++ [(path, data)])%list;
     status := status w; warnings := warnings w |}.

(** What the stages of [row_body] do once the row has passed the checks
    and its subject is rendered: each stage renders its body, asks
    Outlook for the template and writes it; the first exception ends the
    row there. *)
Lemma row_body_stages (tpls : TemplateSet) (i : nat) (r : Dict) (w : World) (subj : string) :
  row_present r = true ->
  row_recipients_ok r = true ->
  render_text (subject tpls) (row_ctx (today i) r) = Ret subj ->
  row_body tpls i r w =
  match render_text (sebastian tpls) (row_ctx (today i) r) with
  | Raise e => (Raise e, w)
  | Ret b1 =>
    match SaveAs (session w) (mail_item subj (row_to r) (row_cc1 r) b1) with
    | (o1, Raise e) => (Raise e, set_session w o1)
    | (o1, Ret x1) =>
      let w1 := add_entry (set_session w o1) (path1 r) x1 in
      match render_text (poc tpls) (row_ctx (today i) r) with
      | Raise e => (Raise e, w1)
      | Ret b2 =>
        match SaveAs o1 (mail_item subj (row_to r) (row_cc2 r) b2) with
        | (o2, Raise e) => (Raise e, set_session w1 o2)
        | (o2, Ret x2) =>
          let w2 := add_entry (set_session w1 o2) (path2 r) x2 in
          match render_text (aseem tpls) (row_ctx (today i) r) with
          | Raise e => (Raise e, w2)
          | Ret b3 =>
            match SaveAs o2 (mail_item subj (row_to r) (row_cc3 r) b3) with
            | (o3, Raise e) => (Raise e, set_session w2 o3)
            | (o3, Ret x3) =>
              (Ret tt, add_status (add_entry (set_session w2 o3) (path3 r) x3)
                         (status_ok i (row_base r)))
            end
          end
        end
      end
    end
  end.
Proof.
  intros Hp Hok Hs.
  assert (V : valid_recipients (row_to r) = true /\ valid_recipients (row_cc1 r) = true
              /\ valid_recipients (row_cc2 r) = true /\ valid_recipients (row_cc3 r) = true).
  { unfold row_recipients_ok in Hok. rewrite !andb_true_iff in Hok. tauto. }
  destruct V as (V0 & V1 & V2 & V3).
  unfold path1, path2, path3, row_base, mail_item.
  unfold row_present, row_ctx, row_cc1, row_cc2, row_cc3,
    row_client, row_code, row_to, row_tl, row_poc, row_extra in *.
  unfold Processor.row_body. cbv zeta. rewrite Hp. cbn [negb].
  unfold bind, lift. cbv beta iota. rewrite Hs. cbv beta iota.
  rewrite (check_recipients_ok _ _ _ _ V0). cbv beta iota.
  rewrite (check_recipients_ok _ _ _ _ V1). cbv beta iota.
  rewrite (check_recipients_ok _ _ _ _ V2). cbv beta iota.
  rewrite (check_recipients_ok _ _ _ _ V3). cbv beta iota.
  cbn [andb negb].
  destruct (render_text (sebastian tpls) _) as [b1|e]; [|reflexivity].
  unfold create_oft_bytes_reuse at 1. cbv beta zeta.
  destruct (SaveAs (session w) _) as [o1 [x1|e]]; [|reflexivity].
  unfold writestr at 1. cbv beta iota.
  destruct (render_text (poc tpls) _) as [b2|e]; [|reflexivity].
  unfold create_oft_bytes_reuse at 1. cbv beta zeta.
  cbn [Processor.session Processor.zf Processor.status Processor.warnings].
  destruct (SaveAs o1 _) as [o2 [x2|e]]; [|reflexivity].
  unfold writestr at 1. cbv beta iota.
  destruct (render_text (aseem tpls) _) as [b3|e]; [|reflexivity].
  unfold create_oft_bytes_reuse at 1. cbv beta zeta.
  cbn [Processor.session Processor.zf Processor.status Processor.warnings].
  destruct (SaveAs o2 _) as [o3 [x3|e]]; reflexivity.
Qed.

(** C9: a row that passed the checks and whose first stage was written
    keeps that entry when Outlook raises at the second stage, and keeps
    the first two when Outlook raises at the third; the row is FAILED
    all the same.  Whatever raises in a row, the row is FAILED and has
    added at most two entries to the archive. *)
Theorem failed_row_keeps_written_stages
    (tpls : TemplateSet) (i : nat) (r : Dict) (w : World)
    (subj b1 b2 : string) (o1 : Outlook) (x1 : bytes) :
  row_present r = true ->
  row_recipients_ok r = true ->
  render_text (subject tpls) (row_ctx (today i) r) = Ret subj ->
  render_text (sebastian tpls) (row_ctx (today i) r) = Ret b1 ->
  SaveAs (session w) (mail_item subj (row_to r) (row_cc1 r) b1) = (o1, Ret x1) ->
  render_text (poc tpls) (row_ctx (today i) r) = Ret b2 ->
  let w' := process_row tpls i r w in
  (forall o2 e,
      SaveAs o1 (mail_item subj (row_to r) (row_cc2 r) b2) = (o2, Raise e) ->
      zf w' = (zf w ++ [(path1 r, x1)])%list
      /\ status w' = (status w ++ [status_failed i e])%list)
  /\ (forall o2 x2 b3 o3 e,
      SaveAs o1 (mail_item subj (row_to r) (row_cc2 r) b2) = (o2, Ret x2) ->
      render_text (aseem tpls) (row_ctx (today i) r) = Ret b3 ->
      SaveAs o2 (mail_item subj (row_to r) (row_cc3 r) b3) = (o3, Raise e) ->
      zf w' = (zf w ++ [(path1 r, x1); (path2 r, x2)])%list
      /\ status w' = (status w ++ [status_failed i e])%list)
  /\ (forall e w2,
      row_body tpls i r w = (Raise e, w2) ->
      status w' = (status w ++ [status_failed i e])%list
      /\ exists written, zf w' = (zf w ++ written)%list /\ length written <= 2).
Proof.
  intros Hp Hok Hs Hb1 Hsave1 Hb2. cbv zeta.
  unfold Processor.process_row.
  split; [|split].
  - intros o2 e Hsave2.
    rewrite (row_body_stages tpls i r w subj Hp Hok Hs), Hb1, Hsave1.
    cbv zeta. rewrite Hb2, Hsave2.
    unfold set_session, add_entry.
    cbn [Processor.session Processor.zf Processor.status Processor.warnings].
    split; reflexivity.
  - intros o2 x2 b3 o3 e Hsave2 Hb3 Hsave3.
    rewrite (row_body_stages tpls i r w subj Hp Hok Hs), Hb1, Hsave1.
    cbv zeta. rewrite Hb2, Hsave2. cbv zeta. rewrite Hb3, Hsave3.
    unfold set_session, add_entry.
    cbn [Processor.session Processor.zf Processor.status Processor.warnings].
    rewrite <- app_assoc. split; reflexivity.
  - intros e w2 Hraise.
    destruct (raises_row_body tpls i r w) as (written & Hzf & Hlen).
    pose proof (one_line_row_body tpls i r w) as Hline.
    rewrite Hraise in *.
    cbn [fst snd Processor.session Processor.zf Processor.status Processor.warnings] in *.
    rewrite Hline. split; [reflexivity|].
    exists written. split; assumption.
Qed.

(** C4: the example row under ER&D.  Its subject, its first CC list and
    its first path are the ones named; the first mail item handed to
    Outlook carries them, and when Outlook returns the template the
    archive starts with it under that path. *)
Theorem acme_row_end_to_end (o : Outlook) :
  let tpls := get_templates_for_function "ER&D" in
  let ctx := row_ctx (today 0) acme_row in
  render_text (subject tpls) ctx = Ret "ER&D Data Collection - C100 (Acme)"
  /\ row_cc1 acme_row = "tl@acme.com; poc@acme.com; ERDDBTeam.Global@Bain.com"
  /\ path1 acme_row = "1_Sebastian_Initial/Acme - C100.oft"
  /\ exists body1,
       render_text (sebastian tpls) ctx = Ret body1
       /\ forall o1 x1,
            SaveAs o {| To := "cm@acme.com";
                        CC := "tl@acme.com; poc@acme.com; ERDDBTeam.Global@Bain.com";
                        BCC := "//";
                        Subject := "ER&D Data Collection - C100 (Acme)";
                        BodyFormat := 2;
                        HTMLBody := body1 |} = (o1, Ret x1) ->
            exists more,
              zf (run_oft_generator_for_function Outlook SaveAs today other_syntax "ER&D" [acme_row] o)
              = ("1_Sebastian_Initial/Acme - C100.oft", x1) :: more.
Proof.
  cbv zeta.
  assert (Hs : render_text (subject (get_templates_for_function "ER&D"))
                 (row_ctx (today 0) acme_row)
               = Ret "ER&D Data Collection - C100 (Acme)") by (vm_compute; reflexivity).
  assert (Hcc : row_cc1 acme_row = "tl@acme.com; poc@acme.com; ERDDBTeam.Global@Bain.com")
    by (vm_compute; reflexivity).
  assert (Hpath : path1 acme_row = "1_Sebastian_Initial/Acme - C100.oft")
    by (vm_compute; reflexivity).
  assert (Hto : row_to acme_row = "cm@acme.com") by (vm_compute; reflexivity).
  assert (Hp : row_present acme_row = true) by (vm_compute; reflexivity).
  assert (Hok : row_recipients_ok acme_row = true) by (vm_compute; reflexivity).
  split; [exact Hs|]. split; [exact Hcc|]. split; [exact Hpath|].
  destruct (render_text (sebastian (get_templates_for_function "ER&D"))
              (row_ctx (today 0) acme_row)) as [body1|e] eqn:Hb1.
  2:{ exfalso. vm_compute in Hb1. discriminate Hb1. }
  exists body1. split; [reflexivity|].
  intros o1 x1 Hsave.
  unfold run_oft_generator_for_function. cbn [Processor.run_rows].
  unfold Processor.process_row.
  rewrite (row_body_stages _ 0 acme_row _ _ Hp Hok Hs), Hb1.
  unfold mail_item. rewrite Hto, Hcc.
  cbn [Processor.session].
  change (or_else "ER&D Data Collection - C100 (Acme)" " ")
    with "ER&D Data Collection - C100 (Acme)".
  rewrite Hsave. cbv zeta. rewrite Hpath.
  unfold set_session, add_entry, add_status.
  repeat match goal with
         | |- context [match render_text ?t ?c with _ => _ end] =>
             destruct (render_text t c)
         | |- context [SaveAs ?a ?b] =>
             destruct (SaveAs a b) as [? [?|?]]
         end;
    cbn [Processor.session Processor.zf Processor.status Processor.warnings app];
    eexists; reflexivity.
Qed.

End Batch.

(** *** The theorems on a session that counts its calls *)

(** A session that fails at its call number [bad] and returns an empty
    template otherwise. *)
Definition counting_session (bad : nat) (calls : nat) (mail : MailItem)
  : nat * outcome bytes :=
  (S calls, if Nat.eqb calls bad then Raise "COM failure" else Ret []).

Definition fixed_day (i : nat) : string := "04 Nov 2026".

Definition erd_body (which : TemplateSet -> string) : string :=
  match render_text refuses (which (get_templates_for_function "ER&D"))
          (row_ctx (fixed_day 0) acme_row) with
  | Ret b => b
  | Raise _ => ""
  end.

(** A row without [to], and a row whose team lead is not an address. *)
Definition no_to_row : Dict :=
  [("client_name", "Acme"); ("case_code", "C100"); ("case_manager_name", "");
   ("to", ""); ("team_lead_email", "tl@acme.com");
   ("POC_name", "poc@acme.com"); ("POC_display_name", ""); ("extra_cc", "")].

Definition bad_cc_row : Dict :=
  [("client_name", "Bolt"); ("case_code", "C200"); ("case_manager_name", "");
   ("to", "cm@bolt.com"); ("team_lead_email", "not-an-email");
   ("POC_name", "poc@bolt.com"); ("POC_display_name", ""); ("extra_cc", "")].

Definition erd : TemplateSet := get_templates_for_function "ER&D".

Lemma missing_field_row_skipped_witness :
  (field no_to_row "client_name" = "" \/ field no_to_row "case_code" = ""
   \/ field no_to_row "to" = "")
  /\ status (process_row nat (counting_session 9) fixed_day refuses erd 0 no_to_row (fresh 0))
     = [status_skipped_missing 0]
  /\ zf (process_row nat (counting_session 9) fixed_day refuses erd 0 no_to_row (fresh 0)) = [].
Proof.
  split; [right; right; reflexivity|].
  pose proof (missing_field_row_skipped nat (counting_session 9) fixed_day refuses erd 0
                no_to_row [acme_row] (fresh 0)
                (or_intror (or_intror eq_refl))) as H.
  split; [exact (proj1 H)|exact (proj1 (proj2 H))].
Defined.

Lemma rows_do_not_interfere_witness :
  status (run_rows nat (counting_session 9) fixed_day refuses erd 0
            ([no_to_row] ++ bad_cc_row :: [acme_row]) (fresh 0))
  = (status (run_rows nat (counting_session 9) fixed_day refuses erd 0 [no_to_row] (fresh 0))
     ++ status (process_row nat (counting_session 9) fixed_day refuses erd 1 bad_cc_row (fresh 0))
     ++ status (run_rows nat (counting_session 9) fixed_day refuses erd 2 [acme_row] (fresh 0)))%list.
Proof.
  exact (proj1 (proj2 (rows_do_not_interfere nat (counting_session 9) fixed_day refuses erd 0
                         [no_to_row] bad_cc_row [acme_row] (fresh 0)))).
Defined.

(** The batch of the three rows: the first two are skipped, the third is
    written in full. *)
Lemma three_row_batch :
  let final := run_oft_generator_for_function nat (counting_session 9) fixed_day refuses "ER&D"
                 [no_to_row; bad_cc_row; acme_row] 0 in
  status final = [status_skipped_missing 0; status_skipped_invalid 1;
                  status_ok 2 "Acme - C100"]
  /\ map fst (zf final) = ["1_Sebastian_Initial/Acme - C100.oft";
                           "2_POC_Follow_Up/Acme - C100.oft";
                           "3_Aseem_Escalation/Acme - C100.oft"]
  /\ session final = 3.
Proof. vm_compute. repeat split. Qed.

Lemma failed_row_keeps_written_stages_witness :
  row_present acme_row = true
  /\ row_recipients_ok acme_row = true
  /\ render_text refuses (subject erd) (row_ctx (fixed_day 0) acme_row)
     = Ret "ER&D Data Collection - C100 (Acme)"
  /\ render_text refuses (sebastian erd) (row_ctx (fixed_day 0) acme_row) = Ret (erd_body sebastian)
  /\ counting_session 1 0
       (mail_item "ER&D Data Collection - C100 (Acme)" (row_to acme_row)
          (row_cc1 acme_row) (erd_body sebastian)) = (1, Ret [])
  /\ render_text refuses (poc erd) (row_ctx (fixed_day 0) acme_row) = Ret (erd_body poc)
  /\ zf (process_row nat (counting_session 1) fixed_day refuses erd 0 acme_row (fresh 0))
     = [(path1 acme_row, [])]
  /\ status (process_row nat (counting_session 1) fixed_day refuses erd 0 acme_row (fresh 0))
     = [status_failed 0 "COM failure"].
Proof.
  assert (Hp : row_present acme_row = true) by (vm_compute; reflexivity).
  assert (Hok : row_recipients_ok acme_row = true) by (vm_compute; reflexivity).
  assert (Hs : render_text refuses (subject erd) (row_ctx (fixed_day 0) acme_row)
               = Ret "ER&D Data Collection - C100 (Acme)") by (vm_compute; reflexivity).
  assert (Hb1 : render_text refuses (sebastian erd) (row_ctx (fixed_day 0) acme_row)
                = Ret (erd_body sebastian)) by (vm_compute; reflexivity).
  assert (Hb2 : render_text refuses (poc erd) (row_ctx (fixed_day 0) acme_row)
                = Ret (erd_body poc)) by (vm_compute; reflexivity).
  do 4 (split; [assumption|]). split; [reflexivity|]. split; [assumption|].
  exact (proj1 (failed_row_keeps_written_stages nat (counting_session 1) fixed_day refuses erd 0
                  acme_row (fresh 0) "ER&D Data Collection - C100 (Acme)"
                  (erd_body sebastian) (erd_body poc) 1 [] Hp Hok Hs Hb1 eq_refl Hb2)
               2 "COM failure" eq_refl).
Defined.

Lemma acme_row_end_to_end_witness :
  exists more,
    zf (run_oft_generator_for_function nat (counting_session 9) fixed_day refuses "ER&D"
          [acme_row] 0)
    = ("1_Sebastian_Initial/Acme - C100.oft", []) :: more.
Proof.
  destruct (proj2 (proj2 (proj2 (acme_row_end_to_end nat (counting_session 9) fixed_day refuses 0))))
    as (body1 & _ & H).
  exact (H 1 [] eq_refl).
Defined.

End ProcessorFacts.

(** * Further properties of the code *)

From Stdlib Require Import ZArith Numbers.DecimalNat.

(** * Further properties of the recipient normaliser *)
Module MoreRecipientFacts.
Import PyStr Recipients Stages StrFacts RecipientFacts.

Lemma map_chars_app (f : ascii -> ascii) (a b : string) :
  map_chars f (a ++ b) = map_chars f a ++ map_chars f b.
Proof.
  induction a as [|c a IH]; [reflexivity|].
  cbn [append map_chars]. rewrite IH. reflexivity.
Qed.

(** Cutting at a separator cuts the text before it and the text after it. *)
Lemma split_app (sep : ascii) (a b : string) :
  split sep (a ++ String sep b) = (split sep a ++ split sep b)%list.
Proof.
  induction a as [|c a IH].
  - cbn [append split]. rewrite Ascii.eqb_refl. reflexivity.
  - cbn [append split]. rewrite IH.
    destruct (Ascii.eqb c sep); [reflexivity|].
    destruct (split sep a) as [|h t] eqn:E.
    + exfalso. exact (split_not_nil sep a E).
    + reflexivity.
Qed.

Lemma split_recipients_app (a b : string) :
  _split_recipients (a ++ ";" ++ b)
  = (_split_recipients a ++ _split_recipients b)%list.
Proof.
  unfold _split_recipients. rewrite !or_else_empty.
  unfold replace_char. rewrite map_chars_app.
  change (map_chars (fun c => if Ascii.eqb c "," then ";"%char else c) (";" ++ b))
    with (String ";" (map_chars (fun c => if Ascii.eqb c "," then ";"%char else c) b)).
  rewrite split_app, filter_app, map_app. reflexivity.
Qed.

Lemma separators_alike (s : string) :
  replace_char "," ";" (replace_char ";" "," s) = replace_char "," ";" s.
Proof.
  unfold replace_char. induction s as [|c s IH]; [reflexivity|].
  cbn [map_chars]. rewrite IH. f_equal.
  destruct (Ascii.eqb_spec c ";") as [->|N]; [reflexivity|].
  reflexivity.
Qed.

(** X1: the tokens that [_split_recipients] returns are never empty, have
    nothing left to strip and hold no semicolon or comma; joining them
    with semicolon and space and splitting again gives the same tokens. *)
Theorem split_recipients_round_trip (s : string) :
  Forall clean (_split_recipients s)
  /\ _split_recipients (join "; " (_split_recipients s)) = _split_recipients s.
Proof.
  split.
  - apply split_recipients_clean.
  - apply split_recipients_join, split_recipients_clean.
Qed.

(** X2: commas and semicolons are the same separator: writing every
    semicolon as a comma, or every comma as a semicolon, changes no
    token. *)
Theorem split_recipients_separators (s : string) :
  _split_recipients (replace_char ";" "," s) = _split_recipients s
  /\ _split_recipients (replace_char "," ";" s) = _split_recipients s.
Proof.
  unfold _split_recipients. rewrite !or_else_empty. split.
  - rewrite separators_alike. reflexivity.
  - rewrite (replace_char_absent "," ";" (replace_char "," ";" s)); [reflexivity|].
    apply replace_char_removes. reflexivity.
Qed.

(** X3: how the addresses are spread over the arguments of [build_cc]
    does not matter: two arguments give what their texts joined by a
    semicolon give, and an empty argument gives nothing. *)
Theorem build_cc_chunking (a b : string) (rest : list string) :
  build_cc (a :: b :: rest) = build_cc ((a ++ ";" ++ b) :: rest)
  /\ build_cc ("" :: rest) = build_cc rest.
Proof.
  split.
  - unfold build_cc, build_cc_out, build_cc_parts. cbn [flat_map].
    rewrite split_recipients_app, app_assoc. reflexivity.
  - reflexivity.
Qed.

Lemma first_occurrences_cover (parts : list string) :
  forall earlier p,
    In p parts ->
    existsb (fun q => String.eqb (lower q) (lower p)) earlier = true
    \/ exists q, In q (first_occurrences_from earlier parts) /\ lower q = lower p.
Proof.
  induction parts as [|x rest IH]; intros earlier p Hin; [contradiction|].
  cbn [first_occurrences_from].
  assert (Hrest : existsb (fun q => String.eqb (lower q) (lower p)) (earlier ++ [x])%list = true ->
                  existsb (fun q => String.eqb (lower q) (lower p)) earlier = true
                  \/ lower x = lower p).
  { rewrite existsb_app. cbn. rewrite orb_false_r. intros H.
    apply orb_true_iff in H as [H|H]; [left; exact H|right; apply String.eqb_eq, H]. }
  destruct (existsb (fun q => String.eqb (lower q) (lower x)) earlier) eqn:Ex.
  - destruct Hin as [->|Hin]; [left; exact Ex|].
    destruct (IH (earlier ++ [x])%list p Hin) as [H|H]; [|right; exact H].
    destruct (Hrest H) as [H'|H']; [left; exact H'|].
    left. rewrite <- H'. exact Ex.
  - destruct Hin as [->|Hin].
    + right. exists p. split; [left; reflexivity|reflexivity].
    + destruct (IH (earlier ++ [x])%list p Hin) as [H|(q & Hq & E)].
      * destruct (Hrest H) as [H'|H']; [left; exact H'|].
        right. exists x. split; [left; reflexivity|exact H'].
      * right. exists q. split; [right; exact Hq|exact E].
Qed.

(** X4: [build_cc] loses no address and invents none: every token of
    the arguments has the lower-cased text of some entry put out, and
    every entry put out is a token of the arguments. *)
Theorem build_cc_complete (chunks : list string) :
  (forall p, In p (build_cc_parts chunks) ->
             exists q, In q (build_cc_out chunks) /\ lower q = lower p)
  /\ (forall q, In q (build_cc_out chunks) -> In q (build_cc_parts chunks)).
Proof.
  rewrite build_cc_out_spec. split.
  - intros p Hp.
    destruct (first_occurrences_cover _ [] p Hp) as [H|H]; [discriminate H|exact H].
  - intros q Hq. eapply first_occurrences_sub, Hq.
Qed.

(** *** [dedup_against_to] *)

(** The test that keeps a CC token. *)
Definition kept (to_ : string) (x : string) : bool :=
  negb (set_mem string_dec (lower x) (to_set to_)).

Lemma kept_spec (to_ x : string) :
  kept to_ x = true <->
  forall y, In y (_split_recipients to_) -> lower y <> lower x.
Proof.
  unfold kept. rewrite negb_true_iff, to_set_mem. split.
  - intros H y Hy E.
    assert (T : existsb (fun y => String.eqb (lower y) (lower x)) (_split_recipients to_) = true).
    { apply existsb_exists. exists y. split; [exact Hy|apply String.eqb_eq, E]. }
    congruence.
  - intros H. destruct (existsb _ _) eqn:E; [|reflexivity].
    apply existsb_exists in E as (y & Hy & E). apply String.eqb_eq in E.
    exfalso. exact (H y Hy E).
Qed.

Lemma clean_filter (f : string -> bool) (l : list string) :
  Forall clean l -> Forall clean (filter f l).
Proof.
  intros H. apply Forall_forall. intros x Hx. apply filter_In in Hx as [Hx _].
  exact (proj1 (Forall_forall _ _) H x Hx).
Qed.

Lemma dedup_tokens (to_ cc_ : string) :
  _split_recipients (dedup_against_to to_ cc_) = filter (kept to_) (_split_recipients cc_).
Proof.
  unfold dedup_against_to. fold (kept to_).
  apply split_recipients_join, clean_filter, split_recipients_clean.
Qed.

Lemma filter_idem {A : Type} (f : A -> bool) (l : list A) :
  filter f (filter f l) = filter f l.
Proof.
  induction l as [|x l IH]; [reflexivity|].
  cbn [filter]. destruct (f x) eqn:E; [|exact IH].
  cbn [filter]. rewrite E, IH. reflexivity.
Qed.

Lemma filter_all {A : Type} (f : A -> bool) (l : list A) :
  (forall x, In x l -> f x = true) -> filter f l = l.
Proof.
  induction l as [|x l IH]; intros H; [reflexivity|].
  cbn [filter]. rewrite (H x (or_introl eq_refl)), IH; [reflexivity|].
  intros y Hy. apply H. right. exact Hy.
Qed.

(** X5: [dedup_against_to] applied to its own result changes nothing;
    with a To that holds no address it only normalises the CC (tokens
    stripped, joined with semicolon and space). *)
Theorem dedup_against_to_idempotent (to_ cc_ : string) :
  dedup_against_to to_ (dedup_against_to to_ cc_) = dedup_against_to to_ cc_
  /\ (_split_recipients to_ = [] ->
      dedup_against_to to_ cc_ = join "; " (_split_recipients cc_)).
Proof.
  split.
  - unfold dedup_against_to at 1. fold (kept to_).
    rewrite dedup_tokens, filter_idem. reflexivity.
  - intros Hto. unfold dedup_against_to, to_set. rewrite Hto. cbn [fold_left].
    rewrite filter_all; [reflexivity|]. intros x _. reflexivity.
Qed.

Lemma nodup_filter_keys (f : string -> bool) (l : list string) :
  NoDup (map lower l) -> NoDup (map lower (filter f l)).
Proof.
  induction l as [|x l IH]; intros H; [constructor|].
  cbn [map] in H. inversion H as [|? ? Hnot Hnd]; subst.
  cbn [filter]. destruct (f x); [|exact (IH Hnd)].
  cbn [map]. constructor; [|exact (IH Hnd)].
  intros Hin. apply Hnot. apply in_map_iff in Hin as (y & E & Hy).
  apply filter_In in Hy as [Hy _]. rewrite <- E. apply in_map, Hy.
Qed.

(** X6: a CC list built as the row processor builds it ([build_cc], then
    [dedup_against_to]) holds no address twice and none of the To
    addresses, upper and lower case taken as the same; each of its
    entries is a token of the sources. *)
Theorem stage_cc_disjoint (to_ : string) (chunks : list string) :
  let cc := _split_recipients (dedup_against_to to_ (build_cc chunks)) in
  NoDup (map lower cc)
  /\ (forall x y, In x cc -> In y (_split_recipients to_) -> lower y <> lower x)
  /\ (forall x, In x cc -> In x (build_cc_parts chunks)).
Proof.
  cbv zeta. rewrite dedup_tokens.
  assert (Hout : _split_recipients (build_cc chunks) = build_cc_out chunks)
    by apply split_recipients_join, build_cc_out_clean.
  rewrite Hout. split; [|split].
  - apply nodup_filter_keys. rewrite build_cc_out_spec. apply first_occurrences_nodup.
  - intros x y Hx Hy. apply filter_In in Hx as [_ Hk].
    exact (proj1 (kept_spec to_ x) Hk y Hy).
  - intros x Hx. apply filter_In in Hx as [Hx _].
    rewrite build_cc_out_spec in Hx. eapply first_occurrences_sub, Hx.
Qed.

End MoreRecipientFacts.

(** * Address forms: [strip_angle_display], [EMAIL_RE], the validator *)
Module AddressFacts.
Import PyStr Recipients Validator Regex Stages StrFacts.

(** *** More on [strip] and [split1] *)

Lemma absent_strip (c : ascii) (s : string) :
  contains c s = false -> contains c (strip s) = false.
Proof.
  intros H. destruct (contains c (strip s)) eqn:E; [|reflexivity].
  apply contains_strip in E. congruence.
Qed.

Lemma split1_fst_absent (sep : ascii) (s : string) :
  contains sep (fst (split1 sep s)) = false.
Proof.
  induction s as [|c s IH]; [reflexivity|].
  cbn [split1]. destruct (Ascii.eqb c sep) eqn:E; [reflexivity|].
  destruct (split1 sep s) as [h t]. cbn [fst contains] in *. rewrite E, IH. reflexivity.
Qed.

Lemma split1_app (sep : ascii) (a b : string) :
  contains sep a = false -> split1 sep (a ++ String sep b) = (a, Some b).
Proof.
  induction a as [|c a IH]; intros H.
  - cbn [append split1]. rewrite Ascii.eqb_refl. reflexivity.
  - cbn [contains] in H. apply orb_false_iff in H as [Hc Ha].
    cbn [append split1]. rewrite Hc, (IH Ha). reflexivity.
Qed.

Lemma lstrip_app (a : string) (c : ascii) (t : string) :
  is_space c = false -> lstrip (a ++ String c t) = lstrip a ++ String c t.
Proof.
  intros Hc. induction a as [|d a IH].
  - cbn [append lstrip]. rewrite Hc. reflexivity.
  - cbn [append lstrip]. destruct (is_space d); [exact IH|reflexivity].
Qed.

Lemma rstrip_app (a : string) (c : ascii) (t : string) :
  is_space c = false -> rstrip (a ++ String c t) = a ++ String c (rstrip t).
Proof.
  intros Hc. induction a as [|d a IH].
  - cbn [append rstrip]. rewrite Hc. reflexivity.
  - cbn [append rstrip]. rewrite IH.
    destruct a; cbn [append is_empty]; rewrite andb_false_r; reflexivity.
Qed.

Lemma contains_lstrip_absent (c : ascii) (s : string) :
  contains c s = false -> contains c (lstrip s) = false.
Proof.
  intros H. destruct (contains c (lstrip s)) eqn:E; [|reflexivity].
  apply contains_lstrip in E. congruence.
Qed.

(** The end of a stripped text is no line feed. *)
Lemma chop_newline_rstrip (s : string) : chop_newline (rstrip s) = None.
Proof.
  induction s as [|c s IH]; [reflexivity|].
  cbn [rstrip]. destruct (is_space c && is_empty (rstrip s)) eqn:E; [reflexivity|].
  cbn [chop_newline]. destruct (rstrip s) as [|d r] eqn:Er.
  - cbn [is_empty] in E. rewrite andb_true_r in E.
    destruct (Ascii.eqb_spec c LF) as [->|_]; [discriminate E|reflexivity].
  - rewrite IH. reflexivity.
Qed.

(** *** [strip_angle_display] *)

(** [strip_angle_display] after its first line. *)
Definition angle_core (s : string) : string :=
  if contains "<" s && contains ">" s then
    let after := match snd (split1 "<" s) with Some t => t | None => "" end in
    let inside := strip (fst (split1 ">" after)) in
    or_else inside s
  else s.

Lemma strip_angle_core (s : string) : strip_angle_display s = angle_core (strip s).
Proof. unfold strip_angle_display, angle_core. rewrite or_else_empty. reflexivity. Qed.

Lemma angle_core_stripped (s : string) : strip (angle_core (strip s)) = angle_core (strip s).
Proof.
  unfold angle_core. destruct (contains "<" (strip s) && contains ">" (strip s)).
  - cbv zeta. unfold or_else.
    destruct (truthy (strip (fst (split1 ">" _)))); apply strip_idem.
  - apply strip_idem.
Qed.

Lemma angle_core_fixed (s : string) : angle_core (angle_core s) = angle_core s.
Proof.
  remember (angle_core s) as r eqn:Hr. unfold angle_core in Hr.
  destruct (contains "<" s && contains ">" s) eqn:C.
  - cbv zeta in Hr.
    set (inside := strip (fst (split1 ">" match snd (split1 "<" s) with
                                          | Some t => t | None => "" end))) in Hr.
    unfold or_else in Hr. destruct (truthy inside) eqn:T; subst r.
    + unfold angle_core.
      assert (H : contains ">" inside = false) by apply absent_strip, split1_fst_absent.
      rewrite H, andb_false_r. reflexivity.
    + unfold angle_core. rewrite C. cbv zeta. fold inside.
      unfold or_else. rewrite T. reflexivity.
  - subst r. unfold angle_core. rewrite C. reflexivity.
Qed.

(** X7: [strip_angle_display] returns a text with nothing left to strip,
    and applying it to its own result changes nothing. *)
Theorem strip_angle_display_idempotent (s : string) :
  strip (strip_angle_display s) = strip_angle_display s
  /\ strip_angle_display (strip_angle_display s) = strip_angle_display s.
Proof.
  rewrite !strip_angle_core. split; [apply angle_core_stripped|].
  rewrite angle_core_stripped. apply angle_core_fixed.
Qed.

(** X8: for a value of the form [name <email> rest], where [name] has no
    [<], [email] no [>] and is not blank, [strip_angle_display] returns
    the e-mail part, stripped; a value without [<] or without [>] is
    returned stripped and otherwise as it is. *)
Theorem strip_angle_display_forms (name email rest s : string) :
  (contains "<" name = false ->
   contains ">" email = false ->
   strip email <> "" ->
   strip_angle_display (name ++ "<" ++ email ++ ">" ++ rest) = strip email)
  /\ (contains "<" s = false \/ contains ">" s = false ->
      strip_angle_display s = strip s).
Proof.
  split.
  - intros Hname Hemail Hne. rewrite strip_angle_core. unfold strip.
    change (name ++ "<" ++ email ++ ">" ++ rest)
      with (name ++ String "<" (email ++ String ">" rest)).
    rewrite lstrip_app by reflexivity.
    replace (lstrip name ++ String "<" (email ++ String ">" rest))
      with ((lstrip name ++ String "<" email) ++ String ">" rest).
    2:{ rewrite JinjaFacts.append_assoc. reflexivity. }
    rewrite rstrip_app by reflexivity.
    replace ((lstrip name ++ String "<" email) ++ String ">" (rstrip rest))
      with (lstrip name ++ String "<" (email ++ String ">" (rstrip rest))).
    2:{ rewrite JinjaFacts.append_assoc. reflexivity. }
    unfold angle_core.
    rewrite !contains_app. cbn [contains]. rewrite !contains_app. cbn [contains].
    change (Ascii.eqb "<" "<") with true. change (Ascii.eqb ">" ">") with true.
    rewrite !orb_true_r. cbn [andb orb].
    rewrite (split1_app "<" (lstrip name) _ (contains_lstrip_absent _ _ Hname)).
    cbn [snd]. rewrite (split1_app ">" email _ Hemail). cbn [fst].
    fold (strip email). unfold or_else.
    rewrite (proj2 (truthy_true (strip email)) Hne). reflexivity.
  - intros H. rewrite strip_angle_core. unfold angle_core.
    assert (C : contains "<" (strip s) && contains ">" (strip s) = false).
    { destruct H as [H|H]; rewrite (absent_strip _ _ H);
        [reflexivity|apply andb_false_r]. }
    rewrite C. reflexivity.
Qed.

Lemma strip_angle_display_forms_witness :
  contains "<" "John Doe " = false
  /\ contains ">" "john@acme.com" = false
  /\ strip "john@acme.com" <> ""
  /\ strip_angle_display "John Doe <john@acme.com>" = "john@acme.com".
Proof.
  split; [reflexivity|]. split; [reflexivity|]. split; [discriminate|].
  exact (proj1 (strip_angle_display_forms "John Doe " "john@acme.com" "" "")
           eq_refl eq_refl (fun E => match E with eq_refl => I end)).
Defined.

(** *** What the regular expressions accept *)

(** The texts a regular expression stands for. *)
Inductive lang : re -> string -> Prop :=
| lang_eps : lang Eps ""
| lang_class (p : ascii -> bool) (c : ascii) :
    p c = true -> lang (Class p) (String c "")
| lang_seq (a b : re) (s t : string) :
    lang a s -> lang b t -> lang (Seq a b) (s ++ t)
| lang_alt_l (a b : re) (s : string) : lang a s -> lang (Alt a b) s
| lang_alt_r (a b : re) (s : string) : lang b s -> lang (Alt a b) s
| lang_star_nil (a : re) : lang (Star a) ""
| lang_star_app (a : re) (s t : string) :
    lang a s -> lang (Star a) t -> lang (Star a) (s ++ t).

Lemma append_empty (s t : string) : s ++ t = "" -> s = "" /\ t = "".
Proof. destruct s; cbn; intros H; [split; [reflexivity|exact H]|discriminate H]. Qed.

Lemma nullable_lang (r : re) : nullable r = true <-> lang r "".
Proof.
  split.
  - induction r as [| |p|a IHa b IHb|a IHa b IHb|a IHa]; cbn [nullable]; intros H;
      try discriminate H.
    + constructor.
    + apply andb_true_iff in H as [Ha Hb].
      change "" with ("" ++ ""). constructor; auto.
    + apply orb_true_iff in H as [H|H]; [apply lang_alt_l|apply lang_alt_r]; auto.
    + constructor.
  - intros H. remember "" as e eqn:He.
    induction H as [|p c Hp|a b s t Ha IHa Hb IHb|a b s Ha IHa|a b s Hb IHb| |a s t Ha IHa Hs IHs];
      cbn [nullable]; try reflexivity; try discriminate He.
    + destruct (append_empty s t He) as [-> ->]. rewrite IHa, IHb; reflexivity.
    + rewrite (IHa He). reflexivity.
    + rewrite (IHb He). apply orb_true_r.
Qed.

Lemma deriv_sound (c : ascii) (r : re) :
  forall s, lang (deriv c r) s -> lang r (String c s).
Proof.
  induction r as [| |p|a IHa b IHb|a IHa b IHb|a IHa]; cbn [deriv]; intros s H.
  - inversion H.
  - inversion H.
  - destruct (p c) eqn:Hp; inversion H; subst. constructor. exact Hp.
  - destruct (nullable a) eqn:Na.
    + inversion H as [ | |? ? ? ? | ? ? ? H1 | ? ? ? H1 | | ]; subst.
      * inversion H1; subst.
        change (String c (s0 ++ t)) with (String c s0 ++ t). constructor; auto.
      * change (String c s) with ("" ++ String c s).
        constructor; [apply nullable_lang, Na|auto].
    + inversion H; subst.
      change (String c (s0 ++ t)) with (String c s0 ++ t). constructor; auto.
  - inversion H; subst; [apply lang_alt_l|apply lang_alt_r]; auto.
  - inversion H; subst.
    change (String c (s0 ++ t)) with (String c s0 ++ t). constructor; auto.
Qed.

Lemma deriv_complete (r : re) (u : string) :
  lang r u -> forall c s, u = String c s -> lang (deriv c r) s.
Proof.
  induction 1 as [|p d Hp|a b s1 t Ha IHa Hb IHb|a b s1 Ha IHa|a b s1 Hb IHb|
                  |a s1 t Ha IHa Hs IHs];
    intros c s E; cbn [deriv]; try discriminate E.
  - injection E as <- <-. rewrite Hp. constructor.
  - destruct s1 as [|d s1'].
    + cbn [append] in E. subst t.
      rewrite (proj2 (nullable_lang a) Ha). apply lang_alt_r. apply (IHb c s eq_refl).
    + cbn [append] in E. injection E as <- <-.
      destruct (nullable a); [apply lang_alt_l|]; constructor; auto.
  - apply lang_alt_l. auto.
  - apply lang_alt_r. auto.
  - destruct s1 as [|d s1'].
    + cbn [append] in E. apply (IHs c s E).
    + cbn [append] in E. injection E as <- <-. constructor; auto.
Qed.

Lemma fullmatch_lang (s : string) : forall r, fullmatch r s = true <-> lang r s.
Proof.
  induction s as [|c s IH]; intros r; cbn [fullmatch].
  - apply nullable_lang.
  - rewrite IH. split.
    + apply deriv_sound.
    + intros H. exact (deriv_complete r _ H c s eq_refl).
Qed.

Lemma lang_star_class (p : ascii -> bool) (s : string) :
  lang (Star (Class p)) s <-> all_chars p s = true.
Proof.
  split.
  - intros H. remember (Star (Class p)) as r eqn:Hr.
    induction H as [| | | | | |a s t Ha _ Hs IHs]; try discriminate Hr; [reflexivity|].
    injection Hr as ->. inversion Ha; subst.
    cbn [append all_chars]. rewrite H0. exact (IHs eq_refl).
  - induction s as [|c s IH]; cbn [all_chars]; intros H; [constructor|].
    apply andb_true_iff in H as [Hc Hs].
    change (String c s) with (String c "" ++ s).
    constructor; [constructor; exact Hc|exact (IH Hs)].
Qed.

(** A word of the class [p]: not empty, all characters in [p]. *)
Definition word (p : ascii -> bool) (s : string) : Prop :=
  s <> "" /\ all_chars p s = true.

Lemma lang_plus_class (p : ascii -> bool) (s : string) :
  lang (Plus (Class p)) s <-> word p s.
Proof.
  unfold Plus, word. split.
  - intros H. inversion H as [ | |a b s1 t Ha Hb| | | | ]; subst.
    inversion Ha; subst. split; [discriminate|].
    cbn [append all_chars]. rewrite H1. apply lang_star_class, Hb.
  - intros [Hne H]. destruct s as [|c s]; [congruence|].
    cbn [all_chars] in H. apply andb_true_iff in H as [Hc Hs].
    change (String c s) with (String c "" ++ s).
    constructor; [constructor; exact Hc|apply lang_star_class, Hs].
Qed.

Lemma lang_char (c : ascii) (s : string) :
  lang (Class (Ascii.eqb c)) s <-> s = String c "".
Proof.
  split.
  - intros H. inversion H; subst. apply Ascii.eqb_eq in H1. subst. reflexivity.
  - intros ->. constructor. apply Ascii.eqb_refl.
Qed.

(** The shape [local@name.tld]: three words without [@] and white space. *)
Definition email_shape (s : string) : Prop :=
  exists l a b,
    s = l ++ "@" ++ a ++ "." ++ b
    /\ word not_at_or_space l /\ word not_at_or_space a /\ word not_at_or_space b.

Lemma email_re_lang (s : string) : lang EMAIL_RE s <-> email_shape s.
Proof.
  unfold EMAIL_RE, email_shape. split.
  - intros H.
    inversion H as [ | |? ? l r1 Hl H1| | | | ]; subst.
    inversion H1 as [ | |? ? at_ r2 Hat H2| | | | ]; subst.
    inversion H2 as [ | |? ? a r3 Ha H3| | | | ]; subst.
    inversion H3 as [ | |? ? dot b Hdot Hb| | | | ]; subst.
    apply lang_char in Hat, Hdot. subst.
    exists l, a, b. split; [reflexivity|].
    split; [|split]; apply lang_plus_class; assumption.
  - intros (l & a & b & -> & Hl & Ha & Hb).
    constructor; [apply lang_plus_class, Hl|].
    change ("@" ++ a ++ "." ++ b) with (String "@" "" ++ a ++ String "." "" ++ b).
    constructor; [apply lang_char; reflexivity|].
    constructor; [apply lang_plus_class, Ha|].
    constructor; [apply lang_char; reflexivity|apply lang_plus_class, Hb].
Qed.

(** X9: [looks_like_email] accepts a value exactly when its e-mail part
    (what [strip_angle_display] returns) is three non-empty runs of
    characters other than [@] and white space, joined by one [@] and one
    dot: [local@name.tld]. *)
Theorem looks_like_email_shape (s : string) :
  looks_like_email s = true <-> email_shape (strip_angle_display s).
Proof.
  unfold looks_like_email, match_anchored.
  assert (Hchop : chop_newline (strip_angle_display s) = None).
  { rewrite strip_angle_core, <- angle_core_stripped. apply chop_newline_rstrip. }
  rewrite Hchop, orb_false_r, fullmatch_lang. apply email_re_lang.
Qed.

End AddressFacts.

(** * The validator, display names and file names *)
Module ValidatorFacts.
Import PyStr Recipients Validator Regex Jinja Stages StrFacts AddressFacts.

(** A token that the validator lets pass. *)
Definition acceptable (r : string) : bool :=
  String.eqb r "//" || looks_like_email r.

Lemma looks_like_email_core (r : string) :
  looks_like_email (strip_angle_display r) = looks_like_email r.
Proof.
  unfold looks_like_email.
  rewrite (strip_angle_core (strip_angle_display r)), (strip_angle_core r).
  rewrite angle_core_stripped, angle_core_fixed. reflexivity.
Qed.

Lemma bad_recipients_filter (l : list string) :
  bad_recipients l = filter (fun r => negb (acceptable r)) l.
Proof.
  induction l as [|r l IH]; [reflexivity|].
  cbn [bad_recipients filter]. unfold acceptable at 1.
  rewrite looks_like_email_core, IH.
  destruct (String.eqb r "//"); [reflexivity|].
  cbn [orb]. destruct (contains "<" r && contains ">" r);
    destruct (looks_like_email r); reflexivity.
Qed.

Lemma filter_nil_forallb {A : Type} (f : A -> bool) (l : list A) :
  filter (fun x => negb (f x)) l = [] <-> forallb f l = true.
Proof.
  induction l as [|x l IH]; [split; reflexivity|].
  cbn [filter forallb]. destruct (f x); cbn [negb andb].
  - exact IH.
  - split; discriminate.
Qed.

(** X10: the verdict of [assert_recipients_or_warn] is [True] exactly
    when every token of the recipients is the marker [//] or looks like
    an e-mail address (so a text without tokens passes); a warning is
    shown exactly when the verdict is [False], and it lists the tokens
    that do not pass, in their order. *)
Theorem assert_recipients_verdict (row_idx : nat) (label recips : string) :
  let tokens := _split_recipients recips in
  let result := assert_recipients_or_warn row_idx label recips in
  fst result = forallb acceptable tokens
  /\ (fst result = true -> snd result = None)
  /\ (fst result = false ->
      snd result = Some ("Row " ++ str_of_nat (row_idx + 1) ++ ": Invalid " ++ label
                         ++ " -> " ++ join ", " (filter (fun r => negb (acceptable r)) tokens))).
Proof.
  cbv zeta. unfold assert_recipients_or_warn.
  rewrite bad_recipients_filter.
  pose proof (filter_nil_forallb acceptable (_split_recipients recips)) as H.
  destruct (filter (fun r => negb (acceptable r)) (_split_recipients recips)) as [|b bad] eqn:E;
    cbn [fst snd].
  - split; [symmetry; apply H; reflexivity|]. split; [reflexivity|discriminate].
  - split; [|split; [discriminate|reflexivity]].
    destruct (forallb acceptable (_split_recipients recips)); [|reflexivity].
    destruct H as [_ H]. discriminate (H eq_refl).
Qed.

(** *** Characters of words *)

Lemma split_ws_from_words (s : string) :
  forall cur w,
    In w (split_ws_from cur s) ->
    w <> "" /\ forall c, contains c w = true -> contains c cur || contains c s = true.
Proof.
  induction s as [|d s IH]; intros cur w Hin; cbn [split_ws_from] in Hin.
  - destruct cur as [|x cur]; cbn [is_empty] in Hin; [contradiction|].
    destruct Hin as [<-|[]]. split; [discriminate|].
    intros c Hc. rewrite Hc. reflexivity.
  - destruct (is_space d).
    + assert (Hrest : In w (split_ws_from "" s) ->
                      w <> "" /\ forall c, contains c w = true ->
                                           contains c cur || contains c (String d s) = true).
      { intros H. destruct (IH "" w H) as [Hne Hc]. split; [exact Hne|].
        intros c Hw. specialize (Hc c Hw). cbn [contains orb] in Hc.
        cbn [contains]. rewrite Hc, !orb_true_r. reflexivity. }
      destruct cur as [|x cur]; cbn [is_empty] in Hin; [exact (Hrest Hin)|].
      destruct Hin as [<-|Hin]; [|exact (Hrest Hin)].
      split; [discriminate|]. intros c Hc. rewrite Hc. reflexivity.
    + destruct (IH _ w Hin) as [Hne Hc]. split; [exact Hne|].
      intros c Hw. specialize (Hc c Hw).
      rewrite contains_app in Hc. cbn [contains] in Hc. rewrite orb_false_r in Hc.
      cbn [contains]. rewrite <- orb_assoc in Hc. exact Hc.
Qed.

Lemma split_ws_chars (s w : string) (c : ascii) :
  In w (split_ws s) -> contains c w = true -> contains c s = true.
Proof.
  intros Hin Hc. destruct (split_ws_from_words s "" w Hin) as [_ H].
  exact (H c Hc).
Qed.

Lemma replace_char_keeps_absent (a b c : ascii) (s : string) :
  Ascii.eqb b c = false -> contains c s = false ->
  contains c (replace_char a b s) = false.
Proof.
  intros Hb. unfold replace_char. induction s as [|d s IH]; [reflexivity|].
  cbn [contains map_chars]. intros H. apply orb_false_iff in H as [Hd Hs].
  rewrite (IH Hs), orb_false_r. destruct (Ascii.eqb d a); assumption.
Qed.

Lemma absent_join (c : ascii) (sep : string) (l : list string) :
  contains c sep = false ->
  (forall w, In w l -> contains c w = false) ->
  contains c (join sep l) = false.
Proof.
  intros Hsep H. apply contains_join; [exact Hsep|].
  apply Forall_forall. exact H.
Qed.

(** Case mapping turns no character into one that is not a letter. *)
Lemma lower_char_target (d : ascii) : is_lower (lower_char d) = true \/ lower_char d = d.
Proof. unfold lower_char. destruct (is_upper d) eqn:E; [left|right; reflexivity].
  destruct d as [[|] [|] [|] [|] [|] [|] [|] [|]]; try discriminate E; reflexivity.
Qed.

Lemma upper_char_target (d : ascii) : is_upper (upper_char d) = true \/ upper_char d = d.
Proof. unfold upper_char. destruct (is_lower d) eqn:E; [left|right; reflexivity].
  destruct d as [[|] [|] [|] [|] [|] [|] [|] [|]]; try discriminate E; reflexivity.
Qed.

Lemma absent_lower (c : ascii) (s : string) :
  is_lower c = false -> contains c s = false -> contains c (lower s) = false.
Proof.
  intros Hc. unfold lower. induction s as [|d s IH]; [reflexivity|].
  cbn [contains map_chars]. intros H. apply orb_false_iff in H as [Hd Hs].
  rewrite (IH Hs), orb_false_r.
  destruct (lower_char_target d) as [T|T].
  - destruct (Ascii.eqb_spec (lower_char d) c) as [E|_]; [|reflexivity]. congruence.
  - rewrite T. exact Hd.
Qed.

Lemma absent_capitalize (c : ascii) (s : string) :
  is_lower c = false -> is_upper c = false ->
  contains c s = false -> contains c (capitalize s) = false.
Proof.
  intros Hl Hu. destruct s as [|d s]; [reflexivity|].
  cbn [contains capitalize]. intros H. apply orb_false_iff in H as [Hd Hs].
  rewrite (absent_lower c s Hl Hs), orb_false_r.
  destruct (upper_char_target d) as [T|T].
  - destruct (Ascii.eqb_spec (upper_char d) c) as [E|_]; [|reflexivity]. congruence.
  - rewrite T. exact Hd.
Qed.

(** The characters that [derive_display_name_from_email] removes. *)
Definition name_punctuation (c : ascii) : Prop :=
  c = "@"%char \/ c = "."%char \/ c = "_"%char \/ c = "-"%char.

(** X11: the display name derived from an address is never empty (it is
    [POC] when nothing else is left) and holds no [@], dot, underscore or
    hyphen. *)
Theorem derive_display_name_clean (email : string) :
  derive_display_name_from_email email <> ""
  /\ forall c, name_punctuation c ->
               contains c (derive_display_name_from_email email) = false.
Proof.
  unfold derive_display_name_from_email.
  set (local := fst (split1 "@" (or_else (strip_angle_display email) ""))).
  set (pretty := strip (replace_char "-" " " (replace_char "_" " " (replace_char "." " " local)))).
  split.
  - unfold or_else. destruct (truthy _) eqn:T; [apply truthy_true, T|discriminate].
  - intros c Hc.
    assert (Hpretty : contains c pretty = false).
    { apply absent_strip.
      destruct Hc as [->|[->|[->| ->]]].
      - do 3 (apply replace_char_keeps_absent; [reflexivity|]).
        apply split1_fst_absent.
      - do 2 (apply replace_char_keeps_absent; [reflexivity|]).
        apply replace_char_removes. reflexivity.
      - apply replace_char_keeps_absent; [reflexivity|].
        apply replace_char_removes. reflexivity.
      - apply replace_char_removes. reflexivity. }
    assert (Hplain : is_lower c = false /\ is_upper c = false /\ contains c " " = false
                     /\ contains c "POC" = false).
    { destruct Hc as [->|[->|[->| ->]]]; repeat split. }
    destruct Hplain as (Hl & Hu & Hsp & Hpoc).
    unfold or_else. destruct (truthy _); [|exact Hpoc].
    apply absent_join; [exact Hsp|].
    intros w Hw. apply in_map_iff in Hw as (w0 & <- & Hw0).
    apply absent_capitalize; [exact Hl|exact Hu|].
    destruct (contains c w0) eqn:E; [|reflexivity].
    rewrite (split_ws_chars pretty w0 c Hw0 E) in Hpretty. discriminate Hpretty.
Qed.

(** *** [sanitize_filename] *)

Lemma replaced_all_keeps_absent (l : list ascii) :
  forall name c,
    Ascii.eqb "-" c = false -> contains c name = false ->
    contains c (fold_left (fun nm ch => replace_char ch "-" nm) l name) = false.
Proof.
  induction l as [|ch l IH]; intros name c Hc H; [exact H|].
  cbn [fold_left]. apply IH; [exact Hc|].
  apply replace_char_keeps_absent; assumption.
Qed.

Lemma replaced_all_absent (l : list ascii) :
  forall name c,
    Ascii.eqb "-" c = false -> In c l ->
    contains c (fold_left (fun nm ch => replace_char ch "-" nm) l name) = false.
Proof.
  induction l as [|ch l IH]; intros name c Hc Hin; [contradiction|].
  cbn [fold_left]. destruct Hin as [->|Hin].
  - apply replaced_all_keeps_absent; [exact Hc|].
    apply replace_char_removes. exact Hc.
  - apply IH; assumption.
Qed.

Lemma bad_char_plain (c : ascii) :
  In c bad_filename_chars -> Ascii.eqb "-" c = false /\ contains c " " = false.
Proof.
  unfold bad_filename_chars. cbn [In]. intros H.
  repeat (destruct H as [<-|H]; [split; reflexivity|]). contradiction.
Qed.

Lemma sanitize_absent (name : string) (c : ascii) :
  In c bad_filename_chars -> contains c (sanitize_filename name) = false.
Proof.
  intros Hin. destruct (bad_char_plain c Hin) as [Hdash Hsp].
  unfold sanitize_filename. apply absent_strip, absent_join; [exact Hsp|].
  intros w Hw. destruct (contains c w) eqn:E; [|reflexivity].
  pose proof (split_ws_chars _ w c Hw E) as H.
  rewrite (replaced_all_absent bad_filename_chars name c Hdash Hin) in H. discriminate H.
Qed.

(** X12: the name that [sanitize_filename] returns holds none of the
    characters it replaces (less-than, greater-than, colon, double quote,
    slash, backslash, bar, question mark, star, line feed, carriage
    return, tab) and has nothing left to strip. *)
Theorem sanitize_filename_safe (name : string) :
  (forall c, In c bad_filename_chars -> contains c (sanitize_filename name) = false)
  /\ strip (sanitize_filename name) = sanitize_filename name.
Proof.
  split.
  - intros c Hin. apply sanitize_absent, Hin.
  - unfold sanitize_filename. apply strip_idem.
Qed.

(** X13: the three archive paths of a row are its stage folders followed
    by one file name: cut at slashes, each path has exactly two parts,
    and the file name holds no backslash either. *)
Theorem stage_paths_flat (r : Dict) :
  split "/" (path1 r) = ["1_Sebastian_Initial"; row_base r ++ ".oft"]
  /\ split "/" (path2 r) = ["2_POC_Follow_Up"; row_base r ++ ".oft"]
  /\ split "/" (path3 r) = ["3_Aseem_Escalation"; row_base r ++ ".oft"]
  /\ contains "\" (row_base r ++ ".oft") = false.
Proof.
  assert (Hbase : forall c, In c bad_filename_chars -> contains c ".oft" = false ->
                            contains c (row_base r ++ ".oft") = false).
  { intros c Hin Hext. rewrite contains_app, Hext. unfold row_base.
    rewrite (sanitize_absent _ c Hin). reflexivity. }
  assert (Hslash : contains "/" (row_base r ++ ".oft") = false).
  { apply Hbase; [|reflexivity]. unfold bad_filename_chars. cbn [In]. tauto. }
  unfold path1, path2, path3.
  repeat split.
  - change ("1_Sebastian_Initial/" ++ row_base r ++ ".oft")
      with ("1_Sebastian_Initial" ++ String "/" (row_base r ++ ".oft")).
    rewrite split_app_sep by reflexivity. rewrite (split_no_sep _ _ Hslash). reflexivity.
  - change ("2_POC_Follow_Up/" ++ row_base r ++ ".oft")
      with ("2_POC_Follow_Up" ++ String "/" (row_base r ++ ".oft")).
    rewrite split_app_sep by reflexivity. rewrite (split_no_sep _ _ Hslash). reflexivity.
  - change ("3_Aseem_Escalation/" ++ row_base r ++ ".oft")
      with ("3_Aseem_Escalation" ++ String "/" (row_base r ++ ".oft")).
    rewrite split_app_sep by reflexivity. rewrite (split_no_sep _ _ Hslash). reflexivity.
  - apply Hbase; [|reflexivity]. unfold bad_filename_chars. cbn [In]. tauto.
Qed.

End ValidatorFacts.

(** * Further properties of rendering *)
Module MoreRenderFacts.
Import PyStr Jinja Templates Stages StrFacts JinjaFacts RenderFacts.

Lemma drop_trailing_keeps_absent (c : ascii) (s : string) :
  contains c s = false -> contains c (drop_trailing_newline s) = false.
Proof.
  induction s as [|d s IH]; [reflexivity|].
  cbn [contains drop_trailing_newline]. intros H. apply orb_false_iff in H as [Hd Hs].
  destruct (Ascii.eqb d LF && is_empty s); [reflexivity|].
  cbn [contains]. rewrite Hd, (IH Hs). reflexivity.
Qed.

Lemma drop_trailing_none (s : string) :
  Regex.chop_newline s = None -> drop_trailing_newline s = s.
Proof.
  induction s as [|c s IH]; [reflexivity|]. intros Hend.
  cbn [Regex.chop_newline] in Hend. cbn [drop_trailing_newline].
  destruct s as [|d s'].
  - cbn [is_empty]. rewrite andb_true_r.
    destruct (Ascii.eqb c LF); [discriminate Hend|reflexivity].
  - cbn [is_empty]. rewrite andb_false_r. f_equal. apply IH.
    destruct (Regex.chop_newline (String d s')); [discriminate Hend|reflexivity].
Qed.

Section Library.

Variable other_syntax : string -> Dict -> outcome string.

Local Abbreviation render_text := (render_text other_syntax).

(** X14: a template without an opening brace renders to itself, up to
    what Jinja does to every source (newlines normalised, one newline at
    the very end dropped), in every context that can be passed as
    keyword arguments; a context with the key [self] raises the
    [TypeError] of the call.  The template comes out as it is when it
    holds no carriage return and does not end in a line feed. *)
Theorem render_text_plain (template_str : string) (context : Dict) :
  contains "{" template_str = false ->
  render_text template_str context =
    match get context "self" with
    | Some _ => Raise self_collision
    | None => Ret (prepare template_str)
    end
  /\ (get context "self" = None ->
      contains CR template_str = false ->
      Regex.chop_newline template_str = None ->
      render_text template_str context = Ret template_str).
Proof.
  intros H.
  assert (E : render_text template_str context =
              match get context "self" with
              | Some _ => Raise self_collision
              | None => Ret (prepare template_str)
              end).
  { assert (L : literal false (prepare template_str) = true).
    { apply brace_free_literal. unfold prepare.
      apply drop_trailing_keeps_absent, normalize_keeps_absent; [reflexivity|exact H]. }
    pose proof (render_literal context _ L) as R.
    unfold Jinja.render_text, from_string.
    destruct (lex Data (prepare template_str)) as [tmpl|]; [|discriminate R].
    injection R as R. unfold call_render. rewrite R. reflexivity. }
  split; [exact E|].
  intros Hself Hcr Hend. rewrite E, Hself. unfold prepare.
  rewrite (normalize_plain _ Hcr), (drop_trailing_none _ Hend). reflexivity.
Qed.

End Library.

Lemma render_text_plain_witness :
  contains "{" "Best, Sebastian" = false
  /\ render_text refuses "Best, Sebastian" [("client_name", "Acme")] = Ret "Best, Sebastian".
Proof.
  split; [reflexivity|].
  exact (proj1 (render_text_plain refuses "Best, Sebastian" [("client_name", "Acme")] eq_refl)).
Defined.

(** *** Escaping *)

(** The characters that [escape] replaces. *)
Definition is_markup (c : ascii) : bool :=
  Ascii.eqb c "&" || Ascii.eqb c ">" || Ascii.eqb c "<" || Ascii.eqb c "'"
  || Ascii.eqb c (ascii_of_nat 34).

Lemma length_append (a b : string) :
  String.length (a ++ b) = String.length a + String.length b.
Proof. induction a as [|c a IH]; cbn; [reflexivity|]. rewrite IH. reflexivity. Qed.

Lemma escape_char_length (c : ascii) :
  (is_markup c = false /\ escape_char c = String c "")
  \/ (is_markup c = true /\ 4 <= String.length (escape_char c)).
Proof.
  unfold is_markup, escape_char.
  destruct (Ascii.eqb c "&"); [right; split; [reflexivity|cbn; lia]|].
  destruct (Ascii.eqb c ">"); [right; split; [reflexivity|cbn; lia]|].
  destruct (Ascii.eqb c "<"); [right; split; [reflexivity|cbn; lia]|].
  destruct (Ascii.eqb c "'"); [right; split; [reflexivity|cbn; lia]|].
  destruct (Ascii.eqb c (ascii_of_nat 34)); [right; split; [reflexivity|cbn; lia]|].
  left. split; reflexivity.
Qed.

Lemma escape_length (v : string) : String.length v <= String.length (escape v).
Proof.
  induction v as [|c v IH]; [apply le_n|].
  cbn [escape]. rewrite length_append.
  destruct (escape_char_length c) as [[_ E]|[_ E]]; [rewrite E|]; cbn; lia.
Qed.

(** X15: [escape] never shortens a value, and returns it unchanged
    exactly when it holds none of the five characters [&], [<], [>],
    apostrophe and double quote. *)
Theorem escape_identity (v : string) :
  String.length v <= String.length (escape v)
  /\ (escape v = v <-> all_chars (fun c => negb (is_markup c)) v = true).
Proof.
  split; [apply escape_length|].
  split.
  - intros E. assert (L : String.length (escape v) = String.length v) by (rewrite E; reflexivity).
    clear E. induction v as [|c v IH]; [reflexivity|].
    cbn [escape] in L. rewrite length_append in L. cbn [String.length] in L.
    pose proof (escape_length v) as Hv.
    cbn [all_chars]. destruct (escape_char_length c) as [[M E]|[M E]].
    + rewrite M. cbn [negb andb]. apply IH. rewrite E in L. cbn in L. lia.
    + lia.
  - induction v as [|c v IH]; [reflexivity|].
    cbn [all_chars]. intros H. apply andb_true_iff in H as [Hc Hv].
    cbn [escape]. rewrite (IH Hv).
    destruct (escape_char_length c) as [[M E]|[M E]].
    + rewrite E. reflexivity.
    + rewrite M in Hc. discriminate Hc.
Qed.

(** *** What the context is used for *)

Lemma render_agree (tmpl : list node) (ctx ctx' : Dict) :
  (forall x, In x (names_of tmpl) -> get ctx x = get ctx' x) ->
  render tmpl ctx = render tmpl ctx'.
Proof.
  induction tmpl as [|n t IH]; intros H; [reflexivity|].
  rewrite !render_cons. f_equal.
  - destruct n as [d|x|x]; [reflexivity| |];
      cbn [render_node]; (rewrite (H x); [reflexivity|]); left; reflexivity.
  - apply IH. intros x Hx. apply H. unfold names_of. cbn [flat_map].
    apply in_or_app. right. exact Hx.
Qed.

Section Library.

Variable other_syntax : string -> Dict -> outcome string.

Local Abbreviation render_text := (render_text other_syntax).

Lemma render_text_agree (template_str : string) (names : list string) (ctx ctx' : Dict) :
  placeholders template_str = Some names ->
  (forall x, In x ("self" :: names) -> get ctx x = get ctx' x) ->
  render_text template_str ctx = render_text template_str ctx'.
Proof.
  unfold placeholders, Jinja.render_text. intros Hp H.
  destruct (from_string template_str) as [tmpl|]; [|discriminate Hp].
  injection Hp as <-. unfold call_render.
  rewrite <- (H "self" (or_introl eq_refl)).
  destruct (get ctx "self"); [reflexivity|].
  f_equal. apply render_agree. intros x Hx. apply H. right. exact Hx.
Qed.

Ltac today_unused :=
  intros r d d';
  match goal with
  | |- Jinja.render_text _ ?s _ = _ =>
      let n := eval vm_compute in (placeholders s) in
      match n with
      | Some ?names =>
          apply (render_text_agree s names);
          [ vm_compute; reflexivity
          | intros x Hx; cbn [In] in Hx;
            repeat (destruct Hx as [<-|Hx]; [reflexivity|]); contradiction ]
      end
  end.

(** X16: in a template of text and print blocks, rendering uses the
    context only at the names the template prints and at [self]: two
    contexts that agree there give the same result.  No template of the
    four functions prints [today], so the day a row is processed on
    changes nothing in its subject and bodies. *)
Theorem render_text_uses_printed_names
    (template_str : string) (names : list string) (ctx ctx' : Dict) :
  (placeholders template_str = Some names ->
   (forall x, In x ("self" :: names) -> get ctx x = get ctx' x) ->
   render_text template_str ctx = render_text template_str ctx')
  /\ Forall (fun f =>
               let t := get_templates_for_function f in
               Forall (fun s => forall r d d',
                         render_text s (row_ctx d r) = render_text s (row_ctx d' r))
                      [subject t; sebastian t; poc t; aseem t])
            FUNCTIONS.
Proof.
  split; [apply render_text_agree|].
  unfold FUNCTIONS.
  repeat (apply Forall_cons;
          [cbv zeta; repeat (apply Forall_cons; [today_unused|]); apply Forall_nil|]).
  apply Forall_nil.
Qed.

End Library.

End MoreRenderFacts.

(** * The preview of the first row *)
Module Preview.
Import PyStr Recipients Validator Jinja Templates Processor.

(** What the preview shows for one template. *)
Record Shown : Type := {
  shown_to : string;
  shown_cc : string;
  shown_bcc : string;
  shown_subject : string;
  shown_body : string
}.

Section Library.

Variable other_syntax : string -> Dict -> outcome string.

Local Abbreviation render_text := (render_text other_syntax).

(** The preview block of [run_oft_generator_for_function] for the row
    [r0]: the values written out for Sebastian, POC and Aseem, in that
    order.  Rendering is not guarded here: an exception leaves the
    block. *)
Definition preview (tpls : TemplateSet) (today : string) (r0 : Dict)
  : outcome (list Shown) :=
  let SUBJECT_COMMON := subject tpls in
  let BODY_SEBASTIAN := sebastian tpls in
  let BODY_POC := poc tpls in
  let BODY_ASEEM := aseem tpls in
  let client_name := strip (field r0 "client_name") in
  let case_code := strip (field r0 "case_code") in
  let case_manager := strip (field r0 "case_manager_name") in
  let to_cm := strip (field r0 "to") in
  let team_lead_email := strip (field r0 "team_lead_email") in
  let poc_email := strip (field r0 "POC_name") in
  let poc_display_name := or_else (strip (field r0 "POC_display_name"))
                                  (derive_display_name_from_email poc_email) in
  let extra_cc := strip (field r0 "extra_cc") in
  let bcc_preview := "//" in
  let ctx := [("client_name", client_name);
              ("case_code", case_code);
              ("case_manager_name", case_manager);
              ("poc_display_name", poc_display_name);
              ("today", today)] in
  match render_text SUBJECT_COMMON ctx with
  | Raise e => Raise e
  | Ret subject_preview =>
    let cc_seb := build_cc [team_lead_email; poc_email; extra_cc; "ERDDBTeam.Global@Bain.com"] in
    let cc_seb := dedup_against_to to_cm cc_seb in
    match render_text BODY_SEBASTIAN ctx with
    | Raise e => Raise e
    | Ret body_seb =>
      let cc_poc := build_cc ["ERDDBTeam.Global@Bain.com"; team_lead_email;
                              "Sebastian.Sambale@Bain.com"] in
      let cc_poc := dedup_against_to to_cm cc_poc in
      match render_text BODY_POC ctx with
      | Raise e => Raise e
      | Ret body_poc =>
        let cc_aseem := build_cc ["Sebastian.Sambale@Bain.com"; team_lead_email;
                                  "ERDDBTeam.Global@Bain.com"; poc_email] in
        let cc_aseem := dedup_against_to to_cm cc_aseem in
        match render_text BODY_ASEEM ctx with
        | Raise e => Raise e
        | Ret body_aseem =>
          Ret [ {| shown_to := to_cm; shown_cc := cc_seb; shown_bcc := bcc_preview;
                   shown_subject := subject_preview; shown_body := body_seb |};
                {| shown_to := to_cm; shown_cc := cc_poc; shown_bcc := bcc_preview;
                   shown_subject := subject_preview; shown_body := body_poc |};
                {| shown_to := to_cm; shown_cc := cc_aseem; shown_bcc := bcc_preview;
                   shown_subject := subject_preview; shown_body := body_aseem |} ]
        end
      end
    end
  end.

End Library.

(** The mail item with the values shown. *)
Definition mail_shown (s : Shown) : MailItem :=
  {| To := shown_to s; CC := shown_cc s; BCC := shown_bcc s;
     Subject := or_else (shown_subject s) " ";
     BodyFormat := 2;
     HTMLBody := shown_body s |}.

End Preview.

(** * Further properties of the row processor *)
Module MoreProcessorFacts.
Import PyStr Recipients Validator Jinja Templates Processor Stages StrFacts.
Import RenderFacts ProcessorFacts Preview.

Section Batch.

Variable Outlook : Type.
Variable SaveAs : Outlook -> MailItem -> Outlook * outcome bytes.
Variable today : nat -> string.
Variable other_syntax : string -> Dict -> outcome string.

Local Abbreviation render_text := (render_text other_syntax).
Local Abbreviation World := (World Outlook).
Local Abbreviation row_body := (row_body Outlook SaveAs today other_syntax).
Local Abbreviation process_row := (process_row Outlook SaveAs today other_syntax).
Local Abbreviation run_rows := (run_rows Outlook SaveAs today other_syntax).
Local Abbreviation preview := (preview other_syntax).
Local Abbreviation add_status := (add_status Outlook).
Local Abbreviation add_warnings := (add_warnings Outlook).
Local Abbreviation add_entry := (add_entry Outlook).
Local Abbreviation set_session := (set_session Outlook).

(** X17: when the preview of a row shows three templates and the row
    passes the guard and the recipient checks, generating hands to
    Outlook exactly what was shown (To, CC, BCC, subject, body), in the
    order Sebastian, POC, Aseem; when Outlook returns all three, the
    archive gets the three files in that order under the row's name, the
    row is reported OK, and nothing else changes. *)
Theorem preview_is_generated
    (tpls : TemplateSet) (i : nat) (r : Dict) (w : World)
    (s1 s2 s3 : Shown) (o1 o2 o3 : Outlook) (x1 x2 x3 : bytes) :
  preview tpls (today i) r = Ret [s1; s2; s3] ->
  row_present r = true ->
  row_recipients_ok r = true ->
  SaveAs (session w) (mail_shown s1) = (o1, Ret x1) ->
  SaveAs o1 (mail_shown s2) = (o2, Ret x2) ->
  SaveAs o2 (mail_shown s3) = (o3, Ret x3) ->
  process_row tpls i r w =
  {| session := o3;
     zf := (zf w ++ [(path1 r, x1); (path2 r, x2); (path3 r, x3)])%list;
     status := (status w ++ [status_ok i (row_base r)])%list;
     warnings := warnings w |}.
Proof.
  intros Hprev Hp Hok H1 H2 H3.
  unfold preview in Hprev. cbv zeta in Hprev.
  fold (row_client r) (row_code r) (row_to r) (row_tl r) (row_poc r) (row_extra r) in Hprev.
  fold (row_ctx (today i) r) in Hprev.
  fold (row_cc1 r) (row_cc2 r) (row_cc3 r) in Hprev.
  destruct (render_text (subject tpls) (row_ctx (today i) r)) as [subj|e] eqn:Hs;
    [|discriminate Hprev].
  destruct (render_text (sebastian tpls) (row_ctx (today i) r)) as [b1|e] eqn:Hb1;
    [|discriminate Hprev].
  destruct (render_text (poc tpls) (row_ctx (today i) r)) as [b2|e] eqn:Hb2;
    [|discriminate Hprev].
  destruct (render_text (aseem tpls) (row_ctx (today i) r)) as [b3|e] eqn:Hb3;
    [|discriminate Hprev].
  injection Hprev as <- <- <-.
  unfold mail_shown in H1, H2, H3.
  cbn [shown_to shown_cc shown_bcc shown_subject shown_body] in H1, H2, H3.
  fold (mail_item subj (row_to r) (row_cc1 r) b1) in H1.
  fold (mail_item subj (row_to r) (row_cc2 r) b2) in H2.
  fold (mail_item subj (row_to r) (row_cc3 r) b3) in H3.
  unfold Processor.process_row.
  rewrite (row_body_stages Outlook SaveAs today other_syntax tpls i r w subj Hp Hok Hs).
  rewrite Hb1, H1. cbv zeta. rewrite Hb2, H2. cbv zeta. rewrite Hb3, H3.
  unfold ProcessorFacts.add_status, ProcessorFacts.add_entry, ProcessorFacts.set_session.
  cbn [Processor.session Processor.zf Processor.status Processor.warnings].
  rewrite <- !app_assoc. reflexivity.
Qed.

(** What a row whose [try] block returns has done. *)
Lemma row_body_returns (tpls : TemplateSet) (i : nat) (r : Dict) (w w' : World) (u : unit) :
  row_body tpls i r w = (Ret u, w') ->
  (zf w' = zf w /\ session w' = session w
   /\ (status w' = (status w ++ [status_skipped_missing i])%list
       \/ status w' = (status w ++ [status_skipped_invalid i])%list))
  \/ (exists x1 x2 x3,
         zf w' = (zf w ++ [(path1 r, x1); (path2 r, x2); (path3 r, x3)])%list
         /\ status w' = (status w ++ [status_ok i (row_base r)])%list).
Proof.
  intros H.
  destruct (row_present r) eqn:Hp.
  2:{ rewrite (row_body_missing Outlook SaveAs today other_syntax tpls i r w Hp) in H.
      injection H as _ <-. left. repeat split. left. reflexivity. }
  destruct (render_text (subject tpls) (row_ctx (today i) r)) as [subj|e] eqn:Hs.
  2:{ rewrite (row_body_subject_raises Outlook SaveAs today other_syntax tpls i r w e Hp Hs) in H.
      discriminate H. }
  destruct (row_recipients_ok r) eqn:Hok.
  2:{ destruct (row_body_invalid Outlook SaveAs today other_syntax tpls i r w subj Hp Hs Hok) as [ws E].
      rewrite E in H. injection H as _ <-. left. repeat split. right. reflexivity. }
  rewrite (row_body_stages Outlook SaveAs today other_syntax tpls i r w subj Hp Hok Hs) in H.
  destruct (render_text (sebastian tpls) _) as [b1|e]; [|discriminate H].
  destruct (SaveAs (session w) _) as [o1 [x1|e]]; [|discriminate H].
  cbv zeta in H.
  destruct (render_text (poc tpls) _) as [b2|e]; [|discriminate H].
  destruct (SaveAs o1 _) as [o2 [x2|e]]; [|discriminate H].
  cbv zeta in H.
  destruct (render_text (aseem tpls) _) as [b3|e]; [|discriminate H].
  destruct (SaveAs o2 _) as [o3 [x3|e]]; [|discriminate H].
  injection H as _ <-. right. exists x1, x2, x3.
  unfold ProcessorFacts.add_status, ProcessorFacts.add_entry, ProcessorFacts.set_session.
  cbn [Processor.session Processor.zf Processor.status Processor.warnings].
  rewrite <- !app_assoc. split; reflexivity.
Qed.

(** X18: a row is all or nothing unless it fails: when its [try] block
    returns, either the row was skipped (one SKIPPED line, no entry
    written, Outlook not used) or all three stages were written, in
    stage order under the row's file name, and the row is OK. *)
Theorem returned_row_all_or_nothing
    (tpls : TemplateSet) (i : nat) (r : Dict) (w w' : World) (u : unit) :
  row_body tpls i r w = (Ret u, w') ->
  process_row tpls i r w = w'
  /\ ((zf w' = zf w /\ session w' = session w
       /\ (status w' = (status w ++ [status_skipped_missing i])%list
           \/ status w' = (status w ++ [status_skipped_invalid i])%list))
      \/ (exists x1 x2 x3,
             zf w' = (zf w ++ [(path1 r, x1); (path2 r, x2); (path3 r, x3)])%list
             /\ status w' = (status w ++ [status_ok i (row_base r)])%list)).
Proof.
  intros H. split.
  - unfold Processor.process_row. rewrite H. reflexivity.
  - exact (row_body_returns tpls i r w w' u H).
Qed.

(** X19: Outlook is used, and the archive written, only for rows that
    have all three required fields and whose To and three CC lists pass
    the validator: any other row leaves the session and the archive as
    they were, whatever the templates do. *)
Theorem unchecked_row_leaves_outlook
    (tpls : TemplateSet) (i : nat) (r : Dict) (w : World) :
  row_present r = false \/ row_recipients_ok r = false ->
  session (process_row tpls i r w) = session w
  /\ zf (process_row tpls i r w) = zf w.
Proof.
  intros H. unfold Processor.process_row.
  destruct (row_present r) eqn:Hp.
  2:{ rewrite (row_body_missing Outlook SaveAs today other_syntax tpls i r w Hp). split; reflexivity. }
  destruct H as [H|Hok]; [discriminate H|].
  destruct (render_text (subject tpls) (row_ctx (today i) r)) as [subj|e] eqn:Hs.
  - destruct (row_body_invalid Outlook SaveAs today other_syntax tpls i r w subj Hp Hs Hok) as [ws E].
    rewrite E. split; reflexivity.
  - rewrite (row_body_subject_raises Outlook SaveAs today other_syntax tpls i r w e Hp Hs).
    split; reflexivity.
Qed.

(** One turn of the loop only adds to the archive, three entries at
    most. *)
Lemma process_row_at_most_three (tpls : TemplateSet) (i : nat) (r : Dict) (w : World) :
  exists written,
    zf (process_row tpls i r w) = (zf w ++ written)%list /\ length written <= 3.
Proof.
  unfold Processor.process_row.
  destruct (raises_row_body Outlook SaveAs today other_syntax tpls i r w) as (written & Hzf & Hlen).
  destruct (row_body tpls i r w) as [[u|e] w'] eqn:E; cbn [fst snd] in Hzf, Hlen.
  - destruct (row_body_returns tpls i r w w' u E) as [(Hz & _)|(x1 & x2 & x3 & Hz & _)].
    + exists []. rewrite Hz, app_nil_r. split; [reflexivity|cbn; lia].
    + exists [(path1 r, x1); (path2 r, x2); (path3 r, x3)]. split; [exact Hz|cbn; lia].
  - exists written. cbn [Processor.zf]. split; [exact Hzf|lia].
Qed.

(** X20: a batch only ever adds to the archive, and at most three
    entries for each row. *)
Theorem batch_archive_bound (tpls : TemplateSet) (rows : list Dict) (i : nat) (w : World) :
  exists written,
    zf (run_rows tpls i rows w) = (zf w ++ written)%list
    /\ length written <= 3 * length rows.
Proof.
  revert i w. induction rows as [|r rest IH]; intros i w.
  - exists []. cbn. rewrite app_nil_r. split; [reflexivity|lia].
  - cbn [Processor.run_rows].
    destruct (process_row_at_most_three tpls i r w) as (a & Ha & La).
    destruct (IH (S i) (process_row tpls i r w)) as (b & Hb & Lb).
    exists (a ++ b)%list. rewrite Hb, Ha, <- app_assoc, length_app.
    split; [reflexivity|cbn [length]; lia].
Qed.

(** Outlook never raises. *)
Definition outlook_total : Prop :=
  forall o mail, exists x, snd (SaveAs o mail) = Ret x.

Lemma builtin_renders (f : string) (d : string) (r : Dict) :
  In f FUNCTIONS ->
  let t := get_templates_for_function f in
  let ctx := row_ctx d r in
  (exists s, render_text (subject t) ctx = Ret s)
  /\ (exists s, render_text (sebastian t) ctx = Ret s)
  /\ (exists s, render_text (poc t) ctx = Ret s)
  /\ (exists s, render_text (aseem t) ctx = Ret s).
Proof.
  intros Hf. cbv zeta.
  pose proof (proj1 (Forall_forall _ _) registry_compiles f Hf) as H. cbv zeta in H.
  rewrite Forall_forall in H.
  assert (R : forall s, In s [subject (get_templates_for_function f);
                              sebastian (get_templates_for_function f);
                              poc (get_templates_for_function f);
                              aseem (get_templates_for_function f)] ->
                        exists out, render_text s (row_ctx d r) = Ret out).
  { intros s Hs. destruct (H s Hs) as [tmpl E].
    rewrite (render_text_compiled other_syntax _ _ _ E). unfold call_render.
    replace (get (row_ctx d r) "self") with (@None string) by reflexivity.
    eexists. reflexivity. }
  repeat split; apply R; cbn [In]; tauto.
Qed.

(** X21: with the templates of the four functions a row can fail only
    in Outlook: rendering them never raises, so when Outlook never
    raises the [try] block of every row returns and no row is FAILED. *)
Theorem builtin_rows_fail_only_in_outlook
    (f : string) (i : nat) (r : Dict) (w : World) :
  In f FUNCTIONS ->
  outlook_total ->
  exists w', row_body (get_templates_for_function f) i r w = (Ret tt, w')
             /\ process_row (get_templates_for_function f) i r w = w'.
Proof.
  intros Hf Htotal.
  assert (Hret : exists w', row_body (get_templates_for_function f) i r w = (Ret tt, w')).
  { destruct (builtin_renders f (today i) r Hf) as ([subj Hs] & [b1 Hb1] & [b2 Hb2] & [b3 Hb3]).
    destruct (row_present r) eqn:Hp.
    2:{ rewrite (row_body_missing Outlook SaveAs today other_syntax _ i r w Hp). eexists. reflexivity. }
    destruct (row_recipients_ok r) eqn:Hok.
    2:{ destruct (row_body_invalid Outlook SaveAs today other_syntax _ i r w subj Hp Hs Hok) as [ws E].
        rewrite E. eexists. reflexivity. }
    rewrite (row_body_stages Outlook SaveAs today other_syntax _ i r w subj Hp Hok Hs).
    rewrite Hb1.
    match goal with |- context [SaveAs ?o ?m] =>
      destruct (Htotal o m) as [x1 E1]; destruct (SaveAs o m) as [o1 res1];
      cbn [snd] in E1; subst res1 end.
    cbv zeta. rewrite Hb2.
    match goal with |- context [SaveAs o1 ?m] =>
      destruct (Htotal o1 m) as [x2 E2]; destruct (SaveAs o1 m) as [o2 res2];
      cbn [snd] in E2; subst res2 end.
    cbv zeta. rewrite Hb3.
    match goal with |- context [SaveAs o2 ?m] =>
      destruct (Htotal o2 m) as [x3 E3]; destruct (SaveAs o2 m) as [o3 res3];
      cbn [snd] in E3; subst res3 end.
    eexists. reflexivity. }
  destruct Hret as [w' E]. exists w'. split; [exact E|].
  unfold Processor.process_row. rewrite E. reflexivity.
Qed.

End Batch.

End MoreProcessorFacts.

(** * The case filter of app8.py *)
Module CaseFilter.
Import PyStr.

(** One row of the case repository as the masks see it: the start and
    end dates after [pd.to_datetime] with errors coerced (nanoseconds
    since the epoch; [None] is NaT), and the two text columns after
    [astype(str)]. *)
Record Case : Type := {
  case_start_dt : option Z;
  case_end_dt : option Z;
  dnc_status : string;
  applicable_functions : string
}.

Definition TARGET_FUNCTIONS : list string :=
  ["Engineering Research and Development";
   "Procurement";
   "Supply Chain";
   "Manufacturing"].

(** [pd.to_datetime] of a calendar date (a day number): its midnight. *)
Definition day_ns : Z := 86400000000000%Z.
Definition midnight (day : Z) : Z := (day_ns * day)%Z.

(** [.date()] of a timestamp. *)
Definition date_of (ts : Z) : Z := (ts / day_ns)%Z.

Definition active_mask (c : Case) : bool :=
  match case_end_dt c with None => true | Some _ => false end.

Definition start_in_range_mask (range_start range_end : Z) (c : Case) : bool :=
  match case_start_dt c with
  | None => false
  | Some ts => (range_start <=? ts)%Z && (ts <=? range_end)%Z
  end.

Definition dnc_mask (c : Case) : bool :=
  String.eqb (strip (dnc_status c)) "Allow Data Collection".

Section Pandas.

(** [Series.str.contains(func, case=False, na=False)] on one cell: a
    regular-expression search for [func] that ignores case by the rules
    of the library.  It is left open here. *)
Variable str_contains : string -> string -> bool.

(** The loop over [TARGET_FUNCTIONS], starting from [False]. *)
Definition func_mask (c : Case) : bool :=
  fold_left (fun m func => m || str_contains func (applicable_functions c))
            TARGET_FUNCTIONS false.

Definition final_mask (range_start range_end : Z) (c : Case) : bool :=
  active_mask c && start_in_range_mask range_start range_end c
  && dnc_mask c && func_mask c.

(** [df.loc[final_mask]] for the days picked in the side bar. *)
Definition filtered_df (range_start_date range_end_date : Z) (df : list Case) : list Case :=
  filter (final_mask (midnight range_start_date) (midnight range_end_date)) df.

End Pandas.

End CaseFilter.

Module CaseFilterFacts.
Import PyStr CaseFilter.
Local Open Scope Z_scope.

Section Pandas.

Variable str_contains : string -> string -> bool.

Local Abbreviation final_mask := (final_mask str_contains).
Local Abbreviation filtered_df := (filtered_df str_contains).

Lemma final_mask_wider (s e s' e' : Z) (c : Case) :
  s' <= s -> e <= e' ->
  final_mask s e c = true -> final_mask s' e' c = true.
Proof.
  unfold final_mask, start_in_range_mask. intros Hs He H.
  apply andb_true_iff in H as [H Hf]. apply andb_true_iff in H as [H Hd].
  apply andb_true_iff in H as [Ha Hr].
  rewrite Ha, Hd, Hf. destruct (case_start_dt c) as [ts|]; [|discriminate Hr].
  apply andb_true_iff in Hr as [H1 H2]. apply Z.leb_le in H1, H2.
  replace (s' <=? ts) with true by (symmetry; apply Z.leb_le; lia).
  replace (ts <=? e') with true by (symmetry; apply Z.leb_le; lia).
  reflexivity.
Qed.

Lemma filter_filter {A : Type} (f g : A -> bool) (l : list A) :
  (forall x, f x = true -> g x = true) ->
  filter f (filter g l) = filter f l.
Proof.
  intros H. induction l as [|x l IH]; [reflexivity|].
  cbn [filter]. destruct (g x) eqn:G.
  - cbn [filter]. rewrite IH. reflexivity.
  - destruct (f x) eqn:F; [|exact IH]. rewrite (H x F) in G. discriminate G.
Qed.

(** X23: widening the range of days never loses a case: the cases kept
    for a range are the cases kept for any wider range, filtered again
    with the narrower one; a range whose end is before its start keeps
    nothing. *)
Theorem filtered_df_monotone (d1 d2 d1' d2' : Z) (df : list Case) :
  (d1' <= d1 -> d2 <= d2' ->
   filtered_df d1 d2 df = filtered_df d1 d2 (filtered_df d1' d2' df))
  /\ (d2 < d1 -> filtered_df d1 d2 df = []).
Proof.
  unfold filtered_df, midnight. split.
  - intros H1 H2. symmetry. apply filter_filter.
    intros c. apply final_mask_wider; unfold day_ns; lia.
  - intros H. induction df as [|c df IH]; [reflexivity|].
    cbn [filter]. rewrite IH.
    unfold final_mask, start_in_range_mask.
    destruct (case_start_dt c) as [ts|]; [|rewrite andb_false_r; reflexivity].
    destruct (Z.leb_spec (day_ns * d1) ts), (Z.leb_spec ts (day_ns * d2));
      cbn [andb]; rewrite ?andb_false_r; try reflexivity.
    unfold day_ns in *. lia.
Qed.

(** X24: the end of the range is the midnight that starts the end day: a
    case that starts on the end day at a later time of day is not kept,
    whatever its other columns say. *)
Theorem end_day_cut_at_midnight (d1 d2 ts : Z) (c : Case) :
  case_start_dt c = Some ts ->
  date_of ts = d2 ->
  ts <> midnight d2 ->
  filtered_df d1 d2 [c] = [].
Proof.
  unfold filtered_df, date_of, midnight. intros Hts Hday Hne.
  cbn [filter]. unfold final_mask, start_in_range_mask. rewrite Hts.
  assert (day_ns * d2 < ts).
  { pose proof (Z.mul_div_le ts day_ns ltac:(unfold day_ns; lia)). subst d2. lia. }
  replace (ts <=? day_ns * d2) with false by (symmetry; apply Z.leb_gt; assumption).
  rewrite !andb_false_r. reflexivity.
Qed.

End Pandas.

(** A search that finds every phrase in every cell. *)
Definition finds_all (func cell : string) : bool := true.

(** A case of 2 January at noon, the range ending on 2 January. *)
Definition noon_case : Case :=
  {| case_start_dt := Some (midnight 1 + 43200000000000);
     case_end_dt := None;
     dnc_status := "Allow Data Collection";
     applicable_functions := "Supply Chain; Procurement" |}.

Lemma end_day_cut_at_midnight_witness :
  case_start_dt noon_case = Some (midnight 1 + 43200000000000)
  /\ date_of (midnight 1 + 43200000000000) = 1
  /\ midnight 1 + 43200000000000 <> midnight 1
  /\ filtered_df finds_all 0 1 [noon_case] = []
  /\ filtered_df finds_all 0 2 [noon_case] = [noon_case].
Proof.
  split; [reflexivity|]. split; [reflexivity|].
  split; [intros E; vm_compute in E; discriminate E|].
  split; [|reflexivity].
  refine (end_day_cut_at_midnight finds_all 0 1 (midnight 1 + 43200000000000) noon_case
            eq_refl eq_refl _).
  intros E. vm_compute in E. discriminate E.
Defined.

Lemma filtered_df_monotone_witness :
  filtered_df finds_all 1 1 [noon_case]
  = filtered_df finds_all 1 1 (filtered_df finds_all 0 2 [noon_case]).
Proof.
  refine (proj1 (filtered_df_monotone finds_all 1 1 0 2 [noon_case]) _ _);
    intros E; vm_compute in E; discriminate E.
Defined.

End CaseFilterFacts.

(** * The status lines *)
Module ReportFacts.
Import PyStr Jinja Processor Stages StrFacts AddressFacts.

(** What a status line reports. *)
Inductive report : Type :=
| ReportOK (base : string)
| ReportMissing
| ReportInvalid
| ReportFailed (e : string).

Definition status_line (i : nat) (k : report) : string :=
  match k with
  | ReportOK base => status_ok i base
  | ReportMissing => status_skipped_missing i
  | ReportInvalid => status_skipped_invalid i
  | ReportFailed e => status_failed i e
  end.

Lemma uint_no_colon (d : Decimal.uint) :
  contains ":" (NilEmpty.string_of_uint d) = false.
Proof. induction d; cbn; auto. Qed.

Lemma str_of_nat_inj (a b : nat) : str_of_nat a = str_of_nat b -> a = b.
Proof.
  unfold str_of_nat. intros H.
  apply (f_equal NilEmpty.uint_of_string) in H. rewrite !NilEmpty.usu in H.
  injection H as H. apply (f_equal Nat.of_uint) in H.
  rewrite !DecimalNat.Unsigned.of_to in H. exact H.
Qed.

(** The part of a status line after the row number. *)
Definition report_tail (k : report) : string :=
  match status_line 0 k with
  | String _ (String _ (String _ (String _ (String _ (String _ t))))) => t
  | _ => ""
  end.

Lemma status_line_parts (i : nat) (k : report) :
  status_line i k = "Row " ++ str_of_nat (i + 1) ++ String ":" (report_tail k).
Proof. destruct k; reflexivity. Qed.

Lemma report_tail_inj (k k' : report) : report_tail k = report_tail k' -> k = k'.
Proof.
  destruct k, k'; cbn; intros H; try reflexivity; try discriminate H.
  - injection H as ->. reflexivity.
  - injection H as ->. reflexivity.
Qed.

(** X22: a status line tells its row and its outcome without ambiguity:
    two lines are equal only for the same row index and the same report
    (OK with the same name, SKIPPED for the same reason, FAILED with the
    same message). *)
Theorem status_line_unambiguous (i j : nat) (k k' : report) :
  status_line i k = status_line j k' -> i = j /\ k = k'.
Proof.
  rewrite !status_line_parts. intros H.
  cbn [append] in H. injection H as H.
  apply (f_equal (split1 ":")) in H.
  rewrite !split1_app in H by apply uint_no_colon.
  injection H as Hn Ht. split.
  - apply str_of_nat_inj in Hn. lia.
  - apply report_tail_inj, Ht.
Qed.

End ReportFacts.

(** * The further properties on concrete inputs *)
Module MoreWitnesses.
Import PyStr Recipients Validator Jinja Templates Processor Stages Preview RenderFacts.
Import MoreRecipientFacts ValidatorFacts MoreRenderFacts MoreProcessorFacts.
Import ProcessorFacts ReportFacts.

Lemma dedup_against_to_idempotent_witness :
  _split_recipients " ; " = []
  /\ dedup_against_to " ; " "b@y.com ,a@x.com" = "b@y.com; a@x.com".
Proof.
  split; [reflexivity|].
  exact (proj2 (dedup_against_to_idempotent " ; " "b@y.com ,a@x.com") eq_refl).
Defined.

Lemma assert_recipients_verdict_witness :
  fst (assert_recipients_or_warn 4 "To" "cm@acme.com; somebody") = false
  /\ snd (assert_recipients_or_warn 4 "To" "cm@acme.com; somebody")
     = Some "Row 5: Invalid To -> somebody".
Proof.
  split; [reflexivity|].
  exact (proj2 (proj2 (assert_recipients_verdict 4 "To" "cm@acme.com; somebody")) eq_refl).
Defined.

Lemma render_text_uses_printed_names_witness :
  placeholders SUBJECT_ERD = Some ["case_code"; "client_name"]
  /\ render_text refuses SUBJECT_ERD
       [("case_code", "C100"); ("client_name", "Acme"); ("today", "04 Nov 2026")]
     = render_text refuses SUBJECT_ERD
         [("client_name", "Acme"); ("today", "05 Nov 2026"); ("case_code", "C100")].
Proof.
  split; [reflexivity|].
  refine (proj1 (render_text_uses_printed_names refuses SUBJECT_ERD
                   ["case_code"; "client_name"] _ _) eq_refl _).
  intros x Hx. cbn [In] in Hx.
  destruct Hx as [<-|[<-|[<-|[]]]]; reflexivity.
Defined.

(** What the preview shows for the example row, template by template. *)
Definition acme_shown (n : nat) : Shown :=
  nth n
      (match preview refuses erd (fixed_day 0) acme_row with
       | Ret l => l
       | Raise _ => []
       end)
      {| shown_to := ""; shown_cc := ""; shown_bcc := "";
         shown_subject := ""; shown_body := "" |}.

Lemma preview_is_generated_witness :
  preview refuses erd (fixed_day 0) acme_row = Ret [acme_shown 0; acme_shown 1; acme_shown 2]
  /\ shown_cc (acme_shown 0) = "tl@acme.com; poc@acme.com; ERDDBTeam.Global@Bain.com"
  /\ process_row nat (counting_session 9) fixed_day refuses erd 0 acme_row (fresh 0)
     = {| session := 3;
          zf := [(path1 acme_row, []); (path2 acme_row, []); (path3 acme_row, [])];
          status := [status_ok 0 (row_base acme_row)];
          warnings := [] |}.
Proof.
  assert (Hprev : preview refuses erd (fixed_day 0) acme_row
                  = Ret [acme_shown 0; acme_shown 1; acme_shown 2])
    by (vm_compute; reflexivity).
  split; [exact Hprev|]. split; [vm_compute; reflexivity|].
  refine (preview_is_generated nat (counting_session 9) fixed_day refuses erd 0 acme_row (fresh 0)
            (acme_shown 0) (acme_shown 1) (acme_shown 2) 1 2 3 [] [] []
            Hprev _ _ eq_refl eq_refl eq_refl); vm_compute; reflexivity.
Defined.

Lemma returned_row_all_or_nothing_witness :
  row_body nat (counting_session 9) fixed_day refuses erd 1 bad_cc_row (fresh 0)
  = (Ret tt, {| session := 0; zf := [];
                status := [status_skipped_invalid 1];
                warnings := ["Row 2: Invalid CC (Sebastian) -> not-an-email";
                             "Row 2: Invalid CC (POC) -> not-an-email";
                             "Row 2: Invalid CC (Aseem) -> not-an-email"] |})
  /\ process_row nat (counting_session 9) fixed_day refuses erd 1 bad_cc_row (fresh 0)
     = {| session := 0; zf := [];
          status := [status_skipped_invalid 1];
          warnings := ["Row 2: Invalid CC (Sebastian) -> not-an-email";
                       "Row 2: Invalid CC (POC) -> not-an-email";
                       "Row 2: Invalid CC (Aseem) -> not-an-email"] |}.
Proof.
  assert (H : row_body nat (counting_session 9) fixed_day refuses erd 1 bad_cc_row (fresh 0)
              = (Ret tt, {| session := 0; zf := [];
                            status := [status_skipped_invalid 1];
                            warnings := ["Row 2: Invalid CC (Sebastian) -> not-an-email";
                                         "Row 2: Invalid CC (POC) -> not-an-email";
                                         "Row 2: Invalid CC (Aseem) -> not-an-email"] |}))
    by (vm_compute; reflexivity).
  split; [exact H|].
  exact (proj1 (returned_row_all_or_nothing nat (counting_session 9) fixed_day refuses erd 1
                  bad_cc_row (fresh 0) _ tt H)).
Defined.

Lemma unchecked_row_leaves_outlook_witness :
  row_recipients_ok bad_cc_row = false
  /\ session (process_row nat (counting_session 0) fixed_day refuses erd 1 bad_cc_row (fresh 0)) = 0
  /\ zf (process_row nat (counting_session 0) fixed_day refuses erd 1 bad_cc_row (fresh 0)) = [].
Proof.
  assert (H : row_recipients_ok bad_cc_row = false) by (vm_compute; reflexivity).
  split; [exact H|].
  exact (unchecked_row_leaves_outlook nat (counting_session 0) fixed_day refuses erd 1
           bad_cc_row (fresh 0) (or_intror H)).
Defined.

(** A session that always returns an empty template. *)
Definition always_session (calls : nat) (mail : MailItem) : nat * outcome bytes :=
  (S calls, Ret []).

Lemma builtin_rows_fail_only_in_outlook_witness :
  In "Procurement" FUNCTIONS
  /\ outlook_total nat always_session
  /\ exists w',
       row_body nat always_session fixed_day refuses (get_templates_for_function "Procurement")
         0 acme_row (fresh 0) = (Ret tt, w')
       /\ process_row nat always_session fixed_day refuses (get_templates_for_function "Procurement")
            0 acme_row (fresh 0) = w'.
Proof.
  assert (Hf : In "Procurement" FUNCTIONS) by (right; right; left; reflexivity).
  assert (Ht : outlook_total nat always_session)
    by (intros o mail; exists []; reflexivity).
  split; [exact Hf|]. split; [exact Ht|].
  exact (builtin_rows_fail_only_in_outlook nat always_session fixed_day refuses "Procurement"
           0 acme_row (fresh 0) Hf Ht).
Defined.

Lemma status_line_unambiguous_witness :
  status_line 2 ReportInvalid = status_line (1 + 1) ReportInvalid
  /\ 2 = 1 + 1 /\ ReportInvalid = ReportInvalid.
Proof.
  split; [reflexivity|].
  exact (status_line_unambiguous 2 (1 + 1) ReportInvalid ReportInvalid eq_refl).
Defined.

End MoreWitnesses.
